(** * RasterLite2 raster access layer of the OGR SQLite driver

    A shallow embedding of [gdal/ogr/ogrsf_frmts/sqlite/rasterlite2.cpp]:
    coverage resolution ([OpenRasterSubDataset]), the overview chain
    ([CreateRL2OverviewDatasetIfNeeded]), block reading
    ([RL2RasterBand::IReadBlock]) and the pre-flight and option handling of
    [OGRSQLiteDriverCreateCopy]; then the listing of the coverages
    ([OpenRaster]), the accessors of the data source and of its bands, and
    the two helpers of the ingestion ([CreateDefaultNoData],
    [RasterLite2Callback]).

    Conventions.
    - C [double] values are IEEE 754 binary64 numbers, taken from the
      specification of floating-point operations of the standard library
      ([SpecFloat], precision 53, maximal exponent 1024).
    - C [int] values are [Z]; where the source multiplies [int]s the
      two's-complement wrap-around is written out ([wrap_int]).
    - The storage engine and the native raster library are external: their
      answers are the fields of a [Services] record that every operation
      takes as an argument.
    - Logging ([CPLError], [CPLDebug]) and resource release ([rl2_free]) are
      recorded as events, so that statements about what did or did not
      happen can be made. *)

From Stdlib Require Import ZArith Lia List Bool Ascii String.
From Stdlib Require Import Floats.SpecFloat.
From stdpp Require Import gmap strings list pretty.

Open Scope Z_scope.

(* ===================================================================== *)
(** ** C numbers *)
(* ===================================================================== *)

Definition INT_MAX : Z := 2147483647.
Definition INT_MIN : Z := -2147483648.

(** Two's-complement reduction of an integer to the range of a 32-bit
    [int]. *)
Definition wrap_int (z : Z) : Z := (z + 2 ^ 31) mod 2 ^ 32 - 2 ^ 31.

Module Double.

Definition prec : Z := 53.
Definition emax : Z := 1024.

Definition double : Type := spec_float.

Definition add : double -> double -> double := SFadd prec emax.
Definition sub : double -> double -> double := SFsub prec emax.
Definition mul : double -> double -> double := SFmul prec emax.
Definition div : double -> double -> double := SFdiv prec emax.
Definition opp : double -> double := SFopp.
Definition fabs : double -> double := SFabs.

(** [a < b], [a <= b], [a == b]; all false when a NaN is involved. *)
Definition ltb : double -> double -> bool := SFltb.
Definition leb : double -> double -> bool := SFleb.
Definition eqb : double -> double -> bool := SFeqb.
(** [a > b] and [a != b] as the compiler derives them. *)
Definition gtb (a b : double) : bool := SFltb b a.
Definition neb (a b : double) : bool := negb (SFeqb a b).


(** Conversion of an [int] to [double] (exact below 2^53). *)
Definition of_int (z : Z) : double := binary_normalize prec emax z 0 false.

(** [static_cast<int>(d)]: truncation towards zero.  The C++ standard
    leaves the conversion undefined when the truncated value does not fit
    an [int] or [d] is not finite; the model returns [INT_MIN] there, the
    "integer indefinite" value of the x86 conversion instructions. *)
Definition to_int (d : double) : Z :=
  match d with
  | S754_zero _ => 0
  | S754_finite s m e =>
      let mag := Z.shiftl (Zpos m) e in
      let v := if s then - mag else mag in
      if (INT_MIN <=? v) && (v <=? INT_MAX) then v else INT_MIN
  | S754_infinity _ | S754_nan => INT_MIN
  end.

(** The literals of the source. *)
Definition zero : double := S754_zero false.
Definition half : double := Eval vm_compute in div (of_int 1) (of_int 2).
Definition lit_1e_5 : double :=
  Eval vm_compute in div (of_int 1) (of_int 100000).
Definition int_max : double := Eval vm_compute in of_int INT_MAX.

End Double.

Abbreviation double := Double.double.

(* ===================================================================== *)
(** ** Strings *)
(* ===================================================================== *)

(** [toupper] of the C library, on ASCII letters. *)
Definition toupper (c : ascii) : ascii :=
  let n := nat_of_ascii c in
  if ((97 <=? n) && (n <=? 122))%nat then ascii_of_nat (n - 32) else c.

(** Modelled from the spec: the macros [EQUAL] and [STARTS_WITH_CI] belong
    to the portability layer, which is not among the sources.  They compare
    the option names and values and the scheme prefix that the spec lists,
    without regard to the case of ASCII letters. *)
Fixpoint EQUAL (a b : string) : bool :=
  match a, b with
  | EmptyString, EmptyString => true
  | String x a', String y b' =>
      if Ascii.eqb (toupper x) (toupper y) then EQUAL a' b' else false
  | _, _ => false
  end.

(** [STARTS_WITH_CI(s, prefix)]. *)
Fixpoint STARTS_WITH_CI (s pre : string) : bool :=
  match pre, s with
  | EmptyString, _ => true
  | String y pre', String x s' =>
      if Ascii.eqb (toupper x) (toupper y) then STARTS_WITH_CI s' pre'
      else false
  | String _ _, EmptyString => false
  end.

(** [strchr(s, c) != NULL]. *)
Fixpoint strchr (s : string) (c : ascii) : bool :=
  match s with
  | EmptyString => false
  | String x s' => if Ascii.eqb x c then true else strchr s' c
  end.

Definition dquote : ascii := ascii_of_nat 34.
Definition colon : ascii := ascii_of_nat 58.

(** Modelled from the spec: string lists ([CPLStringList], [char**] option
    lists) and the functions on them are defined outside the sources.  The
    spec describes the sub-dataset listing and the options as ordered
    name/value pairs; they are kept as lists of pairs. *)
Definition StringList : Type := list (string * string).

(** Modelled from the spec: [CSLFetchNameValue], of the same missing
    layer, answers the value of the first entry with the given name, and
    [None] (a null pointer) when there is none. *)
Fixpoint CSLFetchNameValue (l : StringList) (name : string) : option string :=
  match l with
  | [] => None
  | (k, v) :: l' => if EQUAL k name then Some v else CSLFetchNameValue l' name
  end.

Definition CSLFetchNameValueDef (l : StringList) (name def : string) : string :=
  match CSLFetchNameValue l name with Some v => v | None => def end.

(** Modelled from the spec: [AddNameValue], of the same missing layer,
    appends an entry, which keeps the listing ordered. *)
Definition AddNameValue (l : StringList) (name value : string) : StringList :=
  l ++ [(name, value)].

(** [CPLSPrintf("%d", n)]: the decimal form of an integer. *)
Definition fmt_d (n : Z) : string := pretty n.

(** [atoi]: optional white space, optional sign, decimal digits; anything
    after the digits is ignored.  The value is reduced to an [int]. *)
Definition isspace (c : ascii) : bool :=
  let n := nat_of_ascii c in ((n =? 32) || ((9 <=? n) && (n <=? 13)))%nat.

Definition digit_of (c : ascii) : option Z :=
  let n := nat_of_ascii c in
  if ((48 <=? n) && (n <=? 57))%nat then Some (Z.of_nat (n - 48)) else None.

Fixpoint atoi_digits (s : string) (acc : Z) : Z :=
  match s with
  | EmptyString => acc
  | String c s' =>
      match digit_of c with
      | Some d => atoi_digits s' (10 * acc + d)
      | None => acc
      end
  end.

Fixpoint atoi_skip (s : string) : string :=
  match s with
  | String c s' => if isspace c then atoi_skip s' else s
  | EmptyString => s
  end.

Definition atoi (s : string) : Z :=
  match atoi_skip s with
  | String "-" s' => wrap_int (- atoi_digits s' 0)
  | String "+" s' => wrap_int (atoi_digits s' 0)
  | s' => wrap_int (atoi_digits s' 0)
  end.

(* ===================================================================== *)
(** ** Enumerations of the raster library and of the raster core *)
(* ===================================================================== *)

(** Modelled from the spec: the headers that declare the enumerations
    below are not among the sources.  Sample types, pixel types and
    compression codes are [unsigned char] codes of the raster library; the
    named codes are the ones the source and the spec mention, and
    [_OTHER c] stands for any other code [c], which the source reaches
    through its [default:] branches. *)
Inductive rl2_sample :=
  | RL2_SAMPLE_UNKNOWN | RL2_SAMPLE_1_BIT | RL2_SAMPLE_2_BIT | RL2_SAMPLE_4_BIT
  | RL2_SAMPLE_INT8 | RL2_SAMPLE_UINT8 | RL2_SAMPLE_INT16 | RL2_SAMPLE_UINT16
  | RL2_SAMPLE_INT32 | RL2_SAMPLE_UINT32 | RL2_SAMPLE_FLOAT | RL2_SAMPLE_DOUBLE
  | RL2_SAMPLE_OTHER (code : Z).

Inductive rl2_pixel :=
  | RL2_PIXEL_UNKNOWN | RL2_PIXEL_MONOCHROME | RL2_PIXEL_PALETTE
  | RL2_PIXEL_GRAYSCALE | RL2_PIXEL_RGB | RL2_PIXEL_MULTIBAND
  | RL2_PIXEL_DATAGRID | RL2_PIXEL_OTHER (code : Z).

Inductive rl2_compression :=
  | RL2_COMPRESSION_UNKNOWN | RL2_COMPRESSION_NONE
  | RL2_COMPRESSION_DEFLATE | RL2_COMPRESSION_DEFLATE_NO
  | RL2_COMPRESSION_LZMA | RL2_COMPRESSION_LZMA_NO
  | RL2_COMPRESSION_GIF | RL2_COMPRESSION_JPEG | RL2_COMPRESSION_PNG
  | RL2_COMPRESSION_LOSSY_WEBP | RL2_COMPRESSION_LOSSLESS_WEBP
  | RL2_COMPRESSION_CCITTFAX3 | RL2_COMPRESSION_CCITTFAX4
  | RL2_COMPRESSION_LZW | RL2_COMPRESSION_CHARLS
  | RL2_COMPRESSION_LOSSY_JP2 | RL2_COMPRESSION_LOSSLESS_JP2
  | RL2_COMPRESSION_OTHER (code : Z).

Inductive GDALDataType :=
  | GDT_Unknown | GDT_Byte | GDT_UInt16 | GDT_Int16 | GDT_UInt32 | GDT_Int32
  | GDT_Float32 | GDT_Float64
  | GDT_CInt16 | GDT_CInt32 | GDT_CFloat32 | GDT_CFloat64.

Inductive GDALColorInterp :=
  | GCI_Undefined | GCI_GrayIndex | GCI_PaletteIndex
  | GCI_RedBand | GCI_GreenBand | GCI_BlueBand | GCI_AlphaBand
  | GCI_Later (code : Z).

Inductive CPLErr := CE_None | CE_Failure.

#[global] Instance rl2_sample_eq_dec : EqDecision rl2_sample.
Proof. solve_decision. Defined.
#[global] Instance rl2_pixel_eq_dec : EqDecision rl2_pixel.
Proof. solve_decision. Defined.
#[global] Instance rl2_compression_eq_dec : EqDecision rl2_compression.
Proof. solve_decision. Defined.
#[global] Instance GDALDataType_eq_dec : EqDecision GDALDataType.
Proof. solve_decision. Defined.
#[global] Instance GDALColorInterp_eq_dec : EqDecision GDALColorInterp.
Proof. solve_decision. Defined.
#[global] Instance CPLErr_eq_dec : EqDecision CPLErr.
Proof. solve_decision. Defined.

(** Modelled from the spec: [GDALGetDataTypeSizeBytes] is defined outside
    the sources; it is the spec's bytes per sample, the size of the
    container of a data type (a complex type holds two components). *)
Definition GDALGetDataTypeSizeBytes (eDT : GDALDataType) : Z :=
  match eDT with
  | GDT_Unknown => 0
  | GDT_Byte => 1
  | GDT_UInt16 | GDT_Int16 => 2
  | GDT_UInt32 | GDT_Int32 | GDT_Float32 | GDT_CInt16 => 4
  | GDT_Float64 | GDT_CInt32 | GDT_CFloat32 => 8
  | GDT_CFloat64 => 16
  end.

(** Modelled from the spec: the numbering of the colour interpretations
    is declared outside the sources.  The source computes
    [static_cast<GDALColorInterp>(GCI_RedBand + nBandIn - 1)], so that the
    bands of an RGB coverage are red, green and blue in this order: red,
    green, blue, alpha are 3, 4, 5 and 6. *)
Definition color_interp_of_code (c : Z) : GDALColorInterp :=
  match c with
  | 0 => GCI_Undefined | 1 => GCI_GrayIndex | 2 => GCI_PaletteIndex
  | 3 => GCI_RedBand | 4 => GCI_GreenBand | 5 => GCI_BlueBand
  | 6 => GCI_AlphaBand | _ => GCI_Later c
  end.

(* ===================================================================== *)
(** ** Handles of the raster library *)
(* ===================================================================== *)

(** A pixel handle ([rl2PixelPtr]).  [px_type] is what [rl2_get_pixel_type]
    answers ([None] when it does not return [RL2_OK]); [px_sample st band]
    is what the accessor for sample type [st] writes for band [band]
    ([None] when the accessor fails and leaves its output untouched). *)
Record rl2Pixel := {
  px_type : option (rl2_sample * rl2_pixel * Z);
  px_sample : rl2_sample -> Z -> option double
}.

(** A coverage handle ([rl2CoveragePtr]) with the answers of its getters. *)
Record rl2Coverage := {
  cov_name : string;
  cov_xres : double;
  cov_yres : double;
  cov_srid : option Z;
  cov_sample : rl2_sample;
  cov_pixel : rl2_pixel;
  cov_bands : Z;
  cov_compression : rl2_compression;
  cov_quality : Z;
  cov_tile_width : Z;
  cov_tile_height : Z;
  cov_no_data : option rl2Pixel;
  cov_strict_resolution : Z;
  cov_mixed_resolutions : Z;
  cov_section_paths : Z;
  cov_section_md5 : Z;
  cov_section_summary : Z
}.

(* ===================================================================== *)
(** ** Bands and datasets *)
(* ===================================================================== *)

(** Modelled from the spec: [SetMetadataItem] and [GetMetadataItem] belong
    to the generic raster abstraction, outside the sources.  The spec
    describes metadata as string key/value items namespaced by a domain:
    items are keyed by (domain, name), the default domain being the empty
    string, and setting a null value removes the item. *)
Abbreviation Metadata := (gmap (string * string) string).

Definition SetMetadataItem (md : Metadata) (name : string)
    (value : option string) (domain : string) : Metadata :=
  match value with
  | Some v => <[(domain, name) := v]> md
  | None => delete (domain, name) md
  end.

Definition GetMetadataItem (md : Metadata) (name domain : string)
    : option string := md !! (domain, name).

Record RL2RasterBand := {
  nBand : Z;
  eDataType : GDALDataType;
  nBlockXSize : Z;
  nBlockYSize : Z;
  m_bHasNoData : bool;
  m_dfNoDataValue : double;
  m_eColorInterp : GDALColorInterp;
  band_metadata : Metadata
}.

(** [RL2RasterBand::RL2RasterBand(nBandIn, nPixelType, eDT, nBits, ...)]
    followed by [SetBand(nBandIn, ...)], which records the band number. *)
Definition new_RL2RasterBand (nBandIn : Z) (nPixelType : rl2_pixel)
    (eDT : GDALDataType) (nBits : Z) (bPromote1BitAs8Bit bSigned : bool)
    (nBlockXSizeIn nBlockYSizeIn : Z) (bHasNoDataIn : bool)
    (dfNoDataValueIn : double) : RL2RasterBand :=
  let md0 : Metadata := ∅ in
  let md1 :=
    if negb (nBits mod 8 =? 0) then
      SetMetadataItem md0
        (if (nBits =? 1) && bPromote1BitAs8Bit then "SOURCE_NBITS" else "NBITS")
        (Some (fmt_d nBits)) "IMAGE_STRUCTURE"
    else md0 in
  let md2 :=
    if (nBits =? 8) && bSigned then
      SetMetadataItem md1 "PIXELTYPE" (Some "SIGNEDBYTE") "IMAGE_STRUCTURE"
    else md1 in
  let ci :=
    if bool_decide (nPixelType = RL2_PIXEL_MONOCHROME)
       || bool_decide (nPixelType = RL2_PIXEL_GRAYSCALE) then GCI_GrayIndex
    else if bool_decide (nPixelType = RL2_PIXEL_PALETTE) then GCI_PaletteIndex
    else if bool_decide (nPixelType = RL2_PIXEL_RGB)
      then color_interp_of_code (3 + nBandIn - 1)
    else GCI_Undefined in
  {| nBand := nBandIn; eDataType := eDT;
     nBlockXSize := nBlockXSizeIn; nBlockYSize := nBlockYSizeIn;
     m_bHasNoData := bHasNoDataIn; m_dfNoDataValue := dfNoDataValueIn;
     m_eColorInterp := ci; band_metadata := md2 |}.

(** [RL2RasterBand::RL2RasterBand(const RL2RasterBand* poOther)] followed
    by [SetBand(iBand, ...)]. *)
Definition copy_RL2RasterBand (iBand : Z) (poOther : RL2RasterBand)
    : RL2RasterBand :=
  let md1 := SetMetadataItem ∅ "NBITS"
               (GetMetadataItem (band_metadata poOther) "NBITS" "IMAGE_STRUCTURE")
               "IMAGE_STRUCTURE" in
  let md2 := SetMetadataItem md1 "PIXELTYPE"
               (GetMetadataItem (band_metadata poOther) "PIXELTYPE"
                  "IMAGE_STRUCTURE")
               "IMAGE_STRUCTURE" in
  {| nBand := iBand; eDataType := eDataType poOther;
     nBlockXSize := nBlockXSize poOther; nBlockYSize := nBlockYSize poOther;
     m_bHasNoData := m_bHasNoData poOther;
     m_dfNoDataValue := m_dfNoDataValue poOther;
     m_eColorInterp := m_eColorInterp poOther; band_metadata := md2 |}.

(** [RL2RasterBand::GetNoDataValue]: the value and the success flag;
    [pam] is the answer of the generic persisted-metadata band. *)
Definition GetNoDataValue (b : RL2RasterBand) (pam : double * bool)
    : double * bool :=
  if m_bHasNoData b then (m_dfNoDataValue b, true) else pam.

(** The six coefficients of [m_adfGeoTransform]. *)
Record GeoTransform := {
  gt0 : double; gt1 : double; gt2 : double;
  gt3 : double; gt4 : double; gt5 : double
}.

(** Modelled from the spec: the constructor of the data source is not among
    the sources.  A fresh data source has the identity geotransform (its
    rotation and shear terms are zero, as the spec says of every dataset),
    no parent, no coverage, no section, no band and no overview. *)
Definition default_GeoTransform : GeoTransform :=
  {| gt0 := Double.zero; gt1 := Double.of_int 1; gt2 := Double.zero;
     gt3 := Double.zero; gt4 := Double.zero; gt5 := Double.of_int 1 |}.

(** The raster part of [OGRSQLiteDataSource].  [m_poParentDS] is the
    non-owning link of an overview to the dataset that owns it; what is
    reached through it is the parent's coverage handle. *)
#[warnings="-register-all"]
Inductive OGRSQLiteDataSource := mkDataSource {
  bIsInternal : bool;
  m_poParentDS : option (option rl2Coverage);
  m_pszFilename : string;
  m_osCoverageName : string;
  m_nSectionId : Z;
  m_pRL2Coverage : option rl2Coverage;
  m_bPromote1BitAs8Bit : bool;
  m_bRL2MixedResolutions : bool;
  m_bGeoTransformValid : bool;
  m_adfGeoTransform : GeoTransform;
  m_osProjection : string;
  nRasterXSize : Z;
  nRasterYSize : Z;
  papoBands : list RL2RasterBand;
  m_aosSubDatasets : StringList;
  papszOpenOptions : StringList;
  ds_metadata : Metadata;
  m_apoOverviewDS : list OGRSQLiteDataSource
}.

(** [new OGRSQLiteDataSource()], see [default_GeoTransform]. *)
Definition new_OGRSQLiteDataSource : OGRSQLiteDataSource :=
  {| bIsInternal := false; m_poParentDS := None; m_pszFilename := "";
     m_osCoverageName := ""; m_nSectionId := -1; m_pRL2Coverage := None;
     m_bPromote1BitAs8Bit := false; m_bRL2MixedResolutions := false;
     m_bGeoTransformValid := false;
     m_adfGeoTransform := default_GeoTransform; m_osProjection := "";
     nRasterXSize := 0; nRasterYSize := 0; papoBands := [];
     m_aosSubDatasets := []; papszOpenOptions := []; ds_metadata := ∅;
     m_apoOverviewDS := [] |}.

Definition GetRasterCount (ds : OGRSQLiteDataSource) : Z :=
  Z.of_nat (length (papoBands ds)).

(* ===================================================================== *)
(** ** The overview chain *)
(* ===================================================================== *)

(** The duplicate test of the overview builder:
    [fabs(dfXRes - ref) < 1e-5 * ref]. *)
Definition same_resolution (dfXRes ref : double) : bool :=
  Double.ltb (Double.fabs (Double.sub dfXRes ref))
             (Double.mul Double.lit_1e_5 ref).

(** The size test that discards a candidate; the first disjunct is written
    twice over [nRasterXSize] in the source. *)
Definition overview_discarded (nXSize nYSize : Z) (bShowAll : bool) : bool :=
  (nXSize <=? 1) || (nXSize <=? 1) ||
  ((nXSize <? 64) && (nYSize <? 64) && negb bShowAll).

(** The dataset built for a candidate before the size test. *)
Definition overview_candidate (this : OGRSQLiteDataSource)
    (dfXRes dfYRes : double) : OGRSQLiteDataSource :=
  let gt := m_adfGeoTransform this in
  let dfMinX := gt0 gt in
  let dfMaxX := Double.add dfMinX
                  (Double.mul (gt1 gt) (Double.of_int (nRasterXSize this))) in
  let dfMaxY := gt3 gt in
  let dfMinY := Double.add dfMaxY
                  (Double.mul (gt5 gt) (Double.of_int (nRasterYSize this))) in
  {| bIsInternal := true;
     m_poParentDS := Some (m_pRL2Coverage this);
     m_pszFilename := m_pszFilename new_OGRSQLiteDataSource;
     m_osCoverageName := m_osCoverageName this;
     m_nSectionId := m_nSectionId this;
     m_pRL2Coverage := None;
     m_bPromote1BitAs8Bit := m_bPromote1BitAs8Bit this;
     m_bRL2MixedResolutions := m_bRL2MixedResolutions this;
     m_bGeoTransformValid := false;
     m_adfGeoTransform :=
       {| gt0 := gt0 gt; gt1 := dfXRes; gt2 := gt2 default_GeoTransform;
          gt3 := gt3 gt; gt4 := gt4 default_GeoTransform;
          gt5 := Double.opp dfYRes |};
     m_osProjection := "";
     nRasterXSize :=
       Double.to_int (Double.add Double.half
                        (Double.div (Double.sub dfMaxX dfMinX) dfXRes));
     nRasterYSize :=
       Double.to_int (Double.add Double.half
                        (Double.div (Double.sub dfMaxY dfMinY) dfYRes));
     papoBands := [];
     m_aosSubDatasets := []; papszOpenOptions := []; ds_metadata := ∅;
     m_apoOverviewDS := [] |}.

(** Assignments to the members of a data source. *)
Definition set_bands (v_papoBands : list RL2RasterBand)
    (ds : OGRSQLiteDataSource) : OGRSQLiteDataSource :=
  {| bIsInternal := bIsInternal ds; m_poParentDS := m_poParentDS ds;
     m_pszFilename := m_pszFilename ds;
     m_osCoverageName := m_osCoverageName ds;
     m_nSectionId := m_nSectionId ds; m_pRL2Coverage := m_pRL2Coverage ds;
     m_bPromote1BitAs8Bit := m_bPromote1BitAs8Bit ds;
     m_bRL2MixedResolutions := m_bRL2MixedResolutions ds;
     m_bGeoTransformValid := m_bGeoTransformValid ds;
     m_adfGeoTransform := m_adfGeoTransform ds;
     m_osProjection := m_osProjection ds; nRasterXSize := nRasterXSize ds;
     nRasterYSize := nRasterYSize ds; papoBands := v_papoBands;
     m_aosSubDatasets := m_aosSubDatasets ds;
     papszOpenOptions := papszOpenOptions ds; ds_metadata := ds_metadata ds;
     m_apoOverviewDS := m_apoOverviewDS ds |}.

Definition set_overviews (v_m_apoOverviewDS : list OGRSQLiteDataSource)
    (ds : OGRSQLiteDataSource) : OGRSQLiteDataSource :=
  {| bIsInternal := bIsInternal ds; m_poParentDS := m_poParentDS ds;
     m_pszFilename := m_pszFilename ds;
     m_osCoverageName := m_osCoverageName ds;
     m_nSectionId := m_nSectionId ds; m_pRL2Coverage := m_pRL2Coverage ds;
     m_bPromote1BitAs8Bit := m_bPromote1BitAs8Bit ds;
     m_bRL2MixedResolutions := m_bRL2MixedResolutions ds;
     m_bGeoTransformValid := m_bGeoTransformValid ds;
     m_adfGeoTransform := m_adfGeoTransform ds;
     m_osProjection := m_osProjection ds; nRasterXSize := nRasterXSize ds;
     nRasterYSize := nRasterYSize ds; papoBands := papoBands ds;
     m_aosSubDatasets := m_aosSubDatasets ds;
     papszOpenOptions := papszOpenOptions ds; ds_metadata := ds_metadata ds;
     m_apoOverviewDS := v_m_apoOverviewDS |}.

Definition set_subdatasets (v_m_aosSubDatasets : StringList)
    (ds : OGRSQLiteDataSource) : OGRSQLiteDataSource :=
  {| bIsInternal := bIsInternal ds; m_poParentDS := m_poParentDS ds;
     m_pszFilename := m_pszFilename ds;
     m_osCoverageName := m_osCoverageName ds;
     m_nSectionId := m_nSectionId ds; m_pRL2Coverage := m_pRL2Coverage ds;
     m_bPromote1BitAs8Bit := m_bPromote1BitAs8Bit ds;
     m_bRL2MixedResolutions := m_bRL2MixedResolutions ds;
     m_bGeoTransformValid := m_bGeoTransformValid ds;
     m_adfGeoTransform := m_adfGeoTransform ds;
     m_osProjection := m_osProjection ds; nRasterXSize := nRasterXSize ds;
     nRasterYSize := nRasterYSize ds; papoBands := papoBands ds;
     m_aosSubDatasets := v_m_aosSubDatasets;
     papszOpenOptions := papszOpenOptions ds; ds_metadata := ds_metadata ds;
     m_apoOverviewDS := m_apoOverviewDS ds |}.

Definition set_coverage_name (v_m_osCoverageName : string)
    (ds : OGRSQLiteDataSource) : OGRSQLiteDataSource :=
  {| bIsInternal := bIsInternal ds; m_poParentDS := m_poParentDS ds;
     m_pszFilename := m_pszFilename ds;
     m_osCoverageName := v_m_osCoverageName; m_nSectionId := m_nSectionId ds;
     m_pRL2Coverage := m_pRL2Coverage ds;
     m_bPromote1BitAs8Bit := m_bPromote1BitAs8Bit ds;
     m_bRL2MixedResolutions := m_bRL2MixedResolutions ds;
     m_bGeoTransformValid := m_bGeoTransformValid ds;
     m_adfGeoTransform := m_adfGeoTransform ds;
     m_osProjection := m_osProjection ds; nRasterXSize := nRasterXSize ds;
     nRasterYSize := nRasterYSize ds; papoBands := papoBands ds;
     m_aosSubDatasets := m_aosSubDatasets ds;
     papszOpenOptions := papszOpenOptions ds; ds_metadata := ds_metadata ds;
     m_apoOverviewDS := m_apoOverviewDS ds |}.

Definition set_section_id (v_m_nSectionId : Z)
    (ds : OGRSQLiteDataSource) : OGRSQLiteDataSource :=
  {| bIsInternal := bIsInternal ds; m_poParentDS := m_poParentDS ds;
     m_pszFilename := m_pszFilename ds;
     m_osCoverageName := m_osCoverageName ds; m_nSectionId := v_m_nSectionId;
     m_pRL2Coverage := m_pRL2Coverage ds;
     m_bPromote1BitAs8Bit := m_bPromote1BitAs8Bit ds;
     m_bRL2MixedResolutions := m_bRL2MixedResolutions ds;
     m_bGeoTransformValid := m_bGeoTransformValid ds;
     m_adfGeoTransform := m_adfGeoTransform ds;
     m_osProjection := m_osProjection ds; nRasterXSize := nRasterXSize ds;
     nRasterYSize := nRasterYSize ds; papoBands := papoBands ds;
     m_aosSubDatasets := m_aosSubDatasets ds;
     papszOpenOptions := papszOpenOptions ds; ds_metadata := ds_metadata ds;
     m_apoOverviewDS := m_apoOverviewDS ds |}.

Definition set_coverage (v_m_pRL2Coverage : option rl2Coverage)
    (ds : OGRSQLiteDataSource) : OGRSQLiteDataSource :=
  {| bIsInternal := bIsInternal ds; m_poParentDS := m_poParentDS ds;
     m_pszFilename := m_pszFilename ds;
     m_osCoverageName := m_osCoverageName ds;
     m_nSectionId := m_nSectionId ds; m_pRL2Coverage := v_m_pRL2Coverage;
     m_bPromote1BitAs8Bit := m_bPromote1BitAs8Bit ds;
     m_bRL2MixedResolutions := m_bRL2MixedResolutions ds;
     m_bGeoTransformValid := m_bGeoTransformValid ds;
     m_adfGeoTransform := m_adfGeoTransform ds;
     m_osProjection := m_osProjection ds; nRasterXSize := nRasterXSize ds;
     nRasterYSize := nRasterYSize ds; papoBands := papoBands ds;
     m_aosSubDatasets := m_aosSubDatasets ds;
     papszOpenOptions := papszOpenOptions ds; ds_metadata := ds_metadata ds;
     m_apoOverviewDS := m_apoOverviewDS ds |}.

Definition set_promote (v_m_bPromote1BitAs8Bit : bool)
    (ds : OGRSQLiteDataSource) : OGRSQLiteDataSource :=
  {| bIsInternal := bIsInternal ds; m_poParentDS := m_poParentDS ds;
     m_pszFilename := m_pszFilename ds;
     m_osCoverageName := m_osCoverageName ds;
     m_nSectionId := m_nSectionId ds; m_pRL2Coverage := m_pRL2Coverage ds;
     m_bPromote1BitAs8Bit := v_m_bPromote1BitAs8Bit;
     m_bRL2MixedResolutions := m_bRL2MixedResolutions ds;
     m_bGeoTransformValid := m_bGeoTransformValid ds;
     m_adfGeoTransform := m_adfGeoTransform ds;
     m_osProjection := m_osProjection ds; nRasterXSize := nRasterXSize ds;
     nRasterYSize := nRasterYSize ds; papoBands := papoBands ds;
     m_aosSubDatasets := m_aosSubDatasets ds;
     papszOpenOptions := papszOpenOptions ds; ds_metadata := ds_metadata ds;
     m_apoOverviewDS := m_apoOverviewDS ds |}.

Definition set_mixed_resolutions (v_m_bRL2MixedResolutions : bool)
    (ds : OGRSQLiteDataSource) : OGRSQLiteDataSource :=
  {| bIsInternal := bIsInternal ds; m_poParentDS := m_poParentDS ds;
     m_pszFilename := m_pszFilename ds;
     m_osCoverageName := m_osCoverageName ds;
     m_nSectionId := m_nSectionId ds; m_pRL2Coverage := m_pRL2Coverage ds;
     m_bPromote1BitAs8Bit := m_bPromote1BitAs8Bit ds;
     m_bRL2MixedResolutions := v_m_bRL2MixedResolutions;
     m_bGeoTransformValid := m_bGeoTransformValid ds;
     m_adfGeoTransform := m_adfGeoTransform ds;
     m_osProjection := m_osProjection ds; nRasterXSize := nRasterXSize ds;
     nRasterYSize := nRasterYSize ds; papoBands := papoBands ds;
     m_aosSubDatasets := m_aosSubDatasets ds;
     papszOpenOptions := papszOpenOptions ds; ds_metadata := ds_metadata ds;
     m_apoOverviewDS := m_apoOverviewDS ds |}.

Definition set_geometry (v_nRasterXSize v_nRasterYSize : Z)
    (v_m_bGeoTransformValid : bool) (v_m_adfGeoTransform : GeoTransform)
    (ds : OGRSQLiteDataSource) : OGRSQLiteDataSource :=
  {| bIsInternal := bIsInternal ds; m_poParentDS := m_poParentDS ds;
     m_pszFilename := m_pszFilename ds;
     m_osCoverageName := m_osCoverageName ds;
     m_nSectionId := m_nSectionId ds; m_pRL2Coverage := m_pRL2Coverage ds;
     m_bPromote1BitAs8Bit := m_bPromote1BitAs8Bit ds;
     m_bRL2MixedResolutions := m_bRL2MixedResolutions ds;
     m_bGeoTransformValid := v_m_bGeoTransformValid;
     m_adfGeoTransform := v_m_adfGeoTransform;
     m_osProjection := m_osProjection ds; nRasterXSize := v_nRasterXSize;
     nRasterYSize := v_nRasterYSize; papoBands := papoBands ds;
     m_aosSubDatasets := m_aosSubDatasets ds;
     papszOpenOptions := papszOpenOptions ds; ds_metadata := ds_metadata ds;
     m_apoOverviewDS := m_apoOverviewDS ds |}.

Definition set_projection (v_m_osProjection : string)
    (ds : OGRSQLiteDataSource) : OGRSQLiteDataSource :=
  {| bIsInternal := bIsInternal ds; m_poParentDS := m_poParentDS ds;
     m_pszFilename := m_pszFilename ds;
     m_osCoverageName := m_osCoverageName ds;
     m_nSectionId := m_nSectionId ds; m_pRL2Coverage := m_pRL2Coverage ds;
     m_bPromote1BitAs8Bit := m_bPromote1BitAs8Bit ds;
     m_bRL2MixedResolutions := m_bRL2MixedResolutions ds;
     m_bGeoTransformValid := m_bGeoTransformValid ds;
     m_adfGeoTransform := m_adfGeoTransform ds;
     m_osProjection := v_m_osProjection; nRasterXSize := nRasterXSize ds;
     nRasterYSize := nRasterYSize ds; papoBands := papoBands ds;
     m_aosSubDatasets := m_aosSubDatasets ds;
     papszOpenOptions := papszOpenOptions ds; ds_metadata := ds_metadata ds;
     m_apoOverviewDS := m_apoOverviewDS ds |}.

Definition set_metadata (v_ds_metadata : Metadata)
    (ds : OGRSQLiteDataSource) : OGRSQLiteDataSource :=
  {| bIsInternal := bIsInternal ds; m_poParentDS := m_poParentDS ds;
     m_pszFilename := m_pszFilename ds;
     m_osCoverageName := m_osCoverageName ds;
     m_nSectionId := m_nSectionId ds; m_pRL2Coverage := m_pRL2Coverage ds;
     m_bPromote1BitAs8Bit := m_bPromote1BitAs8Bit ds;
     m_bRL2MixedResolutions := m_bRL2MixedResolutions ds;
     m_bGeoTransformValid := m_bGeoTransformValid ds;
     m_adfGeoTransform := m_adfGeoTransform ds;
     m_osProjection := m_osProjection ds; nRasterXSize := nRasterXSize ds;
     nRasterYSize := nRasterYSize ds; papoBands := papoBands ds;
     m_aosSubDatasets := m_aosSubDatasets ds;
     papszOpenOptions := papszOpenOptions ds; ds_metadata := v_ds_metadata;
     m_apoOverviewDS := m_apoOverviewDS ds |}.

(** [OGRSQLiteDataSource::CreateRL2OverviewDatasetIfNeeded].  [bShowAll] is
    [CPLTestBool(CPLGetConfigOption("RL2_SHOW_ALL_PYRAMID_LEVELS", "NO"))]. *)
Definition CreateRL2OverviewDatasetIfNeeded (bShowAll : bool)
    (this : OGRSQLiteDataSource) (dfXRes dfYRes : double)
    : OGRSQLiteDataSource :=
  if same_resolution dfXRes (gt1 (m_adfGeoTransform this)) then this
  else if existsb
            (fun o => same_resolution dfXRes (gt1 (m_adfGeoTransform o)))
            (m_apoOverviewDS this) then this
  else
    let poOvrDS := overview_candidate this dfXRes dfYRes in
    if overview_discarded (nRasterXSize poOvrDS) (nRasterYSize poOvrDS)
         bShowAll
    then this
    else
      let bands :=
        imap (fun i b => copy_RL2RasterBand (Z.of_nat i + 1) b)
             (papoBands this) in
      set_overviews (m_apoOverviewDS this ++ [set_bands bands poOvrDS]) this.

(* ===================================================================== *)
(** ** The store and the raster library, as seen by this file *)
(* ===================================================================== *)

(** What is logged or released while an operation runs, and the steps of
    the ingestion that touch the target store. *)
Inductive Event :=
  | EvError (msg : string)
  | EvWarning (msg : string)
  | EvDebug (msg : string)
  | EvFree
  | EvOpenStore (name : string)
  | EvCreateStore (name : string) (options : StringList)
  | EvStartTransaction
  | EvCreateRasterCoveragesTable
  | EvCreateCoverage (name : string) (sample : rl2_sample) (pixel : rl2_pixel)
      (bands : Z) (compression : rl2_compression) (quality : Z)
      (tile_width tile_height : Z)
  | EvLoadTiles (coverage section : string)
  | EvCommitTransaction
  | EvReopen (connection : string).

(** Band statistics: minimum, maximum, mean, variance, standard deviation. *)
Record BandStatistics := {
  st_min : double; st_max : double; st_mean : double;
  st_variance : double; st_stddev : double
}.

(** The extent answered by [rl2_resolve_full_section_from_dbms]. *)
Record SectionExtent := {
  se_minx : double; se_miny : double; se_maxx : double; se_maxy : double;
  se_width : Z; se_height : Z
}.

(** A request to one of the two raw-data primitives. *)
Record RawRequest := {
  rq_coverage : option rl2Coverage;
  rq_section : option Z;
  rq_width : Z; rq_height : Z;
  rq_minx : double; rq_miny : double; rq_maxx : double; rq_maxy : double;
  rq_xres : double; rq_yres : double;
  rq_out_pixel : rl2_pixel
}.

(** Rows of the level tables: x and y resolution at scales 1:1, 1:2, 1:4
    and 1:8, each possibly NULL. *)
Definition LevelRow : Type :=
  (option string * option string) * (option string * option string) *
  (option string * option string) * (option string * option string).

(** The external services.  A query answers [None] when it does not return
    [SQLITE_OK] and the list of its rows otherwise; a library call answers
    [None] when it does not return [RL2_OK] (or returns a null handle).  The
    two level queries also hand back [pszErrMsg], the error message of
    [sqlite3_get_table], which is null ([None]) or a text. *)
Record Services := {
  CSLTokenizeString2 : string -> list string;
  OGRSQLiteParamsUnquote : string -> string;
  OGRSQLiteEscapeName : string -> string;
  CPLAtoGIntBig : string -> Z;
  CPLAtof : string -> double;
  CPLFetchBool : StringList -> string -> bool -> bool;
  GDALCheckBandCount : Z -> bool -> bool;
  fmt_g : double -> string;
  fmt_16g : double -> string;
  show_all_pyramid_levels : bool;
  rl2_create_coverage_from_dbms : string -> option rl2Coverage;
  query_sections : string -> option (list (option string * option string));
  rl2_resolve_base_resolution_from_dbms :
    string -> Z -> option (double * double);
  rl2_resolve_full_section_from_dbms :
    string -> Z -> double -> double -> option SectionExtent;
  query_extent :
    string ->
    option (list (option string * option string * option string * option string));
  fetch_srs_wkt : Z -> option string;
  rl2_create_raster_statistics_from_dbms :
    string -> option (Z -> option BandStatistics);
  query_title_abstract :
    string -> option (list (option string * option string));
  query_section_summary : string -> Z -> option (list (option string));
  query_levels : string -> option (list LevelRow) * option string;
  query_section_levels :
    string -> Z -> option (list LevelRow) * option string;
  rl2_get_raw_raster_data : RawRequest -> option (list Z);
  rl2_get_section_raw_raster_data : RawRequest -> option (list Z);
  GetLockedBlockRef_ok : Z -> Z -> Z -> bool
}.

(** [EscapeNameAndQuoteIfNeeded]. *)
Definition EscapeNameAndQuoteIfNeeded (svc : Services) (pszName : string)
    : string :=
  if negb (strchr pszName dquote) && negb (strchr pszName colon) then pszName
  else String dquote (OGRSQLiteEscapeName svc pszName +:+ String dquote "").

(* ===================================================================== *)
(** ** Opening a coverage: [OGRSQLiteDataSource::OpenRasterSubDataset] *)
(* ===================================================================== *)

(** Lines 177-231: the section listing.  The state of the loop is the
    sub-dataset list, the section id and the single-section flag. *)
Definition section_row_step (svc : Services) (pszFilename osCoverageName : string)
    (nRowCount2 : Z) (st : StringList * Z * bool)
    (row : option string * option string) : StringList * Z * bool :=
  let '(subs, nSectionId, bSingleSection) := st in
  match row with
  | (Some pszSectionId, Some pszSectionName) =>
      if 1 <? nRowCount2 then
        let nIdx := Z.of_nat (length subs) / 2 + 1 in
        let subs1 :=
          AddNameValue subs
            ("SUBDATASET_" +:+ fmt_d nIdx +:+ "_NAME")
            ("RASTERLITE2:" +:+ EscapeNameAndQuoteIfNeeded svc pszFilename
               +:+ ":" +:+ EscapeNameAndQuoteIfNeeded svc osCoverageName
               +:+ ":" +:+ pszSectionId
               +:+ ":" +:+ EscapeNameAndQuoteIfNeeded svc pszSectionName) in
        let subs2 :=
          AddNameValue subs1
            ("SUBDATASET_" +:+ fmt_d nIdx +:+ "_DESC")
            ("Coverage " +:+ osCoverageName +:+ ", section "
               +:+ pszSectionName +:+ " / " +:+ pszSectionId) in
        (subs2, nSectionId, bSingleSection)
      else (subs, CPLAtoGIntBig svc pszSectionId, true)
  | _ => st
  end.

Definition list_sections (svc : Services) (pszFilename osCoverageName : string)
    (nSectionId : Z) : StringList * Z * bool :=
  if nSectionId <? 0 then
    match query_sections svc (osCoverageName +:+ "_sections") with
    | Some rows =>
        fold_left
          (section_row_step svc pszFilename osCoverageName
             (Z.of_nat (length rows)))
          rows ([], nSectionId, false)
    | None => ([], nSectionId, false)
    end
  else ([], nSectionId, false).

(** What the geometry step hands over: resolution is not used later, so
    only the extent and the size are kept. *)
Record Geometry := {
  geo_minx : double; geo_miny : double; geo_maxx : double; geo_maxy : double;
  geo_width : Z; geo_height : Z
}.

(** Lines 311-321: width and height of a coverage opened without a
    section, from its resolution and its registered extent. *)
Definition coverage_dimensions (dfXRes dfYRes dfMinX dfMinY dfMaxX dfMaxY : double)
    : option (Z * Z) :=
  let dfWidth := Double.add Double.half
                   (Double.div (Double.sub dfMaxX dfMinX) dfXRes) in
  let dfHeight := Double.add Double.half
                    (Double.div (Double.sub dfMaxY dfMinY) dfYRes) in
  if Double.leb dfWidth Double.half || Double.leb dfHeight Double.half
     || Double.gtb dfWidth Double.int_max
     || Double.gtb dfHeight Double.int_max
  then None
  else Some (Double.to_int dfWidth, Double.to_int dfHeight).

(** Lines 277-310: the extent of the coverage as registered. *)
Definition registered_extent (svc : Services) (osCoverageName : string)
    : double * double * double * double :=
  match query_extent svc osCoverageName with
  | Some [(Some pszMinX, Some pszMinY, Some pszMaxX, Some pszMaxY)] =>
      (CPLAtof svc pszMinX, CPLAtof svc pszMinY,
       CPLAtof svc pszMaxX, CPLAtof svc pszMaxY)
  | _ => (Double.zero, Double.zero, Double.zero, Double.zero)
  end.

(** Lines 243-322: extent, resolution and size; an error message on
    failure. *)
Definition resolve_geometry (svc : Services) (cov : rl2Coverage)
    (osCoverageName : string) (nSectionId : Z) : string + Geometry :=
  if 0 <=? nSectionId then
    match rl2_resolve_base_resolution_from_dbms svc osCoverageName nSectionId with
    | None =>
        inl ("rl2_resolve_base_resolution_from_dbms() failed / Invalid section: "
               +:+ fmt_d nSectionId)
    | Some (dfXRes, dfYRes) =>
        let bad :=
          inl ("rl2_resolve_full_section_from_dbms() failed / Invalid section: "
                 +:+ fmt_d nSectionId) in
        match rl2_resolve_full_section_from_dbms svc osCoverageName nSectionId
                dfXRes dfYRes with
        | None => bad
        | Some e =>
            if (se_width e =? 0) || (INT_MAX <? se_width e)
               || (se_height e =? 0) || (INT_MAX <? se_height e)
            then bad
            else inr {| geo_minx := se_minx e; geo_miny := se_miny e;
                        geo_maxx := se_maxx e; geo_maxy := se_maxy e;
                        geo_width := se_width e; geo_height := se_height e |}
        end
    end
  else
    let '(dfMinX, dfMinY, dfMaxX, dfMaxY) :=
      registered_extent svc osCoverageName in
    match coverage_dimensions (cov_xres cov) (cov_yres cov)
            dfMinX dfMinY dfMaxX dfMaxY with
    | None => inl "Invalid dimensions"
    | Some (w, h) =>
        inr {| geo_minx := dfMinX; geo_miny := dfMinY;
               geo_maxx := dfMaxX; geo_maxy := dfMaxY;
               geo_width := w mod 2 ^ 32; geo_height := h mod 2 ^ 32 |}
    end.

(** Lines 324-333. *)
Definition geometry_geotransform (g : Geometry) (nXSize nYSize : Z)
    : GeoTransform :=
  {| gt0 := geo_minx g;
     gt1 := Double.div (Double.sub (geo_maxx g) (geo_minx g))
              (Double.of_int nXSize);
     gt2 := Double.zero;
     gt3 := geo_maxy g;
     gt4 := Double.zero;
     gt5 := Double.div (Double.opp (Double.sub (geo_maxy g) (geo_miny g)))
              (Double.of_int nYSize) |}.

(** Lines 365-455: bit depth, data type and signedness of a sample type;
    [None] for an unknown sample type. *)
Definition sample_format (nSampleType : rl2_sample)
    : option (Z * GDALDataType * bool) :=
  match nSampleType with
  | RL2_SAMPLE_1_BIT => Some (1, GDT_Byte, false)
  | RL2_SAMPLE_2_BIT => Some (2, GDT_Byte, false)
  | RL2_SAMPLE_4_BIT => Some (4, GDT_Byte, false)
  | RL2_SAMPLE_INT8 => Some (8, GDT_Byte, true)
  | RL2_SAMPLE_UINT8 => Some (8, GDT_Byte, false)
  | RL2_SAMPLE_INT16 => Some (16, GDT_Int16, true)
  | RL2_SAMPLE_UINT16 => Some (16, GDT_UInt16, false)
  | RL2_SAMPLE_INT32 => Some (32, GDT_Int32, true)
  | RL2_SAMPLE_UINT32 => Some (32, GDT_UInt32, false)
  | RL2_SAMPLE_FLOAT => Some (32, GDT_Float32, true)
  | RL2_SAMPLE_DOUBLE => Some (64, GDT_Float64, true)
  | RL2_SAMPLE_UNKNOWN | RL2_SAMPLE_OTHER _ => None
  end.

(** Lines 457-507: the display name of a compression code. *)
Definition compression_name (nCompression : rl2_compression) : option string :=
  match nCompression with
  | RL2_COMPRESSION_DEFLATE | RL2_COMPRESSION_DEFLATE_NO => Some "DEFLATE"
  | RL2_COMPRESSION_LZMA | RL2_COMPRESSION_LZMA_NO => Some "LZMA"
  | RL2_COMPRESSION_GIF => Some "GIF"
  | RL2_COMPRESSION_JPEG => Some "JPEG"
  | RL2_COMPRESSION_PNG => Some "PNG"
  | RL2_COMPRESSION_LOSSY_WEBP => Some "WEBP"
  | RL2_COMPRESSION_LOSSLESS_WEBP => Some "WEBP_LOSSLESS"
  | RL2_COMPRESSION_CCITTFAX3 => Some "CCITTFAX3"
  | RL2_COMPRESSION_CCITTFAX4 => Some "CCITTFAX4"
  | RL2_COMPRESSION_LZW => Some "LZW"
  | RL2_COMPRESSION_CHARLS => Some "JPEG_LOSSLESS"
  | RL2_COMPRESSION_LOSSY_JP2 => Some "JPEG2000"
  | RL2_COMPRESSION_LOSSLESS_JP2 => Some "JPEG2000_LOSSLESS"
  | _ => None
  end.

Definition compression_metadata (nCompression : rl2_compression) (nQuality : Z)
    (md : Metadata) : Metadata :=
  let md1 :=
    match compression_name nCompression with
    | Some n => SetMetadataItem md "COMPRESSION" (Some n) "IMAGE_STRUCTURE"
    | None => md
    end in
  if negb (nQuality =? 0)
     && (bool_decide (nCompression = RL2_COMPRESSION_JPEG)
         || bool_decide (nCompression = RL2_COMPRESSION_LOSSY_WEBP)
         || bool_decide (nCompression = RL2_COMPRESSION_LOSSY_JP2))
  then SetMetadataItem md1 "QUALITY" (Some (fmt_d nQuality)) "IMAGE_STRUCTURE"
  else md1.

(** Lines 553-643: the no-data value of band [i], read through the
    accessor of the coverage's sample type.  Only the 8-bit and 16-bit
    unsigned accessors take the band number; a failing accessor leaves the
    initial [0.0]. *)
Definition nodata_of_band (noDataPtr : rl2Pixel) (nSampleType : rl2_sample)
    (i : Z) : double :=
  match nSampleType with
  | RL2_SAMPLE_UNKNOWN | RL2_SAMPLE_OTHER _ => Double.zero
  | RL2_SAMPLE_UINT8 | RL2_SAMPLE_UINT16 =>
      default Double.zero (px_sample noDataPtr nSampleType i)
  | _ => default Double.zero (px_sample noDataPtr nSampleType 0)
  end.

(** Lines 539-648: [adfNoDataValues]. *)
Definition fetch_nodata_values (cov : rl2Coverage) : list double :=
  match cov_no_data cov with
  | None => []
  | Some noDataPtr =>
      match px_type noDataPtr with
      | Some (noDataSampleType, noDataPixelType, noDataBands) =>
          if bool_decide (noDataSampleType = cov_sample cov)
             && bool_decide (noDataPixelType = cov_pixel cov)
             && (noDataBands =? cov_bands cov)
          then map (nodata_of_band noDataPtr (cov_sample cov))
                   (seqZ 0 (cov_bands cov))
          else []
      | None => []
      end
  end.

(** Lines 655-661: the value of [NODATA_VALUES]. *)
Definition nodata_values_string (svc : Services) (vals : list double) : string :=
  fold_left
    (fun osNoDataValues v =>
       (if negb (String.eqb osNoDataValues "")
        then osNoDataValues +:+ " " else osNoDataValues) +:+ fmt_g svc v)
    vals "".

Definition nodata_metadata (svc : Services) (adfNoDataValues : list double)
    (l_nBands : Z) (md : Metadata) : Metadata :=
  if (Z.of_nat (length adfNoDataValues) =? l_nBands) && (1 <? l_nBands)
  then SetMetadataItem md "NODATA_VALUES"
         (Some (nodata_values_string svc
                  (take (Z.to_nat l_nBands) adfNoDataValues))) ""
  else md.

(** Lines 665-676: the bands of the opened dataset. *)
Definition make_bands (adfNoDataValues : list double) (l_nBands : Z)
    (nPixelType : rl2_pixel) (eDT : GDALDataType) (nBits : Z)
    (bPromote1BitAs8Bit bSigned : bool) (nBlockXSize nBlockYSize : Z)
    : list RL2RasterBand :=
  map (fun iBand =>
         let bHasNoData :=
           (Z.of_nat (length adfNoDataValues) =? 1) && (l_nBands =? 1) in
         let dfNoDataValue :=
           if bHasNoData then nth 0 adfNoDataValues Double.zero
           else Double.zero in
         new_RL2RasterBand iBand nPixelType eDT nBits bPromote1BitAs8Bit
           bSigned nBlockXSize nBlockYSize bHasNoData dfNoDataValue)
      (seqZ 1 l_nBands).

Definition set_band_metadata (md : Metadata) (b : RL2RasterBand)
    : RL2RasterBand :=
  {| nBand := nBand b; eDataType := eDataType b;
     nBlockXSize := nBlockXSize b; nBlockYSize := nBlockYSize b;
     m_bHasNoData := m_bHasNoData b; m_dfNoDataValue := m_dfNoDataValue b;
     m_eColorInterp := m_eColorInterp b; band_metadata := md |}.

(** Lines 685-710: the statistics items of one band. *)
Definition attach_band_statistics (svc : Services)
    (pStatistics : Z -> option BandStatistics) (nBits : Z)
    (bPromote1BitAs8Bit : bool) (poBand : RL2RasterBand) : RL2RasterBand :=
  if negb ((nBits =? 1) && bPromote1BitAs8Bit) then
    match pStatistics ((nBand poBand - 1) mod 256) with
    | Some st =>
        let md := band_metadata poBand in
        let md := SetMetadataItem md "STATISTICS_MINIMUM"
                    (Some (fmt_16g svc (st_min st))) "" in
        let md := SetMetadataItem md "STATISTICS_MAXIMUM"
                    (Some (fmt_16g svc (st_max st))) "" in
        let md := SetMetadataItem md "STATISTICS_MEAN"
                    (Some (fmt_16g svc (st_mean st))) "" in
        let md := SetMetadataItem md "STATISTICS_STDDEV"
                    (Some (fmt_16g svc (st_stddev st))) "" in
        set_band_metadata md poBand
    | None => poBand
    end
  else poBand.

(** Lines 678-713. *)
Definition fetch_statistics (svc : Services) (osCoverageName : string)
    (nSectionId : Z) (bSingleSection : bool) (nBits : Z)
    (bPromote1BitAs8Bit : bool) (bands : list RL2RasterBand)
    : list RL2RasterBand :=
  if (nSectionId <? 0) || bSingleSection then
    match rl2_create_raster_statistics_from_dbms svc osCoverageName with
    | Some pStatistics =>
        map (attach_band_statistics svc pStatistics nBits bPromote1BitAs8Bit)
            bands
    | None => bands
    end
  else bands.

(** A text column that is present, not empty and not the given
    placeholder. *)
Definition meaningful (s : option string) (placeholder : option string)
    : option string :=
  match s with
  | Some v =>
      if String.eqb v "" then None
      else match placeholder with
           | Some p => if EQUAL v p then None else Some v
           | None => Some v
           end
  | None => None
  end.

(** Lines 715-774: title, abstract and section summary. *)
Definition other_metadata (svc : Services) (osCoverageName : string)
    (nSectionId : Z) (md : Metadata) : Metadata :=
  let md1 :=
    match query_title_abstract svc osCoverageName with
    | Some [(pszTitle, pszAbstract)] =>
        let m :=
          match meaningful pszTitle (Some "*** missing Title ***") with
          | Some t => SetMetadataItem md "COVERAGE_TITLE" (Some t) ""
          | None => md
          end in
        match meaningful pszAbstract (Some "*** missing Abstract ***") with
        | Some a => SetMetadataItem m "COVERAGE_ABSTRACT" (Some a) ""
        | None => m
        end
    | _ => md
    end in
  if 0 <=? nSectionId then
    match query_section_summary svc (osCoverageName +:+ "_sections")
            (wrap_int nSectionId) with
    | Some [pszSummary] =>
        match meaningful pszSummary None with
        | Some s => SetMetadataItem md1 "SECTION_SUMMARY" (Some s) ""
        | None => md1
        end
    | _ => md1
    end
  else md1.

(** Lines 837-856: the up to four candidates of one level row. *)
Definition level_candidate (svc : Services) (ds : OGRSQLiteDataSource)
    (c : option string * option string) : OGRSQLiteDataSource :=
  match c with
  | (Some pszXRes, Some pszYRes) =>
      CreateRL2OverviewDatasetIfNeeded (show_all_pyramid_levels svc) ds
        (CPLAtof svc pszXRes) (CPLAtof svc pszYRes)
  | _ => ds
  end.

Definition level_row_step (svc : Services) (ds : OGRSQLiteDataSource)
    (row : LevelRow) : OGRSQLiteDataSource :=
  let '(c1, c2, c4, c8) := row in
  level_candidate svc
    (level_candidate svc (level_candidate svc (level_candidate svc ds c1) c2) c4)
    c8.

(** Lines 776-860: the overview datasets of the opened coverage, and what
    the step logs: the error message of the level query, when it hands one
    back, goes to the debug log (lines 821-822), whatever the query
    returns. *)
Definition instanciate_overviews (svc : Services) (cov : rl2Coverage)
    (ds : OGRSQLiteDataSource) : OGRSQLiteDataSource * list Event :=
  let nMixedResolutions := cov_mixed_resolutions cov in
  let ds1 := set_mixed_resolutions (negb (nMixedResolutions =? 0)) ds in
  if (nMixedResolutions =? 0) || (0 <=? m_nSectionId ds1) then
    let answer :=
      if nMixedResolutions =? 0
      then query_levels svc (m_osCoverageName ds1 +:+ "_levels")
      else query_section_levels svc
             (m_osCoverageName ds1 +:+ "_section_levels")
             (wrap_int (m_nSectionId ds1)) in
    let logged :=
      match snd answer with
      | Some pszErrMsg => [EvDebug pszErrMsg]
      | None => []
      end in
    match fst answer with
    | Some rs => (fold_left (level_row_step svc) rs ds1, logged)
    | None => (ds1, logged)
    end
  else (ds1, []).

(** [OGRSQLiteDataSource::OpenRasterSubDataset]: the return value, the
    data source after the call and what was logged. *)
Definition OpenRasterSubDataset (svc : Services) (this : OGRSQLiteDataSource)
    (pszConnectionId : string) : bool * OGRSQLiteDataSource * list Event :=
  if negb (STARTS_WITH_CI pszConnectionId "RASTERLITE2:") then
    (false, this, [])
  else
    let papszTokens := CSLTokenizeString2 svc pszConnectionId in
    if Z.of_nat (length papszTokens) <? 3 then (false, this, [])
    else
      let ds := set_subdatasets [] this in
      let osCoverageName :=
        OGRSQLiteParamsUnquote svc (nth 2 papszTokens "") in
      let ds := set_coverage_name osCoverageName ds in
      let ds :=
        set_section_id
          (if 4 <=? Z.of_nat (length papszTokens)
           then CPLAtoGIntBig svc (nth 3 papszTokens "") else -1) ds in
      let ds :=
        set_coverage (rl2_create_coverage_from_dbms svc osCoverageName) ds in
      match m_pRL2Coverage ds with
      | None =>
          (false, ds, [EvError ("Invalid coverage: " +:+ osCoverageName)])
      | Some cov =>
          let '(subs, nSectionId, bSingleSection) :=
            list_sections svc (m_pszFilename ds) osCoverageName
              (m_nSectionId ds) in
          let ds := set_section_id nSectionId (set_subdatasets subs ds) in
          match resolve_geometry svc cov osCoverageName nSectionId with
          | inl msg => (false, ds, [EvError msg])
          | inr g =>
              let nXSize := wrap_int (geo_width g) in
              let nYSize := wrap_int (geo_height g) in
              let ds :=
                set_geometry nXSize nYSize true
                  (geometry_geotransform g nXSize nYSize) ds in
              let ds :=
                match cov_srid cov with
                | Some nSRID =>
                    match fetch_srs_wkt svc nSRID with
                    | Some wkt => set_projection wkt ds
                    | None => ds
                    end
                | None => ds
                end in
              let l_nBands := cov_bands cov in
              if negb (GDALCheckBandCount svc l_nBands false) then
                (false, ds, [])
              else
                match sample_format (cov_sample cov) with
                | None => (false, ds, [EvError "Unknown sample type"])
                | Some (nBits, eDT, bSigned) =>
                    let ds :=
                      if bool_decide (cov_sample cov = RL2_SAMPLE_1_BIT)
                         && bool_decide (cov_pixel cov = RL2_PIXEL_MONOCHROME)
                      then set_promote
                             (CPLFetchBool svc (papszOpenOptions ds)
                                "1BIT_AS_8BIT" true) ds
                      else ds in
                    let ds :=
                      set_metadata
                        (compression_metadata (cov_compression cov)
                           (cov_quality cov) (ds_metadata ds)) ds in
                    let nTileWidth := cov_tile_width cov in
                    let nTileHeight := cov_tile_height cov in
                    if (nTileWidth =? 0) || (nTileHeight =? 0)
                       || (INT_MAX <? nTileWidth) || (INT_MAX <? nTileHeight)
                    then (false, ds, [EvError "Invalid block size"])
                    else
                      let adfNoDataValues := fetch_nodata_values cov in
                      let ds :=
                        set_metadata
                          (nodata_metadata svc adfNoDataValues l_nBands
                             (ds_metadata ds)) ds in
                      let bands :=
                        make_bands adfNoDataValues l_nBands (cov_pixel cov)
                          eDT nBits (m_bPromote1BitAs8Bit ds) bSigned
                          nTileWidth nTileHeight in
                      let bands :=
                        fetch_statistics svc osCoverageName nSectionId
                          bSingleSection nBits (m_bPromote1BitAs8Bit ds)
                          bands in
                      let ds := set_bands bands ds in
                      let ds :=
                        set_metadata
                          (other_metadata svc osCoverageName nSectionId
                             (ds_metadata ds)) ds in
                      let opened := instanciate_overviews svc cov ds in
                      (true, fst opened, snd opened)
                end
          end
      end.

(* ===================================================================== *)
(** ** Reading a block: [RL2RasterBand::IReadBlock] *)
(* ===================================================================== *)

(** Bytes ([GByte], [unsigned char]) are integers in [0, 256). *)
Abbreviation Bytes := (list Z).

(** The block caches of the bands of a dataset: the cached blocks, keyed
    by band number and block coordinates. *)
Abbreviation BlockCache := (gmap (Z * Z * Z) Bytes).

(** [rl2_get_coverage_type]; a null handle leaves the three outputs at
    their initial zero. *)
Definition coverage_type (cov : option rl2Coverage)
    : rl2_sample * rl2_pixel * Z :=
  match cov with
  | Some c => (cov_sample c, cov_pixel c, cov_bands c)
  | None => (RL2_SAMPLE_OTHER 0, RL2_PIXEL_OTHER 0, 0)
  end.

(** Modelled from the spec: [GDALCopyWords] is defined outside the
    sources; it is the strided copy of the spec.  In
    [GDALCopyWords(pSrc + nSrcOffset, eDT, nSrcStride, pDst, eDT, nWordSize,
    nWordCount)], between equal data types, word [k] of the destination is
    the [nWordSize] bytes found at [nSrcOffset + k * nSrcStride] in the
    source.  The result is the destination, which is written in full. *)
Definition GDALCopyWords (pSrc : Bytes)
    (nSrcOffset nSrcStride nWordSize nWordCount : Z) : Bytes :=
  flat_map
    (fun k =>
       take (Z.to_nat nWordSize)
            (drop (Z.to_nat (nSrcOffset + k * nSrcStride)) pSrc))
    (seqZ 0 nWordCount).

(** Writing [src] at the start of the memory [dst]: what lies beyond the
    written bytes is kept. *)
Definition overwrite (dst src : Bytes) : Bytes :=
  src ++ drop (length src) dst.

(** [GetParentDS() != NULL]. *)
Definition has_parent (poGDS : OGRSQLiteDataSource) : bool :=
  match m_poParentDS poGDS with Some _ => true | None => false end.

Record ReadBlockResult := {
  rb_err : CPLErr;
  rb_pData : Bytes;
  rb_cache : BlockCache;
  rb_events : list Event
}.

(** Lines 1208-1236: the blocks of the other bands are filled from the
    same buffer, unless already cached or not obtainable. *)
Definition fill_sibling (svc : Services) (pBuffer : Bytes)
    (nBand_ nBlockXOff nBlockYOff nDTSize nBands nWords : Z)
    (cache : BlockCache) (iBand : Z) : BlockCache :=
  if iBand =? nBand_ then cache
  else
    match cache !! (iBand, nBlockXOff, nBlockYOff) with
    | Some _ => cache
    | None =>
        if GetLockedBlockRef_ok svc iBand nBlockXOff nBlockYOff then
          <[(iBand, nBlockXOff, nBlockYOff) :=
              GDALCopyWords pBuffer ((iBand - 1) * nDTSize) (nDTSize * nBands)
                nDTSize nWords]> cache
        else cache
    end.

(** Lines 1116-1120: the coverage handle, the parent's for an overview. *)
Definition block_coverage (poGDS : OGRSQLiteDataSource) : option rl2Coverage :=
  match m_poParentDS poGDS with
  | Some parent_cov => parent_cov
  | None => m_pRL2Coverage poGDS
  end.

(** Lines 1134-1136: whether the section-scoped primitive is used. *)
Definition fetch_by_section (poGDS : OGRSQLiteDataSource) : bool :=
  (0 <=? m_nSectionId poGDS)
  && (m_bRL2MixedResolutions poGDS || negb (has_parent poGDS)).

(** Lines 1105-1153: the request sent to the storage. *)
Definition block_request (poGDS : OGRSQLiteDataSource) (b : RL2RasterBand)
    (nBlockXOff nBlockYOff : Z) : RawRequest :=
  let gt := m_adfGeoTransform poGDS in
  let dfMinX :=
    Double.add (gt0 gt)
      (Double.mul (Double.of_int (wrap_int (nBlockXOff * nBlockXSize b)))
                  (gt1 gt)) in
  let dfMaxX :=
    Double.add dfMinX (Double.mul (Double.of_int (nBlockXSize b)) (gt1 gt)) in
  let dfMaxY :=
    Double.add (gt3 gt)
      (Double.mul (Double.of_int (wrap_int (nBlockYOff * nBlockYSize b)))
                  (gt5 gt)) in
  let dfMinY :=
    Double.add dfMaxY (Double.mul (Double.of_int (nBlockYSize b)) (gt5 gt)) in
  let cov := block_coverage poGDS in
  let '(nSampleType, nPixelType, _) := coverage_type cov in
  let nOutPixel :=
    if bool_decide (nPixelType = RL2_PIXEL_MONOCHROME)
       && bool_decide (nSampleType = RL2_SAMPLE_1_BIT)
    then RL2_PIXEL_GRAYSCALE else nPixelType in
  {| rq_coverage := cov;
     rq_section :=
       if fetch_by_section poGDS then Some (m_nSectionId poGDS) else None;
     rq_width := nBlockXSize b; rq_height := nBlockYSize b;
     rq_minx := dfMinX; rq_miny := dfMinY;
     rq_maxx := dfMaxX; rq_maxy := dfMaxY;
     rq_xres := gt1 gt; rq_yres := Double.fabs (gt5 gt);
     rq_out_pixel := nOutPixel |}.

(** Lines 1134-1176: the fetch; [None] when the primitive fails. *)
Definition fetch_block (svc : Services) (poGDS : OGRSQLiteDataSource)
    (b : RL2RasterBand) (nBlockXOff nBlockYOff : Z) : option Bytes :=
  let rq := block_request poGDS b nBlockXOff nBlockYOff in
  if fetch_by_section poGDS then rl2_get_section_raw_raster_data svc rq
  else rl2_get_raw_raster_data svc rq.

(** Line 1181: the size the buffer must have, as the source computes it
    in [int] arithmetic. *)
Definition expected_bytes_all_bands (b : RL2RasterBand) (nBands : Z) : Z :=
  let nDTSize := GDALGetDataTypeSizeBytes (eDataType b) in
  let nExpectedBytesOnBand :=
    wrap_int (wrap_int (nBlockXSize b * nBlockYSize b) * nDTSize) in
  wrap_int (nExpectedBytesOnBand * nBands).

(** Line 1197: an expanded 1-bit sample back to 0 or 1. *)
Definition collapse_1bit (v : Z) : Z := if 127 <? v then 1 else 0.

(** Lines 1190-1193: whether the bytes are collapsed to 0 and 1. *)
Definition collapses (poGDS : OGRSQLiteDataSource) : bool :=
  let '(nSampleType, nPixelType, _) := coverage_type (block_coverage poGDS) in
  bool_decide (nPixelType = RL2_PIXEL_MONOCHROME)
  && bool_decide (nSampleType = RL2_SAMPLE_1_BIT)
  && negb (m_bPromote1BitAs8Bit poGDS)
  && has_parent poGDS.

(** [RL2RasterBand::IReadBlock] for band [b] of dataset [poGDS].  [pData]
    is the caller's block before the call and [cache] the block caches of
    the dataset's bands; both are returned as they are after the call. *)
Definition IReadBlock (svc : Services) (poGDS : OGRSQLiteDataSource)
    (b : RL2RasterBand) (nBlockXOff nBlockYOff : Z)
    (pData : Bytes) (cache : BlockCache) : ReadBlockResult :=
  match fetch_block svc poGDS b nBlockXOff nBlockYOff with
  | None =>
      {| rb_err := CE_Failure; rb_pData := pData; rb_cache := cache;
         rb_events := [] |}
  | Some pBuffer =>
      let nBufSize := Z.of_nat (length pBuffer) in
      let nDTSize := GDALGetDataTypeSizeBytes (eDataType b) in
      let nBands := GetRasterCount poGDS in
      let nExpectedBytesAllBands := expected_bytes_all_bands b nBands in
      if negb (nBufSize =? nExpectedBytesAllBands) then
        {| rb_err := CE_Failure; rb_pData := pData; rb_cache := cache;
           rb_events :=
             [EvDebug ("Got " +:+ fmt_d nBufSize +:+ " bytes instead of "
                         +:+ fmt_d nExpectedBytesAllBands);
              EvFree] |}
      else
        let nWords := wrap_int (nBlockXSize b * nBlockYSize b) in
        let out :=
          if collapses poGDS then
            map collapse_1bit (take (Z.to_nat nExpectedBytesAllBands) pBuffer)
          else
            GDALCopyWords pBuffer ((nBand b - 1) * nDTSize) (nDTSize * nBands)
              nDTSize nWords in
        let cache' :=
          if 1 <? nBands then
            fold_left
              (fill_sibling svc pBuffer (nBand b) nBlockXOff nBlockYOff
                 nDTSize nBands nWords)
              (seqZ 1 nBands) cache
          else cache in
        {| rb_err := CE_None; rb_pData := overwrite pData out;
           rb_cache := cache'; rb_events := [EvFree] |}
  end.

(* ===================================================================== *)
(** ** Ingestion: [OGRSQLiteDriverCreateCopy] *)
(* ===================================================================== *)

Record SrcBand := {
  sb_type : GDALDataType;
  sb_color : GDALColorInterp
}.

(** The source raster.  [src_GetGeoTransform] is the status returned by
    [GetGeoTransform] together with the six coefficients it wrote. *)
Record SrcDataset := {
  src_bands : list SrcBand;
  src_GetGeoTransform : CPLErr * GeoTransform;
  src_xsize : Z;
  src_ysize : Z;
  src_projection : option string
}.

(** The target store during ingestion. *)
Record IngestServices := {
  CPLGetBasename : string -> string;
  ds_Open : string -> bool;
  ds_Create : string -> StringList -> bool;
  FetchSRS_found : Z -> bool;
  FetchSRSId_of_wkt : string -> option Z;
  has_raster_coverages_table : bool;
  CreateRasterCoveragesTable : option string;
  coverage_rows : string -> Z;
  existing_coverage : string -> option rl2Coverage;
  rl2_create_pixel_ok : rl2_sample -> rl2_pixel -> Z -> bool;
  rl2_create_dbms_coverage_ok : bool;
  created_coverage : string -> option rl2Coverage;
  rl2_load_raw_tiles_into_dbms_ok : bool;
  reopened : string -> OGRSQLiteDataSource
}.

Definition src_band_type (poSrcDS : SrcDataset) (i : nat) : GDALDataType :=
  match nth_error (src_bands poSrcDS) i with
  | Some b => sb_type b
  | None => GDT_Unknown
  end.

Definition src_band_color (poSrcDS : SrcDataset) (i : nat) : GDALColorInterp :=
  match nth_error (src_bands poSrcDS) i with
  | Some b => sb_color b
  | None => GCI_Undefined
  end.

(** Lines 1480-1503: the three pre-flight checks; the error message of
    the first one that fails. *)
Definition CreateCopy_preflight (poSrcDS : SrcDataset)
    (papszOptions : StringList) : option string :=
  let nCount := Z.of_nat (length (src_bands poSrcDS)) in
  if (nCount =? 0) || (255 <? nCount) then Some "Unsupported band count"
  else
    let '(err, adfGeoTransform) := src_GetGeoTransform poSrcDS in
    if bool_decide (err = CE_None)
       && (Double.neb (gt2 adfGeoTransform) Double.zero
           || Double.neb (gt4 adfGeoTransform) Double.zero)
    then Some "Raster with rotation/shearing geotransform terms are not supported"
    else
      match CSLFetchNameValue papszOptions "APPEND_SUBDATASET",
            CSLFetchNameValue papszOptions "COVERAGE" with
      | Some _, None =>
          Some "COVERAGE must be specified with APPEND_SUBDATASET=YES"
      | _, _ => None
      end.

(** Lines 1512-1541: the pixel type. *)
Definition select_pixel_type (poSrcDS : SrcDataset) (papszOptions : StringList)
    (eDT : GDALDataType) (nBandCount : Z) : rl2_pixel :=
  match CSLFetchNameValue papszOptions "PIXEL_TYPE" with
  | Some pszPixelType =>
      if EQUAL pszPixelType "GRAYSCALE" then RL2_PIXEL_GRAYSCALE
      else if EQUAL pszPixelType "RGB" then RL2_PIXEL_RGB
      else if EQUAL pszPixelType "MULTIBAND" then RL2_PIXEL_MULTIBAND
      else if EQUAL pszPixelType "DATAGRID" then RL2_PIXEL_DATAGRID
      else RL2_PIXEL_GRAYSCALE
  | None =>
      let byte_or_u16 :=
        bool_decide (eDT = GDT_Byte) || bool_decide (eDT = GDT_UInt16) in
      if (nBandCount =? 3) && byte_or_u16
         && bool_decide (src_band_color poSrcDS 0 = GCI_RedBand)
         && bool_decide (src_band_color poSrcDS 1 = GCI_GreenBand)
         && bool_decide (src_band_color poSrcDS 2 = GCI_BlueBand)
      then RL2_PIXEL_RGB
      else if (1 <? nBandCount) && byte_or_u16 then RL2_PIXEL_MULTIBAND
      else if nBandCount =? 1 then RL2_PIXEL_DATAGRID
      else RL2_PIXEL_GRAYSCALE
  end.

(** Lines 1543-1559: the sample type; [None] for an unsupported data
    type. *)
Definition select_sample_type (eDT : GDALDataType) : option rl2_sample :=
  match eDT with
  | GDT_UInt16 => Some RL2_SAMPLE_UINT16
  | GDT_Int16 => Some RL2_SAMPLE_INT16
  | GDT_UInt32 => Some RL2_SAMPLE_UINT32
  | GDT_Int32 => Some RL2_SAMPLE_INT32
  | GDT_Float32 => Some RL2_SAMPLE_FLOAT
  | GDT_Float64 => Some RL2_SAMPLE_DOUBLE
  | GDT_Byte => Some RL2_SAMPLE_UINT8
  | _ => None
  end.

(** Lines 1561-1593: compression code and default quality selected by the
    [COMPRESS] option. *)
Definition select_compression (papszOptions : StringList)
    : rl2_compression * Z :=
  match CSLFetchNameValue papszOptions "COMPRESS" with
  | Some pszCompression =>
      if EQUAL pszCompression "NONE" then (RL2_COMPRESSION_NONE, 100)
      else if EQUAL pszCompression "DEFLATE" then (RL2_COMPRESSION_DEFLATE, 100)
      else if EQUAL pszCompression "LZMA" then (RL2_COMPRESSION_LZMA, 100)
      else if EQUAL pszCompression "PNG" then (RL2_COMPRESSION_PNG, 100)
      else if EQUAL pszCompression "CCITTFAX4"
        then (RL2_COMPRESSION_CCITTFAX4, 100)
      else if EQUAL pszCompression "JPEG" then (RL2_COMPRESSION_JPEG, 75)
      else if EQUAL pszCompression "WEBP" then (RL2_COMPRESSION_LOSSY_WEBP, 75)
      else if EQUAL pszCompression "CHARLS" then (RL2_COMPRESSION_CHARLS, 100)
      else if EQUAL pszCompression "JPEG2000"
        then (RL2_COMPRESSION_LOSSY_JP2, 20)
      else (RL2_COMPRESSION_NONE, 100)
  | None => (RL2_COMPRESSION_NONE, 100)
  end.

(** Lines 1561-1603: compression code and quality handed to the coverage
    creation, after the [QUALITY] option is taken into account. *)
Definition compression_and_quality (papszOptions : StringList)
    : rl2_compression * Z :=
  let '(nCompression, nQuality) := select_compression papszOptions in
  match CSLFetchNameValue papszOptions "QUALITY" with
  | Some pszQuality =>
      let nQuality := atoi pszQuality in
      if (nQuality =? 100)
         && bool_decide (nCompression = RL2_COMPRESSION_LOSSY_JP2)
      then (RL2_COMPRESSION_LOSSLESS_JP2, nQuality)
      else if (nQuality =? 100)
              && bool_decide (nCompression = RL2_COMPRESSION_LOSSY_WEBP)
      then (RL2_COMPRESSION_LOSSLESS_WEBP, nQuality)
      else (nCompression, nQuality)
  | None => (nCompression, nQuality)
  end.

(** Modelled from the spec: [CSLSetNameValue], of the missing string-list
    layer, replaces the value of the first entry named [name], or appends
    a new entry. *)
Fixpoint CSLSetNameValue (l : StringList) (name value : string) : StringList :=
  match l with
  | [] => [(name, value)]
  | (k, v) :: l' =>
      if EQUAL k name then (k, value) :: l'
      else (k, v) :: CSLSetNameValue l' name value
  end.

(** Lines 1642-1672: the spatial reference id and the warning that may
    come with it. *)
Definition select_srs_id (ing : IngestServices) (poSrcDS : SrcDataset)
    (papszOptions : StringList) : Z * list Event :=
  match CSLFetchNameValue papszOptions "SRID" with
  | Some pszSRID =>
      let nSRSId := atoi pszSRID in
      if (0 <? nSRSId) && negb (FetchSRS_found ing nSRSId)
      then (nSRSId,
            [EvWarning ("SRID " +:+ fmt_d nSRSId +:+
               " will be used, but no matching SRS is defined in spatial_ref_sys")])
      else (nSRSId, [])
  | None =>
      match src_projection poSrcDS with
      | Some pszProjectionRef =>
          if negb (EQUAL pszProjectionRef "") then
            (default 0 (FetchSRSId_of_wkt ing pszProjectionRef), [])
          else (0, [])
      | None => (0, [])
      end
  end.

(** Lines 1700-1780: the coverage that receives the tiles, created when
    it does not exist yet. *)
Definition resolve_or_create_coverage (ing : IngestServices)
    (osCoverageName : string) (nSampleType : rl2_sample)
    (nPixelType : rl2_pixel) (nBandCount : Z)
    (nCompression : rl2_compression) (nQuality nTileWidth nTileHeight : Z)
    : option rl2Coverage * list Event :=
  let existing :=
    if coverage_rows ing osCoverageName =? 1
    then Some (existing_coverage ing osCoverageName) else None in
  match existing with
  | Some None => (None, [])
  | Some (Some cvg) => (Some cvg, [])
  | None =>
      if negb (rl2_create_pixel_ok ing nSampleType nPixelType nBandCount)
      then (None, [])
      else
        let ev :=
          EvCreateCoverage osCoverageName nSampleType nPixelType nBandCount
            nCompression nQuality nTileWidth nTileHeight in
        if negb (rl2_create_dbms_coverage_ok ing)
        then (None, [ev; EvError "rl2_create_dbms_coverage() failed"])
        else (created_coverage ing osCoverageName, [ev])
  end.

(** [OGRSQLiteDriverCreateCopy]: the dataset returned ([None] for a null
    pointer) and the events, in order. *)
Definition OGRSQLiteDriverCreateCopy (svc : Services) (ing : IngestServices)
    (pszName : string) (poSrcDS : SrcDataset) (papszOptions : StringList)
    : option OGRSQLiteDataSource * list Event :=
  match CreateCopy_preflight poSrcDS papszOptions with
  | Some msg => (None, [EvError msg])
  | None =>
      let eDT := src_band_type poSrcDS 0 in
      let nBandCount := Z.of_nat (length (src_bands poSrcDS)) mod 256 in
      let nPixelType := select_pixel_type poSrcDS papszOptions eDT nBandCount in
      match select_sample_type eDT with
      | None => (None, [EvError "Unsupported data type"])
      | Some nSampleType =>
          let '(nCompression, nQuality) := compression_and_quality papszOptions in
          let nTileWidth :=
            atoi (CSLFetchNameValueDef papszOptions "BLOCKXSIZE" "512")
              mod 2 ^ 32 in
          let nTileHeight :=
            atoi (CSLFetchNameValueDef papszOptions "BLOCKYSIZE" "512")
              mod 2 ^ 32 in
          let '(opened, ev_store) :=
            match CSLFetchNameValue papszOptions "APPEND_SUBDATASET" with
            | Some _ => (ds_Open ing pszName, EvOpenStore pszName)
            | None =>
                let papszNewOptions :=
                  CSLSetNameValue papszOptions "SPATIALITE" "YES" in
                (ds_Create ing pszName papszNewOptions,
                 EvCreateStore pszName papszNewOptions)
            end in
          if negb opened then (None, [ev_store])
          else
            let '(nSRSId, ev_srs) := select_srs_id ing poSrcDS papszOptions in
            let evs := ev_store :: ev_srs ++ [EvStartTransaction] in
            let table :=
              if has_raster_coverages_table ing then inr []
              else match CreateRasterCoveragesTable ing with
                   | Some pszErrMsg =>
                       inl [EvCreateRasterCoveragesTable;
                            EvError ("CreateRasterCoveragesTable() failed: "
                                       +:+ pszErrMsg)]
                   | None => inr [EvCreateRasterCoveragesTable]
                   end in
            match table with
            | inl ev_fail => (None, evs ++ ev_fail)
            | inr ev_table =>
                let evs := evs ++ ev_table in
                let osCoverageName :=
                  CSLFetchNameValueDef papszOptions "COVERAGE"
                    (CPLGetBasename ing pszName) in
                let '(cvg, ev_cov) :=
                  resolve_or_create_coverage ing osCoverageName nSampleType
                    nPixelType nBandCount nCompression nQuality
                    nTileWidth nTileHeight in
                let evs := evs ++ ev_cov in
                match cvg with
                | None => (None, evs)
                | Some _ =>
                    let osSectionName :=
                      CSLFetchNameValueDef papszOptions "SECTION"
                        (CPLGetBasename ing pszName) in
                    let evs := evs ++ [EvLoadTiles osCoverageName osSectionName] in
                    if negb (rl2_load_raw_tiles_into_dbms_ok ing) then
                      (None,
                       evs ++ [EvError "rl2_load_raw_tiles_into_dbms() failed"])
                    else
                      let conn :=
                        "RASTERLITE2:" +:+ EscapeNameAndQuoteIfNeeded svc pszName
                          +:+ ":" +:+ EscapeNameAndQuoteIfNeeded svc osCoverageName in
                      (Some (reopened ing conn),
                       evs ++ [EvCommitTransaction; EvReopen conn])
                end
            end
      end
  end.

(** An event that opens, creates or changes the target store. *)
Definition touches_store (e : Event) : bool :=
  match e with
  | EvOpenStore _ | EvCreateStore _ _ | EvStartTransaction
  | EvCreateRasterCoveragesTable | EvCreateCoverage _ _ _ _ _ _ _ _
  | EvLoadTiles _ _ | EvCommitTransaction | EvReopen _ => true
  | EvError _ | EvWarning _ | EvDebug _ | EvFree => false
  end.

(* ===================================================================== *)
(** ** A small store, used to run the operations on concrete inputs *)
(* ===================================================================== *)

Module Sample.

(** Splitting at colons, empty tokens dropped. *)
Fixpoint split_colon (s cur : string) : list string :=
  match s with
  | EmptyString => if String.eqb cur "" then [] else [cur]
  | String c s' =>
      if Ascii.eqb c colon
      then (if String.eqb cur "" then [] else [cur]) ++ split_colon s' ""
      else split_colon s' (cur +:+ String c "")
  end.

Definition atof (s : string) : double := Double.of_int (atoi s).

Definition test_bool (s : string) : bool :=
  negb (EQUAL s "NO" || EQUAL s "FALSE" || EQUAL s "OFF" || EQUAL s "0").

Definition fetch_bool (l : StringList) (key : string) (def : bool) : bool :=
  match CSLFetchNameValue l key with
  | Some v => test_bool v
  | None => def
  end.

Definition fmt_int (d : double) : string := fmt_d (Double.to_int d).

(** A pixel whose samples are the given integers, one per band. *)
Definition pixel (st : rl2_sample) (pt : rl2_pixel) (samples : list Z)
    : rl2Pixel :=
  {| px_type := Some (st, pt, Z.of_nat (length samples));
     px_sample := fun st' band =>
       if bool_decide (st' = st)
       then Double.of_int <$> (samples !! Z.to_nat band)
       else None |}.

Definition coverage (name : string) (st : rl2_sample) (pt : rl2_pixel)
    (bands tile : Z) (no_data : option rl2Pixel) : rl2Coverage :=
  {| cov_name := name;
     cov_xres := Double.of_int 1; cov_yres := Double.of_int 1;
     cov_srid := None;
     cov_sample := st; cov_pixel := pt; cov_bands := bands;
     cov_compression := RL2_COMPRESSION_NONE; cov_quality := 100;
     cov_tile_width := tile; cov_tile_height := tile;
     cov_no_data := no_data;
     cov_strict_resolution := 1; cov_mixed_resolutions := 0;
     cov_section_paths := 0; cov_section_md5 := 0;
     cov_section_summary := 0 |}.

Definition statistics (i : Z) : option BandStatistics :=
  Some {| st_min := Double.of_int 0; st_max := Double.of_int 1;
          st_mean := Double.of_int 0; st_variance := Double.of_int 0;
          st_stddev := Double.of_int 0 |}.

(** A store holding one coverage with the given rows in its section
    table, a registered extent of 1000 by 1000 units, one level row and
    the given answer to every raw-data request. *)
Definition services (cov : rl2Coverage)
    (sections : list (option string * option string))
    (raw : option Bytes) : Services :=
  {| CSLTokenizeString2 := fun s => split_colon s "";
     OGRSQLiteParamsUnquote := fun s => s;
     OGRSQLiteEscapeName := fun s => s;
     CPLAtoGIntBig := atoi;
     CPLAtof := atof;
     CPLFetchBool := fetch_bool;
     GDALCheckBandCount := fun n zero_ok =>
       (if zero_ok then 0 <=? n else 0 <? n) && (n <=? 65536);
     fmt_g := fmt_int;
     fmt_16g := fmt_int;
     show_all_pyramid_levels := false;
     rl2_create_coverage_from_dbms := fun n =>
       if String.eqb n (cov_name cov) then Some cov else None;
     query_sections := fun _ => Some sections;
     rl2_resolve_base_resolution_from_dbms := fun _ _ =>
       Some (Double.of_int 1, Double.of_int 1);
     rl2_resolve_full_section_from_dbms := fun _ _ _ _ =>
       Some {| se_minx := Double.of_int 0; se_miny := Double.of_int 0;
               se_maxx := Double.of_int 500; se_maxy := Double.of_int 500;
               se_width := 500; se_height := 500 |};
     query_extent := fun _ =>
       Some [(Some "0", Some "0", Some "1000", Some "1000")];
     fetch_srs_wkt := fun _ => None;
     rl2_create_raster_statistics_from_dbms := fun _ => Some statistics;
     query_title_abstract := fun _ => Some [(Some "Title", None)];
     query_section_summary := fun _ _ => Some [None];
     query_levels := fun _ =>
       (Some [((Some "1", Some "1"), (Some "2", Some "2"),
               (Some "4", Some "4"), (Some "8", Some "8"))], None);
     query_section_levels := fun _ _ => (Some [], None);
     rl2_get_raw_raster_data := fun _ => raw;
     rl2_get_section_raw_raster_data := fun _ => raw;
     GetLockedBlockRef_ok := fun _ _ _ => true |}.

Definition gray : rl2Coverage :=
  coverage "cov" RL2_SAMPLE_UINT8 RL2_PIXEL_GRAYSCALE 1 256
    (Some (pixel RL2_SAMPLE_UINT8 RL2_PIXEL_GRAYSCALE [255])).

Definition rgb : rl2Coverage :=
  coverage "cov" RL2_SAMPLE_UINT8 RL2_PIXEL_RGB 3 256
    (Some (pixel RL2_SAMPLE_UINT8 RL2_PIXEL_RGB [255; 254; 253])).

(** A no-data pixel of one band on a coverage of three. *)
Definition rgb_mismatch : rl2Coverage :=
  coverage "cov" RL2_SAMPLE_UINT8 RL2_PIXEL_RGB 3 256
    (Some (pixel RL2_SAMPLE_UINT8 RL2_PIXEL_RGB [255])).

Definition mono : rl2Coverage :=
  coverage "cov" RL2_SAMPLE_1_BIT RL2_PIXEL_MONOCHROME 1 2 None.

Definition two_sections : list (option string * option string) :=
  [(Some "1", Some "north"); (Some "2", Some "south")].

Definition one_section : list (option string * option string) :=
  [(Some "7", Some "only")].

(** A data source as [Open] prepares it before resolving the coverage. *)
Definition fresh (options : StringList) : OGRSQLiteDataSource :=
  {| bIsInternal := false; m_poParentDS := None;
     m_pszFilename := "f.sqlite";
     m_osCoverageName := ""; m_nSectionId := -1; m_pRL2Coverage := None;
     m_bPromote1BitAs8Bit := false; m_bRL2MixedResolutions := false;
     m_bGeoTransformValid := false;
     m_adfGeoTransform := default_GeoTransform; m_osProjection := "";
     nRasterXSize := 0; nRasterYSize := 0; papoBands := [];
     m_aosSubDatasets := []; papszOpenOptions := options;
     ds_metadata := ∅; m_apoOverviewDS := [] |}.

(** The result of opening [RASTERLITE2:f.sqlite:cov] on a store. *)
Definition opened (svc : Services) (options : StringList)
    : bool * OGRSQLiteDataSource * list Event :=
  OpenRasterSubDataset svc (fresh options) "RASTERLITE2:f.sqlite:cov".

(** A target store on which every step of the ingestion succeeds. *)
Definition ingest : IngestServices :=
  {| CPLGetBasename := fun s => "out";
     ds_Open := fun _ => true;
     ds_Create := fun _ _ => true;
     FetchSRS_found := fun _ => true;
     FetchSRSId_of_wkt := fun _ => None;
     has_raster_coverages_table := false;
     CreateRasterCoveragesTable := None;
     coverage_rows := fun _ => 0;
     existing_coverage := fun _ => None;
     rl2_create_pixel_ok := fun _ _ _ => true;
     rl2_create_dbms_coverage_ok := true;
     created_coverage := fun _ => Some gray;
     rl2_load_raw_tiles_into_dbms_ok := true;
     reopened := fun _ => fresh [] |}.

(** A one-band byte source of 10 by 10 pixels with the given rotation
    term in its geotransform. *)
Definition source (rotation : Z) : SrcDataset :=
  {| src_bands := [{| sb_type := GDT_Byte; sb_color := GCI_GrayIndex |}];
     src_GetGeoTransform :=
       (CE_None,
        {| gt0 := Double.zero; gt1 := Double.of_int 1;
           gt2 := Double.of_int rotation;
           gt3 := Double.of_int 10; gt4 := Double.zero;
           gt5 := Double.of_int (-1) |});
     src_xsize := 10; src_ysize := 10; src_projection := None |}.

End Sample.

(* ===================================================================== *)
(** ** Properties stated about the operations *)
(* ===================================================================== *)

(** The x resolution of a dataset. *)
Definition x_resolution (ds : OGRSQLiteDataSource) : double :=
  gt1 (m_adfGeoTransform ds).

(** A sequence of calls of [CreateRL2OverviewDatasetIfNeeded], one per
    candidate (xRes, yRes). *)
Definition build_overviews (bShowAll : bool) (ds : OGRSQLiteDataSource)
    (candidates : list (double * double)) : OGRSQLiteDataSource :=
  fold_left
    (fun d c => CreateRL2OverviewDatasetIfNeeded bShowAll d (fst c) (snd c))
    candidates ds.

(** No retained overview has the resolution of the base, and no overview
    has the resolution of one retained before it, resolutions being
    compared by the builder's own test [same_resolution], whose tolerance
    is relative to its second argument. *)
Definition overviews_distinct (ds : OGRSQLiteDataSource) : Prop :=
  (forall o, o ∈ m_apoOverviewDS ds ->
     same_resolution (x_resolution o) (x_resolution ds) = false) /\
  (forall (i j : nat) oi oj, (i < j)%nat ->
     m_apoOverviewDS ds !! i = Some oi ->
     m_apoOverviewDS ds !! j = Some oj ->
     same_resolution (x_resolution oj) (x_resolution oi) = false).

(** A dataset of 1000 by 1000 pixels of size 1, with no overview yet. *)
Definition base_1000 : OGRSQLiteDataSource :=
  set_geometry 1000 1000 true
    {| gt0 := Double.zero; gt1 := Double.of_int 1; gt2 := Double.zero;
       gt3 := Double.of_int 1000; gt4 := Double.zero;
       gt5 := Double.of_int (-1) |}
    (Sample.fresh []).

(** The 1-bit monochrome coverage of the sample store, tiled 2 by 2,
    opened with the promotion to 8 bits turned off; the storage answers
    every raw-data request with the bytes 255, 0, 255, 255. *)
Definition mono_services : Services :=
  Sample.services Sample.mono [] (Some [255; 0; 255; 255]).

Definition mono_opened : OGRSQLiteDataSource :=
  snd (fst (Sample.opened mono_services [("1BIT_AS_8BIT", "NO")])).

(** Its only band, its first overview and the band of that overview. *)
Definition mono_band : RL2RasterBand :=
  nth 0 (papoBands mono_opened)
    (new_RL2RasterBand 0 RL2_PIXEL_UNKNOWN GDT_Unknown 0 false false 0 0
       false Double.zero).

Definition mono_overview : OGRSQLiteDataSource :=
  nth 0 (m_apoOverviewDS mono_opened) new_OGRSQLiteDataSource.

Definition mono_overview_band : RL2RasterBand :=
  nth 0 (papoBands mono_overview) mono_band.

(** The same store answering every raw-data request with three bytes, one
    short of the four of a block. *)
Definition mono_short_services : Services :=
  Sample.services Sample.mono [] (Some [255; 0; 255]).

(** A one-band 8-bit coverage tiled 65536 by 65536, in a store that
    answers every raw-data request with no byte at all, the dataset opened
    on it and its band. *)
Definition huge_tile : rl2Coverage :=
  Sample.coverage "cov" RL2_SAMPLE_UINT8 RL2_PIXEL_GRAYSCALE 1 65536 None.

Definition huge_tile_services : Services :=
  Sample.services huge_tile [] (Some []).

Definition huge_tile_opened : OGRSQLiteDataSource :=
  snd (fst (Sample.opened huge_tile_services [])).

Definition huge_tile_band : RL2RasterBand :=
  nth 0 (papoBands huge_tile_opened) mono_band.

(** A dataset of 1000 by 1000 pixels whose x resolution is -1, with no
    overview yet. *)
Definition base_flipped : OGRSQLiteDataSource :=
  set_geometry 1000 1000 true
    {| gt0 := Double.zero; gt1 := Double.of_int (-1); gt2 := Double.zero;
       gt3 := Double.of_int 1000; gt4 := Double.zero;
       gt5 := Double.of_int (-1) |}
    (Sample.fresh []).

(** The resolution 2.0000200001. *)
Definition res_2_0000200001 : double :=
  Double.div (Double.of_int 20000200001) (Double.of_int 10000000000).

(** Two states of a data source that differ at most in the overview list
    and the mixed-resolution flag. *)
Definition same_raster (ds ds' : OGRSQLiteDataSource) : Prop :=
  papoBands ds' = papoBands ds /\
  ds_metadata ds' = ds_metadata ds /\
  m_aosSubDatasets ds' = m_aosSubDatasets ds /\
  m_nSectionId ds' = m_nSectionId ds /\
  m_pRL2Coverage ds' = m_pRL2Coverage ds /\
  m_bPromote1BitAs8Bit ds' = m_bPromote1BitAs8Bit ds /\
  nRasterXSize ds' = nRasterXSize ds /\
  nRasterYSize ds' = nRasterYSize ds /\
  m_adfGeoTransform ds' = m_adfGeoTransform ds.

(** The chain of an opened dataset: the dataset itself has no parent, and
    each of its overviews is linked to it, reaching its coverage handle and
    carrying its promotion flag. *)
Definition opened_chain (ds : OGRSQLiteDataSource) : Prop :=
  m_poParentDS ds = None /\
  forall o, o ∈ m_apoOverviewDS ds ->
    m_poParentDS o = Some (m_pRL2Coverage ds) /\
    m_bPromote1BitAs8Bit o = m_bPromote1BitAs8Bit ds.

(** The section id named by the tokens of a connection string. *)
Definition named_section (svc : Services) (papszTokens : list string) : Z :=
  if 4 <=? Z.of_nat (length papszTokens)
  then CPLAtoGIntBig svc (nth 3 papszTokens "") else -1.

(** The two entries that the listing adds for the [k]-th listed section. *)
Definition section_entries (svc : Services) (pszFilename osCoverageName : string)
    (k : Z) (pszSectionId pszSectionName : string) : StringList :=
  [("SUBDATASET_" +:+ fmt_d k +:+ "_NAME",
    "RASTERLITE2:" +:+ EscapeNameAndQuoteIfNeeded svc pszFilename
      +:+ ":" +:+ EscapeNameAndQuoteIfNeeded svc osCoverageName
      +:+ ":" +:+ pszSectionId
      +:+ ":" +:+ EscapeNameAndQuoteIfNeeded svc pszSectionName);
   ("SUBDATASET_" +:+ fmt_d k +:+ "_DESC",
    "Coverage " +:+ osCoverageName +:+ ", section "
      +:+ pszSectionName +:+ " / " +:+ pszSectionId)].

(** The rows of the section table whose id and name are both present. *)
Definition listable_sections (rows : list (option string * option string))
    : list (string * string) :=
  omap (fun row => match row with
                   | (Some id, Some name) => Some (id, name)
                   | _ => None
                   end) rows.

(** One NAME/DESC pair per listable section, numbered from [k]. *)
Fixpoint section_listing (svc : Services) (pszFilename osCoverageName : string)
    (k : Z) (sections : list (string * string)) : StringList :=
  match sections with
  | [] => []
  | (id, name) :: rest =>
      section_entries svc pszFilename osCoverageName k id name
        ++ section_listing svc pszFilename osCoverageName (k + 1) rest
  end.

(** Stores holding a grayscale coverage with two sections and with one
    section, a three-band coverage with a matching and with a mismatching
    no-data pixel, and the identifier that names the coverage alone. *)
Definition two_section_services : Services :=
  Sample.services Sample.gray Sample.two_sections None.

Definition one_section_services : Services :=
  Sample.services Sample.gray Sample.one_section None.

Definition rgb_services : Services :=
  Sample.services Sample.rgb [] None.

Definition rgb_mismatch_services : Services :=
  Sample.services Sample.rgb_mismatch [] None.

(** The store of the 1-bit monochrome coverage, opened with the default
    options, which promote it to 8 bits. *)
Definition promoted_services : Services :=
  Sample.services Sample.mono [] None.

Definition coverage_id : string := "RASTERLITE2:f.sqlite:cov".

(** A strip of 1000 by 2 pixels of size 1, with no overview yet. *)
Definition base_strip : OGRSQLiteDataSource :=
  set_geometry 1000 2 true
    {| gt0 := Double.zero; gt1 := Double.of_int 1; gt2 := Double.zero;
       gt3 := Double.of_int 2; gt4 := Double.zero;
       gt5 := Double.of_int (-1) |}
    (Sample.fresh []).

(** A byte that is 0 or 1. *)
Definition is_bit (v : Z) : Prop := v = 0 \/ v = 1.





(** A store with other answers to the extent query and to the level
    query. *)
Definition with_extent_and_levels (svc : Services)
    (extent :
       option (list (option string * option string * option string
                     * option string)))
    (levels : option (list LevelRow) * option string) : Services :=
  {| CSLTokenizeString2 := CSLTokenizeString2 svc;
     OGRSQLiteParamsUnquote := OGRSQLiteParamsUnquote svc;
     OGRSQLiteEscapeName := OGRSQLiteEscapeName svc;
     CPLAtoGIntBig := CPLAtoGIntBig svc;
     CPLAtof := CPLAtof svc;
     CPLFetchBool := CPLFetchBool svc;
     GDALCheckBandCount := GDALCheckBandCount svc;
     fmt_g := fmt_g svc;
     fmt_16g := fmt_16g svc;
     show_all_pyramid_levels := show_all_pyramid_levels svc;
     rl2_create_coverage_from_dbms := rl2_create_coverage_from_dbms svc;
     query_sections := query_sections svc;
     rl2_resolve_base_resolution_from_dbms :=
       rl2_resolve_base_resolution_from_dbms svc;
     rl2_resolve_full_section_from_dbms :=
       rl2_resolve_full_section_from_dbms svc;
     query_extent := fun _ => extent;
     fetch_srs_wkt := fetch_srs_wkt svc;
     rl2_create_raster_statistics_from_dbms :=
       rl2_create_raster_statistics_from_dbms svc;
     query_title_abstract := query_title_abstract svc;
     query_section_summary := query_section_summary svc;
     query_levels := fun _ => levels;
     query_section_levels := query_section_levels svc;
     rl2_get_raw_raster_data := rl2_get_raw_raster_data svc;
     rl2_get_section_raw_raster_data := rl2_get_section_raw_raster_data svc;
     GetLockedBlockRef_ok := GetLockedBlockRef_ok svc |}.



(** The store of the RGB coverage whose no-data pixel does not match,
    without its level table: the level query fails and hands back a
    message. *)
Definition rgb_mismatch_no_levels : Services :=
  with_extent_and_levels rgb_mismatch_services
    (Some [(Some "0", Some "0", Some "1000", Some "1000")])
    (None, Some "no such table: cov_levels").

(** What the overview step of an open logs (lines 815-822): the error
    message of its level query, when the query is made and hands one
    back. *)
Definition level_query_log (svc : Services) (cov : rl2Coverage)
    (osCoverageName : string) (nSectionId : Z) : list Event :=
  let logged (pszErrMsg : option string) :=
    match pszErrMsg with
    | Some msg => [EvDebug msg]
    | None => []
    end in
  if cov_mixed_resolutions cov =? 0
  then logged (snd (query_levels svc (osCoverageName +:+ "_levels")))
  else if 0 <=? nSectionId
  then logged (snd (query_section_levels svc
                      (osCoverageName +:+ "_section_levels")
                      (wrap_int nSectionId)))
  else [].

(* ===================================================================== *)
(** ** Listing the coverages of a store: [OGRSQLiteDataSource::OpenRaster] *)
(* ===================================================================== *)

(** The answers of the two queries of [OpenRaster]: the row count of the
    probe for the table [raster_coverages], and the rows (coverage name,
    title, abstract) of that table; [None] when a query does not return
    [SQLITE_OK]. *)
Record CoverageCatalog := {
  probe_raster_coverages : option Z;
  query_coverages :
    option (list (option string * option string * option string))
}.

(** Lines 106-119: the description of a listed coverage. *)
Definition coverage_description (pszCoverageName : string)
    (pszTitle pszAbstract : option string) : string :=
  let osDesc := "Coverage " +:+ pszCoverageName in
  let osDesc :=
    match meaningful pszTitle (Some "*** missing Title ***") with
    | Some t => osDesc +:+ ", title = " +:+ t
    | None => osDesc
    end in
  match meaningful pszAbstract (Some "*** missing Abstract ***") with
  | Some a => osDesc +:+ ", abstract = " +:+ a
  | None => osDesc
  end.

(** Lines 88-126: one row of the coverage table. *)
Definition coverage_row_step (svc : Services) (pszFilename : string)
    (subs : StringList)
    (row : option string * option string * option string) : StringList :=
  match row with
  | (Some pszCoverageName, pszTitle, pszAbstract) =>
      match rl2_create_coverage_from_dbms svc pszCoverageName with
      | Some _ =>
          let nIdx := Z.of_nat (length subs) / 2 + 1 in
          let subs1 :=
            AddNameValue subs
              ("SUBDATASET_" +:+ fmt_d nIdx +:+ "_NAME")
              ("RASTERLITE2:" +:+ EscapeNameAndQuoteIfNeeded svc pszFilename
                 +:+ ":" +:+ EscapeNameAndQuoteIfNeeded svc pszCoverageName) in
          AddNameValue subs1
            ("SUBDATASET_" +:+ fmt_d nIdx +:+ "_DESC")
            (coverage_description pszCoverageName pszTitle pszAbstract)
      | None => subs
      end
  | _ => subs
  end.

(** [OGRSQLiteDataSource::OpenRaster]: the return value, the data source
    after the call and what was logged.  With exactly one listed coverage
    the call goes on to [OpenRasterSubDataset] with the listed name; were
    that name missing from a list of two entries, the source would pass a
    null pointer on, and the call is given as failing there. *)
Definition OpenRaster (svc : Services) (cat : CoverageCatalog)
    (this : OGRSQLiteDataSource) : bool * OGRSQLiteDataSource * list Event :=
  match probe_raster_coverages cat with
  | Some nRowCount =>
      if negb (nRowCount =? 1) then (false, this, [])
      else
        match query_coverages cat with
        | Some rows =>
            if negb (0 <? Z.of_nat (length rows)) then (false, this, [])
            else
              let ds :=
                set_subdatasets
                  (fold_left (coverage_row_step svc (m_pszFilename this)) rows
                     (m_aosSubDatasets this)) this in
              if Z.of_nat (length (m_aosSubDatasets ds)) =? 2 then
                match CSLFetchNameValue (m_aosSubDatasets ds)
                        "SUBDATASET_1_NAME" with
                | Some pszName => OpenRasterSubDataset svc ds pszName
                | None => (false, ds, [])
                end
              else
                (negb (Z.of_nat (length (m_aosSubDatasets ds)) =? 0), ds, [])
        | None => (false, this, [])
        end
  | None => (false, this, [])
  end.

(* ===================================================================== *)
(** ** The accessors of the data source and of its bands *)
(* ===================================================================== *)

(** [OGRSQLiteDataSource::GetMetadata]; [pam] is the answer of the generic
    persisted-metadata dataset for the domain. *)
Definition GetMetadata (ds : OGRSQLiteDataSource) (pszDomain : option string)
    (pam : option string -> StringList) : StringList :=
  match pszDomain with
  | Some d =>
      if EQUAL d "SUBDATASETS"
         && (2 <? Z.of_nat (length (m_aosSubDatasets ds)))
      then m_aosSubDatasets ds
      else pam pszDomain
  | None => pam pszDomain
  end.

(** [OGRSQLiteDataSource::GetGeoTransform]: the status and the six
    coefficients written. *)
Definition GetGeoTransform (ds : OGRSQLiteDataSource)
    (pam : CPLErr * GeoTransform) : CPLErr * GeoTransform :=
  if m_bGeoTransformValid ds then (CE_None, m_adfGeoTransform ds) else pam.

(** [OGRSQLiteDataSource::GetProjectionRef]. *)
Definition GetProjectionRef (ds : OGRSQLiteDataSource) (pam : string)
    : string :=
  if negb (String.eqb (m_osProjection ds) "") then m_osProjection ds else pam.

(** Modelled from the spec: [GetRasterBand] belongs to the generic raster
    abstraction, outside the sources.  A dataset has one band object per
    channel; bands are numbered from 1 and a number that names no band
    yields a null pointer. *)
Definition GetRasterBand (ds : OGRSQLiteDataSource) (nBandId : Z)
    : option RL2RasterBand :=
  if (nBandId <? 1) || (GetRasterCount ds <? nBandId) then None
  else papoBands ds !! Z.to_nat (nBandId - 1).

(** [RL2RasterBand::GetOverviewCount]; [pam] is the count of the generic
    persisted-metadata band. *)
Definition GetOverviewCount (poGDS : OGRSQLiteDataSource) (pam : Z) : Z :=
  let nRet := wrap_int (Z.of_nat (length (m_apoOverviewDS poGDS))) in
  if 0 <? nRet then nRet else pam.

(** [RL2RasterBand::GetOverview] for band [b] of dataset [poGDS]. *)
Definition GetOverview (poGDS : OGRSQLiteDataSource) (b : RL2RasterBand)
    (nIdx : Z) (pam : Z -> option RL2RasterBand) : option RL2RasterBand :=
  let nOvr := wrap_int (Z.of_nat (length (m_apoOverviewDS poGDS))) in
  if 0 <? nOvr then
    if (nIdx <? 0) || (nOvr <=? nIdx) then None
    else
      match m_apoOverviewDS poGDS !! Z.to_nat nIdx with
      | Some o => GetRasterBand o (nBand b)
      | None => None
      end
  else pam nIdx.

(** A colour entry and a colour table, as the list of its entries. *)
Record GDALColorEntry := {
  c1 : Z; c2 : Z; c3 : Z; c4 : Z
}.

Abbreviation GDALColorTable := (list GDALColorEntry).

(** A palette handle: the colours (red, green, blue) answered by
    [rl2_get_palette_colors], [None] when that call does not return
    [RL2_OK]. *)
Record rl2Palette := {
  pal_colors : option (list (Z * Z * Z))
}.

(** [rl2_get_coverage_name]: a null pointer for a null handle. *)
Definition rl2_get_coverage_name (cov : option rl2Coverage) : option string :=
  cov_name <$> cov.

(** Lines 1028-1037: the entries set, in order, for the colours of the
    palette; entry [i] is transparent when the band has a no-data value
    equal to [i]. *)
Definition palette_entries (b : RL2RasterBand) (colors : list (Z * Z * Z))
    : GDALColorTable :=
  imap (fun i rgb =>
          let '(r, g, bl) := rgb in
          {| c1 := r; c2 := g; c3 := bl;
             c4 := if m_bHasNoData b
                      && Double.eqb (Double.of_int (Z.of_nat i))
                           (m_dfNoDataValue b)
                   then 0 else 255 |})
       colors.

(** [RL2RasterBand::GetColorTable] for band [b] of dataset [poGDS]:
    [m_poCT] is the table held by the band before the call; the result is
    both the value returned and the table held afterwards.
    [rl2_get_dbms_palette] answers the palette stored for a coverage name,
    [None] for a null handle. *)
Definition GetColorTable
    (rl2_get_dbms_palette : option string -> option rl2Palette)
    (poGDS : OGRSQLiteDataSource) (b : RL2RasterBand)
    (m_poCT : option GDALColorTable) : option GDALColorTable :=
  match m_poCT with
  | Some ct => Some ct
  | None =>
      if bool_decide (m_eColorInterp b = GCI_PaletteIndex) then
        match rl2_get_dbms_palette
                (rl2_get_coverage_name (m_pRL2Coverage poGDS)) with
        | Some palettePtr =>
            match pal_colors palettePtr with
            | Some colors => Some (palette_entries b colors)
            | None => Some []
            end
        | None => None
        end
      else None
  end.

(* ===================================================================== *)
(** ** The helpers of the ingestion *)
(* ===================================================================== *)

(** A call of one of the sample setters of the raster library on the
    pixel being prepared; the setters of 8-bit and 16-bit unsigned samples
    take the band number. *)
Inductive PixelSample :=
  | set_pixel_sample_1bit (v : Z)
  | set_pixel_sample_2bit (v : Z)
  | set_pixel_sample_4bit (v : Z)
  | set_pixel_sample_int8 (v : Z)
  | set_pixel_sample_uint8 (band v : Z)
  | set_pixel_sample_int16 (v : Z)
  | set_pixel_sample_uint16 (band v : Z)
  | set_pixel_sample_int32 (v : Z)
  | set_pixel_sample_uint32 (v : Z)
  | set_pixel_sample_float (v : double)
  | set_pixel_sample_double (v : double).

(** What [CreateDefaultNoData] did to the pixel it returns: the setter
    calls in order, and whether a [CPLAssert(false)] was reached. *)
Record DefaultNoData := {
  dn_samples : list PixelSample;
  dn_asserted : bool
}.

(** [CreateDefaultNoData]: [None] when [rl2_create_pixel] answers a null
    pointer. *)
Definition CreateDefaultNoData
    (rl2_create_pixel_ok : rl2_sample -> rl2_pixel -> Z -> bool)
    (nSampleType : rl2_sample) (nPixelType : rl2_pixel) (nBandCount : Z)
    : option DefaultNoData :=
  if negb (rl2_create_pixel_ok nSampleType nPixelType nBandCount) then None
  else
    let done l := Some {| dn_samples := l; dn_asserted := false |} in
    let asserted := Some {| dn_samples := []; dn_asserted := true |} in
    match nPixelType with
    | RL2_PIXEL_MONOCHROME => done [set_pixel_sample_1bit 0]
    | RL2_PIXEL_PALETTE =>
        match nSampleType with
        | RL2_SAMPLE_1_BIT => done [set_pixel_sample_1bit 0]
        | RL2_SAMPLE_2_BIT => done [set_pixel_sample_2bit 0]
        | RL2_SAMPLE_4_BIT => done [set_pixel_sample_4bit 0]
        | RL2_SAMPLE_UINT8 => done [set_pixel_sample_uint8 0 0]
        | _ => asserted
        end
    | RL2_PIXEL_GRAYSCALE =>
        match nSampleType with
        | RL2_SAMPLE_1_BIT => done [set_pixel_sample_1bit 1]
        | RL2_SAMPLE_2_BIT => done [set_pixel_sample_2bit 3]
        | RL2_SAMPLE_4_BIT => done [set_pixel_sample_4bit 15]
        | RL2_SAMPLE_UINT8 => done [set_pixel_sample_uint8 0 255]
        | RL2_SAMPLE_UINT16 => done [set_pixel_sample_uint16 0 0]
        | _ => asserted
        end
    | RL2_PIXEL_RGB =>
        match nSampleType with
        | RL2_SAMPLE_UINT8 =>
            done [set_pixel_sample_uint8 0 255; set_pixel_sample_uint8 1 255;
                  set_pixel_sample_uint8 2 255]
        | RL2_SAMPLE_UINT16 =>
            done [set_pixel_sample_uint16 0 0; set_pixel_sample_uint16 1 0;
                  set_pixel_sample_uint16 2 0]
        | _ => asserted
        end
    | RL2_PIXEL_DATAGRID =>
        match nSampleType with
        | RL2_SAMPLE_INT8 => done [set_pixel_sample_int8 0]
        | RL2_SAMPLE_UINT8 => done [set_pixel_sample_uint8 0 0]
        | RL2_SAMPLE_INT16 => done [set_pixel_sample_int16 0]
        | RL2_SAMPLE_UINT16 => done [set_pixel_sample_uint16 0 0]
        | RL2_SAMPLE_INT32 => done [set_pixel_sample_int32 0]
        | RL2_SAMPLE_UINT32 => done [set_pixel_sample_uint32 0]
        | RL2_SAMPLE_FLOAT => done [set_pixel_sample_float Double.zero]
        | RL2_SAMPLE_DOUBLE => done [set_pixel_sample_double Double.zero]
        | _ => asserted
        end
    | RL2_PIXEL_MULTIBAND =>
        match nSampleType with
        | RL2_SAMPLE_UINT8 =>
            done (map (fun nb => set_pixel_sample_uint8 nb 255)
                      (seqZ 0 nBandCount))
        | RL2_SAMPLE_UINT16 =>
            done (map (fun nb => set_pixel_sample_uint16 nb 0)
                      (seqZ 0 nBandCount))
        | _ => asserted
        end
    | _ => asserted
    end.

(** The request that [RasterLite2Callback] sends to [RasterIO] of the
    source: the window read, which is also the size of the buffer window
    written, and the three spacings of the buffer. *)
Record RasterIORequest := {
  rio_xoff : Z; rio_yoff : Z; rio_xsize : Z; rio_ysize : Z;
  rio_type : GDALDataType; rio_bands : Z;
  rio_pixel_space : Z; rio_line_space : Z; rio_band_space : Z
}.

(** [RasterLite2CallbackData], with the read of the source raster:
    [src_RasterIO] answers the buffer as the read leaves it, [None] when the
    read does not return [CE_None]. *)
Record RasterLite2CallbackData := {
  poSrcDS : SrcDataset;
  src_RasterIO : RasterIORequest -> Bytes -> option Bytes;
  pfnProgress : option (double -> bool);
  adfGeoTransform : GeoTransform
}.

(** Lines 1405-1416: a pixel offset of the tile in the source raster. *)
Definition tile_offset (dfTile dfOrigin dfRes : double) : Z :=
  Double.to_int
    (Double.add Double.half (Double.div (Double.sub dfTile dfOrigin) dfRes)).

(** Lines 1417-1429: the size requested along one axis, and whether the
    tile extends past the edge of the source. *)
Definition clip_request (nOff nOff2 nRasterSize : Z) : Z * bool :=
  if nRasterSize <? nOff2 then (wrap_int (nRasterSize - nOff), true)
  else (wrap_int (nOff2 - nOff), false).

(** Lines 1434-1439: [memset] of the first [n] bytes. *)
Definition zero_fill (pabyBuffer : Bytes) (n : Z) : Bytes :=
  overwrite pabyBuffer (replicate (Z.to_nat n) 0).

(** Lines 1405-1454: the request and the buffer handed to [RasterIO]. *)
Definition callback_request (pCbkData : RasterLite2CallbackData)
    (dfTileMinX dfTileMinY dfTileMaxX dfTileMaxY : double)
    (pabyBuffer : Bytes) : RasterIORequest * Bytes :=
  let gt := adfGeoTransform pCbkData in
  let nXOff := tile_offset dfTileMinX (gt0 gt) (gt1 gt) in
  let nXOff2 := tile_offset dfTileMaxX (gt0 gt) (gt1 gt) in
  let nYOff := tile_offset dfTileMaxY (gt3 gt) (gt5 gt) in
  let nYOff2 := tile_offset dfTileMinY (gt3 gt) (gt5 gt) in
  let '(nReqXSize, bClipX) :=
    clip_request nXOff nXOff2 (src_xsize (poSrcDS pCbkData)) in
  let '(nReqYSize, bClipY) :=
    clip_request nYOff nYOff2 (src_ysize (poSrcDS pCbkData)) in
  let bZeroInitialize := bClipX || bClipY in
  let eDT := src_band_type (poSrcDS pCbkData) 0 in
  let nDTSize := GDALGetDataTypeSizeBytes eDT in
  let nBands := Z.of_nat (length (src_bands (poSrcDS pCbkData))) in
  let buffer :=
    if bZeroInitialize then
      zero_fill pabyBuffer
        ((wrap_int (nXOff2 - nXOff) * wrap_int (nYOff2 - nYOff)
            * nBands * nDTSize) mod 2 ^ 64)
    else pabyBuffer in
  let nPixelSpacing := nDTSize * nBands in
  let nLineSpacing := nPixelSpacing * wrap_int (nXOff2 - nXOff) in
  ({| rio_xoff := nXOff; rio_yoff := nYOff;
      rio_xsize := nReqXSize; rio_ysize := nReqYSize;
      rio_type := eDT; rio_bands := nBands;
      rio_pixel_space := nPixelSpacing; rio_line_space := nLineSpacing;
      rio_band_space := nDTSize |}, buffer).

(** The outcome of [RasterLite2Callback]: the value returned, the tile
    buffer after the call and the fraction reported to the progress
    callback, if it was called. *)
Record CallbackResult := {
  cbr_ok : bool;
  cbr_buffer : Bytes;
  cbr_progress : option double
}.

(** [RasterLite2Callback]. *)
Definition RasterLite2Callback (pCbkData : RasterLite2CallbackData)
    (dfTileMinX dfTileMinY dfTileMaxX dfTileMaxY : double)
    (pabyBuffer : Bytes) : CallbackResult :=
  let '(rq, buffer) :=
    callback_request pCbkData dfTileMinX dfTileMinY dfTileMaxX dfTileMaxY
      pabyBuffer in
  match src_RasterIO pCbkData rq buffer with
  | None => {| cbr_ok := false; cbr_buffer := buffer; cbr_progress := None |}
  | Some filled =>
      match pfnProgress pCbkData with
      | Some progress =>
          let dfComplete :=
            Double.div
              (Double.of_int (wrap_int (rio_yoff rq + rio_ysize rq)))
              (Double.of_int (src_ysize (poSrcDS pCbkData))) in
          {| cbr_ok := progress dfComplete; cbr_buffer := filled;
             cbr_progress := Some dfComplete |}
      | None =>
          {| cbr_ok := true; cbr_buffer := filled; cbr_progress := None |}
      end
  end.

(* ===================================================================== *)
(** ** Further properties stated about the operations *)
(* ===================================================================== *)

(** A number that is neither a NaN nor an infinity. *)
Definition is_finite (d : double) : bool :=
  match d with
  | S754_zero _ | S754_finite _ _ _ => true
  | S754_infinity _ | S754_nan => false
  end.

(** The band of an overview made from band number [i + 1] of its base. *)
Definition overview_bands (base : OGRSQLiteDataSource) : list RL2RasterBand :=
  imap (fun i b => copy_RL2RasterBand (Z.of_nat i + 1) b) (papoBands base).

(** What an overview holds of the dataset [base] that owns it: the link to
    it and no coverage handle of its own, its coverage name, section,
    promotion and mixed-resolution flags, its origin, one band per band of
    the base, and no overview of its own. *)
Definition derived_from (base o : OGRSQLiteDataSource) : Prop :=
  bIsInternal o = true /\
  m_poParentDS o = Some (m_pRL2Coverage base) /\
  m_pRL2Coverage o = None /\
  m_osCoverageName o = m_osCoverageName base /\
  m_nSectionId o = m_nSectionId base /\
  m_bPromote1BitAs8Bit o = m_bPromote1BitAs8Bit base /\
  m_bRL2MixedResolutions o = m_bRL2MixedResolutions base /\
  gt0 (m_adfGeoTransform o) = gt0 (m_adfGeoTransform base) /\
  gt3 (m_adfGeoTransform o) = gt3 (m_adfGeoTransform base) /\
  papoBands o = overview_bands base /\
  m_apoOverviewDS o = [].

(** The size that lets a candidate through: wider than one pixel and,
    unless every level is asked for, at least 64 pixels in one direction. *)
Definition retained_size (bShowAll : bool) (o : OGRSQLiteDataSource) : Prop :=
  1 < nRasterXSize o /\
  (bShowAll = false -> 64 <= nRasterXSize o \/ 64 <= nRasterYSize o).

(** The dataset [base_1000] after the candidates (2, 2) and (4, 4), and
    the first overview it retains. *)
Definition pyramid_1000 : OGRSQLiteDataSource :=
  build_overviews false base_1000
    [(Double.of_int 2, Double.of_int 2); (Double.of_int 4, Double.of_int 4)].

Definition pyramid_1000_first : OGRSQLiteDataSource :=
  nth 0 (m_apoOverviewDS pyramid_1000) new_OGRSQLiteDataSource.

(** The layout of the bands of a dataset opened on a coverage: one band
    per band of the coverage, numbered from 1 in order, all with the data
    type of the coverage's sample type and the coverage's tile size as block
    size, that size being non-zero and within the range of an [int]. *)
Definition bands_layout (ds : OGRSQLiteDataSource) : Prop :=
  exists cov nBits eDT bSigned,
    m_pRL2Coverage ds = Some cov /\
    sample_format (cov_sample cov) = Some (nBits, eDT, bSigned) /\
    GetRasterCount ds = Z.max 0 (cov_bands cov) /\
    cov_tile_width cov <> 0 /\ cov_tile_width cov <= INT_MAX /\
    cov_tile_height cov <> 0 /\ cov_tile_height cov <= INT_MAX /\
    forall (i : nat) b, papoBands ds !! i = Some b ->
      nBand b = Z.of_nat i + 1 /\ eDataType b = eDT /\
      nBlockXSize b = cov_tile_width cov /\
      nBlockYSize b = cov_tile_height cov.

(** The three-band coverage of the sample store, opened. *)
Definition rgb_opened : OGRSQLiteDataSource :=
  snd (fst (Sample.opened rgb_services [])).

(** Band [ob] of an overview stands for band [b] of the base: same number,
    data type, block size, no-data value and colour interpretation. *)
Definition same_band (b ob : RL2RasterBand) : Prop :=
  nBand ob = nBand b /\ eDataType ob = eDataType b /\
  nBlockXSize ob = nBlockXSize b /\ nBlockYSize ob = nBlockYSize b /\
  m_bHasNoData ob = m_bHasNoData b /\
  m_dfNoDataValue ob = m_dfNoDataValue b /\
  m_eColorInterp ob = m_eColorInterp b.

(** The identifier of section 7 of the coverage of the sample store. *)
Definition section_id : string := "RASTERLITE2:f.sqlite:cov:7".

(** The rows of the coverage table that [OpenRaster] lists: those with a
    name for which the raster library resolves a coverage. *)
Definition loadable_coverages (svc : Services)
    (rows : list (option string * option string * option string))
    : list (string * option string * option string) :=
  omap (fun row =>
          match row with
          | (Some name, title, abstract) =>
              match rl2_create_coverage_from_dbms svc name with
              | Some _ => Some (name, title, abstract)
              | None => None
              end
          | _ => None
          end) rows.

(** The identifier under which [OpenRaster] lists a coverage. *)
Definition coverage_identifier (svc : Services) (pszFilename name : string)
    : string :=
  "RASTERLITE2:" +:+ EscapeNameAndQuoteIfNeeded svc pszFilename
    +:+ ":" +:+ EscapeNameAndQuoteIfNeeded svc name.

(** One NAME/DESC pair per listed coverage, numbered from [k]. *)
Fixpoint coverage_listing (svc : Services) (pszFilename : string) (k : Z)
    (covs : list (string * option string * option string)) : StringList :=
  match covs with
  | [] => []
  | (name, title, abstract) :: rest =>
      [("SUBDATASET_" +:+ fmt_d k +:+ "_NAME",
        coverage_identifier svc pszFilename name);
       ("SUBDATASET_" +:+ fmt_d k +:+ "_DESC",
        coverage_description name title abstract)]
        ++ coverage_listing svc pszFilename (k + 1) rest
  end.

(** A catalog whose table holds two rows for the coverage [cov] and one
    for a coverage that cannot be resolved. *)
Definition two_coverage_catalog : CoverageCatalog :=
  {| probe_raster_coverages := Some 1;
     query_coverages :=
       Some [(Some "cov", Some "Title", None);
             (Some "cov", None, Some "*** missing Abstract ***");
             (Some "gone", None, None)] |}.

(** A three-band 8-bit coverage tiled 2 by 2, in a store that answers
    every raw-data request with the twelve bytes of four pixels, and the
    dataset opened on it. *)
Definition small_rgb : rl2Coverage :=
  Sample.coverage "cov" RL2_SAMPLE_UINT8 RL2_PIXEL_RGB 3 2 None.

Definition small_rgb_buffer : Bytes :=
  [11; 12; 13; 21; 22; 23; 31; 32; 33; 41; 42; 43].

Definition small_rgb_services : Services :=
  Sample.services small_rgb [] (Some small_rgb_buffer).

Definition small_rgb_opened : OGRSQLiteDataSource :=
  snd (fst (Sample.opened small_rgb_services [])).

(** Its second band. *)
Definition small_rgb_green : RL2RasterBand :=
  nth 1 (papoBands small_rgb_opened) mono_band.

(** The pixel type asked of the storage for a coverage: grayscale for a
    1-bit monochrome coverage, the coverage's own otherwise. *)
Definition requested_pixel (cov : rl2Coverage) : rl2_pixel :=
  if bool_decide (cov_pixel cov = RL2_PIXEL_MONOCHROME)
     && bool_decide (cov_sample cov = RL2_SAMPLE_1_BIT)
  then RL2_PIXEL_GRAYSCALE else cov_pixel cov.

(** The raw-data primitive that a read goes through. *)
Definition raw_primitive (svc : Services) (by_section : bool)
    : RawRequest -> option Bytes :=
  if by_section then rl2_get_section_raw_raster_data svc
  else rl2_get_raw_raster_data svc.

(** An error event. *)
Definition is_error (e : Event) : bool :=
  match e with EvError _ => true | _ => false end.

(** The events that end a transaction with success. *)
Definition is_commit_or_reopen (e : Event) : bool :=
  match e with EvCommitTransaction | EvReopen _ => true | _ => false end.

(** The band that a sample setter addresses (the setters without a band
    argument address the only band) and the value it sets. *)
Definition sample_band (s : PixelSample) : Z :=
  match s with
  | set_pixel_sample_uint8 band _ | set_pixel_sample_uint16 band _ => band
  | _ => 0
  end.

Definition sample_value (s : PixelSample) : double :=
  match s with
  | set_pixel_sample_1bit v | set_pixel_sample_2bit v
  | set_pixel_sample_4bit v | set_pixel_sample_int8 v
  | set_pixel_sample_uint8 _ v | set_pixel_sample_int16 v
  | set_pixel_sample_uint16 _ v | set_pixel_sample_int32 v
  | set_pixel_sample_uint32 v => Double.of_int v
  | set_pixel_sample_float v | set_pixel_sample_double v => v
  end.

(** A source of three 8-bit bands without colour interpretation. *)
Definition three_band_source : SrcDataset :=
  {| src_bands :=
       [{| sb_type := GDT_Byte; sb_color := GCI_Undefined |};
        {| sb_type := GDT_Byte; sb_color := GCI_Undefined |};
        {| sb_type := GDT_Byte; sb_color := GCI_Undefined |}];
     src_GetGeoTransform := (CE_Failure, default_GeoTransform);
     src_xsize := 10; src_ysize := 10; src_projection := None |}.

(** Callback data for the source [three_band_source], whose reads
    succeed and leave the buffer as it is, without a progress function. *)
Definition sample_callback_data : RasterLite2CallbackData :=
  {| poSrcDS := three_band_source;
     src_RasterIO := fun _ buffer => Some buffer;
     pfnProgress := None;
     adfGeoTransform :=
       {| gt0 := Double.zero; gt1 := Double.of_int 1; gt2 := Double.zero;
          gt3 := Double.of_int 10; gt4 := Double.zero;
          gt5 := Double.of_int (-1) |} |}.

(** The request for the tile that covers the columns 8 to 12 and the rows
    0 to 4 of that source of 10 by 10 pixels, on a buffer of 50 bytes. *)
Definition sample_tile_request : RasterIORequest * Bytes :=
  callback_request sample_callback_data (Double.of_int 8) (Double.of_int 6)
    (Double.of_int 12) (Double.of_int 10) (replicate 50 7).

(** A palette band without no-data value, and a palette of two colours. *)
Definition palette_band : RL2RasterBand :=
  new_RL2RasterBand 1 RL2_PIXEL_PALETTE GDT_Byte 8 false false 256 256
    false Double.zero.

Definition two_colors (name : option string) : option rl2Palette :=
  Some {| pal_colors := Some [(10, 20, 30); (40, 50, 60)] |}.

(** What the bands of a dataset opened on a coverage advertise: the
    colour interpretation that goes with the pixel type of the coverage
    (for an RGB coverage, that of code 3 + i for the band at position i:
    red, green and blue for the first three bands), and in the
    IMAGE_STRUCTURE domain the bit depth, as NBITS or, for a 1-bit band
    promoted to 8 bits, as SOURCE_NBITS, when it is not a multiple of 8, and
    PIXELTYPE = SIGNEDBYTE for signed 8-bit samples. *)
Definition bands_advertise (ds : OGRSQLiteDataSource) : Prop :=
  exists cov nBits eDT bSigned,
    m_pRL2Coverage ds = Some cov /\
    sample_format (cov_sample cov) = Some (nBits, eDT, bSigned) /\
    let promoted := (nBits =? 1) && m_bPromote1BitAs8Bit ds in
    forall (i : nat) b, papoBands ds !! i = Some b ->
      m_eColorInterp b
        = match cov_pixel cov with
          | RL2_PIXEL_MONOCHROME | RL2_PIXEL_GRAYSCALE => GCI_GrayIndex
          | RL2_PIXEL_PALETTE => GCI_PaletteIndex
          | RL2_PIXEL_RGB => color_interp_of_code (3 + Z.of_nat i)
          | _ => GCI_Undefined
          end /\
      band_metadata b !! ("IMAGE_STRUCTURE", "NBITS")
        = (if negb (nBits mod 8 =? 0) && negb promoted
           then Some (fmt_d nBits) else None) /\
      band_metadata b !! ("IMAGE_STRUCTURE", "SOURCE_NBITS")
        = (if promoted then Some (fmt_d nBits) else None) /\
      band_metadata b !! ("IMAGE_STRUCTURE", "PIXELTYPE")
        = (if (nBits =? 8) && bSigned then Some "SIGNEDBYTE" else None).

(* ===================================================================== *)
(** ** Arithmetic facts *)
(* ===================================================================== *)

Lemma wrap_int_id z : INT_MIN <= z <= INT_MAX -> wrap_int z = z.
Proof.
  unfold wrap_int, INT_MIN, INT_MAX. intros H.
  rewrite Z.mod_small by lia. lia.
Qed.


Lemma to_int_range d : INT_MIN <= Double.to_int d <= INT_MAX.
Proof.
  unfold Double.to_int, INT_MIN, INT_MAX.
  destruct d as [s | s | | s m e]; try lia.
  destruct s; simpl;
    match goal with |- context [if ?c then _ else _] => destruct c eqn:E end;
    lia.
Qed.





(* ===================================================================== *)
(** ** The overview chain: what is retained *)
(* ===================================================================== *)

(** The overview built for a retained candidate. *)
Lemma CreateRL2OverviewDatasetIfNeeded_cases bShowAll this dfXRes dfYRes :
  CreateRL2OverviewDatasetIfNeeded bShowAll this dfXRes dfYRes = this \/
  exists o,
    CreateRL2OverviewDatasetIfNeeded bShowAll this dfXRes dfYRes
      = set_overviews (m_apoOverviewDS this ++ [o]) this /\
    x_resolution o = dfXRes /\
    m_poParentDS o = Some (m_pRL2Coverage this) /\
    m_bPromote1BitAs8Bit o = m_bPromote1BitAs8Bit this /\
    same_resolution dfXRes (x_resolution this) = false /\
    (forall o', o' ∈ m_apoOverviewDS this ->
       same_resolution dfXRes (x_resolution o') = false).
Proof.
  unfold CreateRL2OverviewDatasetIfNeeded.
  destruct (same_resolution dfXRes (gt1 (m_adfGeoTransform this))) eqn:Hb;
    [now left |].
  destruct (existsb _ (m_apoOverviewDS this)) eqn:He; [now left |].
  destruct (overview_discarded _ _ bShowAll); [now left |].
  right. eexists. split; [reflexivity |].
  repeat split; try assumption.
  intros o' Ho'.
  destruct (same_resolution dfXRes (x_resolution o')) eqn:Hs; [| reflexivity].
  assert (existsb
            (fun o => same_resolution dfXRes (gt1 (m_adfGeoTransform o)))
            (m_apoOverviewDS this) = true) as Ht.
  { apply existsb_exists. exists o'. split; [now apply list_elem_of_In |].
    exact Hs. }
  congruence.
Qed.

Lemma CreateRL2OverviewDatasetIfNeeded_preserves bShowAll ds dfXRes dfYRes :
  overviews_distinct ds ->
  overviews_distinct (CreateRL2OverviewDatasetIfNeeded bShowAll ds dfXRes dfYRes).
Proof.
  intros [Hbase Hpair].
  destruct (CreateRL2OverviewDatasetIfNeeded_cases bShowAll ds dfXRes dfYRes)
    as [-> | (o & -> & Hx & _ & _ & Hb & Hothers)]; [now split |].
  split; simpl.
  - intros o' [Ho' | Ho']%elem_of_app.
    + now apply Hbase.
    + apply list_elem_of_singleton in Ho' as ->.
      unfold x_resolution at 1. fold (x_resolution o). now rewrite Hx.
  - intros i j oi oj Hij Hi Hj.
    destruct (decide (j < length (m_apoOverviewDS ds))%nat) as [Hlt | Hge].
    + rewrite lookup_app_l in Hi by lia. rewrite lookup_app_l in Hj by lia.
      eauto.
    + rewrite lookup_app_r in Hj by lia.
      rewrite lookup_app_l in Hi.
      2:{ apply lookup_lt_Some in Hj. simpl in Hj.
          apply lookup_lt_Some in Hi. rewrite length_app in Hi. simpl in *. lia. }
      destruct (j - length (m_apoOverviewDS ds))%nat eqn:Hd; simpl in Hj;
        [| now destruct n].
      injection Hj as <-. rewrite Hx. apply Hothers.
      eapply list_elem_of_lookup_2; eauto.
Qed.

Lemma build_overviews_x_resolution bShowAll candidates : forall ds,
  x_resolution (build_overviews bShowAll ds candidates) = x_resolution ds.
Proof.
  unfold build_overviews.
  induction candidates as [| [x y] cs IH]; intros ds; [reflexivity |].
  simpl. rewrite IH.
  destruct (CreateRL2OverviewDatasetIfNeeded_cases bShowAll ds x y)
    as [-> | (o & -> & _)]; reflexivity.
Qed.

Lemma build_overviews_preserves bShowAll candidates : forall ds,
  overviews_distinct ds ->
  overviews_distinct (build_overviews bShowAll ds candidates).
Proof.
  unfold build_overviews.
  induction candidates as [| [x y] cs IH]; intros ds Hds; [exact Hds |].
  simpl. apply IH. now apply CreateRL2OverviewDatasetIfNeeded_preserves.
Qed.

(** The parts of the size test that discard as intended: a width of at
    most 1, and a small candidate when the override is off. *)
Lemma overview_discarded_narrow_or_small nXSize nYSize bShowAll :
  nXSize <= 1 \/ (nXSize < 64 /\ nYSize < 64 /\ bShowAll = false) ->
  overview_discarded nXSize nYSize bShowAll = true.
Proof.
  unfold overview_discarded. intros [H | (Hx & Hy & ->)].
  - replace (nXSize <=? 1) with true by (symmetry; apply Z.leb_le; lia).
    reflexivity.
  - replace (nXSize <? 64) with true by (symmetry; apply Z.ltb_lt; lia).
    replace (nYSize <? 64) with true by (symmetry; apply Z.ltb_lt; lia).
    simpl. now rewrite !orb_true_r.
Qed.

(** A candidate at least 64 pixels wide passes the size test whatever its
    height. *)
Lemma overview_discarded_ignores_height nXSize nYSize bShowAll :
  64 <= nXSize -> overview_discarded nXSize nYSize bShowAll = false.
Proof.
  unfold overview_discarded. intros H.
  replace (nXSize <=? 1) with false by (symmetry; apply Z.leb_gt; lia).
  replace (nXSize <? 64) with false by (symmetry; apply Z.ltb_ge; lia).
  reflexivity.
Qed.

(** C3: on a strip of 1000 by 2 pixels the half-resolution candidate
    (2, 2) has a recomputed size of 500 by 1; its height is at most 1, yet
    it is appended to the overview list, because the size test looks at the
    width twice and never at the height alone. *)
Lemma overview_of_height_one_is_retained :
  map (fun o => (nRasterXSize o, nRasterYSize o))
      (m_apoOverviewDS
         (CreateRL2OverviewDatasetIfNeeded false base_strip
            (Double.of_int 2) (Double.of_int 2)))
  = [(500, 1)].
Proof. vm_compute. reflexivity. Qed.

(** The difference of a finite number with itself is zero. *)
Lemma sub_self_zero x :
  is_finite x = true -> Double.fabs (Double.sub x x) = Double.zero.
Proof.
  destruct x as [s | s | | s m e]; try discriminate; intros _.
  - now destruct s.
  - unfold Double.sub, SFsub, Double.fabs. cbv zeta.
    rewrite Z.min_id. unfold shl_align. rewrite Z.sub_diag. cbn [fst].
    rewrite ?Z.sub_diag. reflexivity.
Qed.

Lemma same_resolution_self x :
  is_finite x = true ->
  Double.ltb Double.zero (Double.mul Double.lit_1e_5 x) = true ->
  same_resolution x x = true.
Proof.
  intros Hf Hpos. unfold same_resolution. now rewrite sub_self_zero.
Qed.

(** C5, as amended: starting from a dataset without overviews, after any
    sequence of calls of CreateRL2OverviewDatasetIfNeeded the base
    resolution is unchanged and the overview list satisfies this: the x
    resolution x of a retained overview fails the builder's test
    fabs(x - ref) < 1e-5 * ref against the base resolution ref, and
    against the resolution ref of every overview retained before it.  The
    tolerance is relative to the earlier resolution and the test is made
    in this one direction only.  In particular no retained overview has
    exactly the x resolution of the base, nor of another retained
    overview, when that resolution is finite and 1e-5 times it is
    positive. *)
Theorem overviews_stay_distinct bShowAll ds candidates :
  m_apoOverviewDS ds = [] ->
  let ds' := build_overviews bShowAll ds candidates in
  x_resolution ds' = x_resolution ds /\
  (forall o, o ∈ m_apoOverviewDS ds' ->
     Double.ltb (Double.fabs (Double.sub (x_resolution o) (x_resolution ds)))
                (Double.mul Double.lit_1e_5 (x_resolution ds)) = false) /\
  (forall (i j : nat) oi oj, (i < j)%nat ->
     m_apoOverviewDS ds' !! i = Some oi ->
     m_apoOverviewDS ds' !! j = Some oj ->
     Double.ltb (Double.fabs (Double.sub (x_resolution oj) (x_resolution oi)))
                (Double.mul Double.lit_1e_5 (x_resolution oi)) = false) /\
  (forall o, o ∈ m_apoOverviewDS ds' ->
     is_finite (x_resolution ds) = true ->
     Double.ltb Double.zero (Double.mul Double.lit_1e_5 (x_resolution ds))
       = true ->
     x_resolution o <> x_resolution ds) /\
  (forall (i j : nat) oi oj, i <> j ->
     m_apoOverviewDS ds' !! i = Some oi ->
     m_apoOverviewDS ds' !! j = Some oj ->
     is_finite (x_resolution oi) = true ->
     Double.ltb Double.zero (Double.mul Double.lit_1e_5 (x_resolution oi))
       = true ->
     x_resolution oj <> x_resolution oi).
Proof.
  intros Hnil ds'.
  assert (overviews_distinct ds') as Hd.
  { apply build_overviews_preserves. split.
    - rewrite Hnil. intros o Ho. now apply elem_of_nil in Ho.
    - rewrite Hnil. intros i j oi oj _ Hi. now rewrite lookup_nil in Hi. }
  assert (x_resolution ds' = x_resolution ds) as Hx
    by apply build_overviews_x_resolution.
  destruct Hd as [Hbase Hpair]. rewrite Hx in Hbase.
  split; [exact Hx |]. split; [exact Hbase |]. split; [exact Hpair |]. split.
  - intros o Ho Hf Hpos Heq.
    pose proof (Hbase o Ho) as Hno. rewrite Heq in Hno.
    rewrite (same_resolution_self _ Hf Hpos) in Hno. discriminate.
  - intros i j oi oj Hij Hi Hj Hf Hpos Heq.
    pose proof (same_resolution_self _ Hf Hpos) as Hself.
    destruct (decide (i < j)%nat) as [Hlt | Hge].
    + pose proof (Hpair i j oi oj Hlt Hi Hj) as Hno.
      rewrite Heq, Hself in Hno. discriminate.
    + assert (j < i)%nat as Hlt by lia.
      pose proof (Hpair j i oj oi Hlt Hj Hi) as Hno.
      rewrite Heq, Hself in Hno. discriminate.
Qed.

Lemma overviews_stay_distinct_witness :
  map x_resolution
    (m_apoOverviewDS
       (build_overviews false base_1000
          [(Double.of_int 1, Double.of_int 1);
           (Double.of_int 2, Double.of_int 2);
           (Double.of_int 2, Double.of_int 2);
           (Double.of_int 4, Double.of_int 4)]))
  = [Double.of_int 2; Double.of_int 4] /\
  forall o,
    o ∈ m_apoOverviewDS
          (build_overviews false base_1000
             [(Double.of_int 1, Double.of_int 1);
              (Double.of_int 2, Double.of_int 2);
              (Double.of_int 2, Double.of_int 2);
              (Double.of_int 4, Double.of_int 4)]) ->
    x_resolution o <> x_resolution base_1000.
Proof.
  split; [vm_compute; reflexivity |].
  intros o Ho.
  destruct (overviews_stay_distinct false base_1000
              [(Double.of_int 1, Double.of_int 1);
               (Double.of_int 2, Double.of_int 2);
               (Double.of_int 2, Double.of_int 2);
               (Double.of_int 4, Double.of_int 4)] eq_refl)
    as (_ & _ & _ & Hbase & _).
  exact (Hbase o Ho eq_refl eq_refl).
Defined.

(** C5, as stated, fails.  The duplicate test never holds against a
    negative resolution: on a base of x resolution -1 a candidate of
    exactly that resolution is retained, and the candidate -2 is retained
    twice.  And its tolerance is relative to the resolution retained
    first: on a base of x resolution 1 the candidates 2 and 2.0000200001
    are both retained, although they differ by less than 1e-5 times the
    second. *)
Lemma overviews_within_tolerance_are_retained :
  x_resolution base_flipped = Double.of_int (-1) /\
  map x_resolution
    (m_apoOverviewDS
       (build_overviews false base_flipped
          [(Double.of_int (-1), Double.of_int 1);
           (Double.of_int (-2), Double.of_int 2);
           (Double.of_int (-2), Double.of_int 2)]))
  = [Double.of_int (-1); Double.of_int (-2); Double.of_int (-2)] /\
  x_resolution base_1000 = Double.of_int 1 /\
  map x_resolution
    (m_apoOverviewDS
       (build_overviews false base_1000
          [(Double.of_int 2, Double.of_int 2);
           (res_2_0000200001, res_2_0000200001)]))
  = [Double.of_int 2; res_2_0000200001] /\
  Double.ltb (Double.fabs (Double.sub (Double.of_int 2) res_2_0000200001))
             (Double.mul Double.lit_1e_5 res_2_0000200001) = true.
Proof. vm_compute. repeat split; reflexivity. Qed.

(* ===================================================================== *)
(** ** Block reading *)
(* ===================================================================== *)

(** Without overflow the expected size is the product of block width,
    block height, bytes per sample and band count. *)
Lemma expected_bytes_all_bands_exact b nBands :
  0 < nBlockXSize b -> 0 < nBlockYSize b ->
  0 < GDALGetDataTypeSizeBytes (eDataType b) -> 0 < nBands ->
  nBlockXSize b * nBlockYSize b * GDALGetDataTypeSizeBytes (eDataType b)
    * nBands <= INT_MAX ->
  expected_bytes_all_bands b nBands
  = nBlockXSize b * nBlockYSize b * GDALGetDataTypeSizeBytes (eDataType b)
      * nBands.
Proof.
  intros Hx Hy Hd Hn Hmax. unfold expected_bytes_all_bands.
  set (d := GDALGetDataTypeSizeBytes (eDataType b)) in *.
  set (w := nBlockXSize b) in *. set (h := nBlockYSize b) in *.
  assert (0 < w * h) by nia.
  assert (w * h <= w * h * d) by nia.
  assert (w * h * d <= w * h * d * nBands) by nia.
  unfold INT_MAX in Hmax.
  rewrite (wrap_int_id (w * h)) by (unfold INT_MIN, INT_MAX; lia).
  rewrite (wrap_int_id (w * h * d)) by (unfold INT_MIN, INT_MAX; lia).
  apply wrap_int_id. unfold INT_MIN, INT_MAX. lia.
Qed.

Lemma collapse_1bit_is_bit v : is_bit (collapse_1bit v).
Proof. unfold collapse_1bit, is_bit. destruct (127 <? v); auto. Qed.

(** Every byte that [GDALCopyWords] delivers is a byte of its source. *)
Lemma GDALCopyWords_from_source pSrc off stride size count v :
  v ∈ GDALCopyWords pSrc off stride size count -> v ∈ pSrc.
Proof.
  unfold GDALCopyWords. intros H.
  apply list_elem_of_In, in_flat_map in H as (k & _ & Hk).
  apply list_elem_of_In, elem_of_take in Hk as (i & Hi & _).
  rewrite lookup_drop in Hi. eapply list_elem_of_lookup_2; exact Hi.
Qed.

Lemma IReadBlock_success svc poGDS b x y pData cache :
  rb_err (IReadBlock svc poGDS b x y pData cache) = CE_None ->
  exists pBuffer,
    fetch_block svc poGDS b x y = Some pBuffer /\
    Z.of_nat (length pBuffer)
      = expected_bytes_all_bands b (GetRasterCount poGDS) /\
    rb_pData (IReadBlock svc poGDS b x y pData cache)
      = overwrite pData
          (if collapses poGDS
           then map collapse_1bit
                  (take (Z.to_nat
                           (expected_bytes_all_bands b (GetRasterCount poGDS)))
                        pBuffer)
           else GDALCopyWords pBuffer
                  ((nBand b - 1) * GDALGetDataTypeSizeBytes (eDataType b))
                  (GDALGetDataTypeSizeBytes (eDataType b) * GetRasterCount poGDS)
                  (GDALGetDataTypeSizeBytes (eDataType b))
                  (wrap_int (nBlockXSize b * nBlockYSize b))).
Proof.
  unfold IReadBlock.
  destruct (fetch_block svc poGDS b x y) as [pBuffer |]; [| discriminate].
  destruct (Z.of_nat (length pBuffer)
              =? expected_bytes_all_bands b (GetRasterCount poGDS)) eqn:E;
    simpl; [| discriminate].
  intros _. exists pBuffer. apply Z.eqb_eq in E. auto.
Qed.

(** C4, as amended: after a successful fetch, the size of the buffer is
    compared with block width times block height times bytes per sample
    times band count as the source computes it, in [int] arithmetic that
    wraps around.  A buffer of another size makes IReadBlock fail: the
    mismatch is logged, the buffer is released and neither the caller's
    block nor any band's cache is written; a buffer of exactly that size
    lets the read go on to success.  When the four factors are positive
    and their product does not exceed [INT_MAX], the size computed is the
    product itself. *)
Theorem IReadBlock_checks_buffer_size svc poGDS b x y pData cache pBuffer :
  fetch_block svc poGDS b x y = Some pBuffer ->
  let r := IReadBlock svc poGDS b x y pData cache in
  let nBufSize := Z.of_nat (length pBuffer) in
  let nDTSize := GDALGetDataTypeSizeBytes (eDataType b) in
  let nBands := GetRasterCount poGDS in
  let nExpected :=
    wrap_int
      (wrap_int (wrap_int (nBlockXSize b * nBlockYSize b) * nDTSize)
       * nBands) in
  (nBufSize <> nExpected ->
     rb_err r = CE_Failure /\ rb_pData r = pData /\ rb_cache r = cache /\
     rb_events r
       = [EvDebug ("Got " +:+ fmt_d nBufSize +:+ " bytes instead of "
                     +:+ fmt_d nExpected); EvFree]) /\
  (nBufSize = nExpected -> rb_err r = CE_None /\ rb_events r = [EvFree]) /\
  (0 < nBlockXSize b -> 0 < nBlockYSize b -> 0 < nDTSize -> 0 < nBands ->
   nBlockXSize b * nBlockYSize b * nDTSize * nBands <= INT_MAX ->
   nExpected = nBlockXSize b * nBlockYSize b * nDTSize * nBands).
Proof.
  intros Hf r nBufSize nDTSize nBands nExpected.
  change nExpected with (expected_bytes_all_bands b nBands).
  split; [| split].
  - intros H. subst r. unfold IReadBlock. rewrite Hf.
    fold nBufSize nBands. apply Z.eqb_neq in H. rewrite H. simpl. auto.
  - intros H. subst r. unfold IReadBlock. rewrite Hf.
    fold nBufSize nBands. apply Z.eqb_eq in H. rewrite H. simpl. auto.
  - intros Hx Hy Hd Hn Hmax.
    exact (expected_bytes_all_bands_exact b _ Hx Hy Hd Hn Hmax).
Qed.

Lemma IReadBlock_checks_buffer_size_witness :
  (rb_err (IReadBlock mono_services mono_opened mono_band 0 0 [7; 7; 7; 7] ∅)
     = CE_None /\
   rb_events
     (IReadBlock mono_services mono_opened mono_band 0 0 [7; 7; 7; 7] ∅)
     = [EvFree]) /\
  (rb_err
     (IReadBlock mono_short_services mono_opened mono_band 0 0 [7; 7; 7; 7] ∅)
     = CE_Failure /\
   rb_pData
     (IReadBlock mono_short_services mono_opened mono_band 0 0 [7; 7; 7; 7] ∅)
     = [7; 7; 7; 7] /\
   rb_cache
     (IReadBlock mono_short_services mono_opened mono_band 0 0 [7; 7; 7; 7] ∅)
     = ∅ /\
   rb_events
     (IReadBlock mono_short_services mono_opened mono_band 0 0 [7; 7; 7; 7] ∅)
     = [EvDebug "Got 3 bytes instead of 4"; EvFree]).
Proof.
  split.
  - refine (proj1 (proj2 (IReadBlock_checks_buffer_size mono_services
                            mono_opened mono_band 0 0 [7; 7; 7; 7] ∅
                            [255; 0; 255; 255] _)) _);
      vm_compute; congruence.
  - assert (fetch_block mono_short_services mono_opened mono_band 0 0
            = Some [255; 0; 255]) as Hf by (vm_compute; reflexivity).
    destruct (proj1 (IReadBlock_checks_buffer_size mono_short_services
                       mono_opened mono_band 0 0 [7; 7; 7; 7] ∅
                       [255; 0; 255] Hf))
      as (H1 & H2 & H3 & H4); [vm_compute; discriminate |].
    split; [exact H1 |]. split; [exact H2 |]. split; [exact H3 |].
    refine (eq_trans H4 _). vm_compute. reflexivity.
Defined.

(** C4, as stated, fails where the product does not fit an [int]: for a
    one-band 8-bit coverage tiled 65536 by 65536 the size computed wraps
    around to 0, so a fetch that returns no byte at all, where
    65536 * 65536 * 1 * 1 are expected, passes the size check and the read
    returns success. *)
Lemma huge_tile_accepts_empty_buffer :
  nBlockXSize huge_tile_band = 65536 /\
  nBlockYSize huge_tile_band = 65536 /\
  GDALGetDataTypeSizeBytes (eDataType huge_tile_band) = 1 /\
  GetRasterCount huge_tile_opened = 1 /\
  fetch_block huge_tile_services huge_tile_opened huge_tile_band 0 0
    = Some [] /\
  Z.of_nat (length (@nil Z)) <> 65536 * 65536 * 1 * 1 /\
  rb_err (IReadBlock huge_tile_services huge_tile_opened huge_tile_band 0 0
            [7; 7; 7; 7] ∅) = CE_None /\
  rb_pData (IReadBlock huge_tile_services huge_tile_opened huge_tile_band 0 0
              [7; 7; 7; 7] ∅) = [7; 7; 7; 7].
Proof.
  split; [vm_compute; reflexivity |]. split; [vm_compute; reflexivity |].
  split; [vm_compute; reflexivity |]. split; [vm_compute; reflexivity |].
  split; [vm_compute; reflexivity |]. split; [vm_compute; discriminate |].
  split; vm_compute; reflexivity.
Qed.

(** With the promotion off, a successful read of a 1-bit monochrome
    coverage writes only bytes 0 and 1 on a dataset that has a parent, and
    bytes of the storage buffer on a dataset that has none. *)
Lemma IReadBlock_collapsed_bits svc poGDS b x y pData cache n :
  coverage_type (block_coverage poGDS)
    = (RL2_SAMPLE_1_BIT, RL2_PIXEL_MONOCHROME, n) ->
  m_bPromote1BitAs8Bit poGDS = false ->
  let r := IReadBlock svc poGDS b x y pData cache in
  let k := Z.to_nat (expected_bytes_all_bands b (GetRasterCount poGDS)) in
  rb_err r = CE_None ->
  (has_parent poGDS = true ->
     Forall is_bit (take k (rb_pData r)) /\
     ((length pData <= k)%nat -> Forall is_bit (rb_pData r))) /\
  (has_parent poGDS = false ->
     exists pBuffer,
       let nDTSize := GDALGetDataTypeSizeBytes (eDataType b) in
       let written :=
         GDALCopyWords pBuffer ((nBand b - 1) * nDTSize)
           (nDTSize * GetRasterCount poGDS) nDTSize
           (wrap_int (nBlockXSize b * nBlockYSize b)) in
       fetch_block svc poGDS b x y = Some pBuffer /\
       rb_pData r = overwrite pData written /\
       forall v, v ∈ written -> v ∈ pBuffer).
Proof.
  intros Hcov Hpro r k Hok. subst r.
  destruct (IReadBlock_success _ _ _ _ _ _ _ Hok) as (pBuffer & Hf & Hlen & ->).
  unfold collapses. rewrite Hcov, Hpro. simpl. fold k.
  split; intros Hp; rewrite Hp.
  - assert (length (map collapse_1bit (take k pBuffer)) = k) as Hk.
    { rewrite length_map, length_take. subst k. lia. }
    assert (Forall is_bit (map collapse_1bit (take k pBuffer))) as Hbits.
    { apply Forall_forall. intros v (u & -> & _)%list_elem_of_fmap.
      apply collapse_1bit_is_bit. }
    unfold overwrite. rewrite Hk. split.
    + rewrite take_app_length' by (symmetry; exact Hk). exact Hbits.
    + intros Hle. rewrite drop_ge by exact Hle. now rewrite app_nil_r.
  - exists pBuffer. cbv zeta. split; [exact Hf |]. split; [reflexivity |].
    intros v Hv. eapply GDALCopyWords_from_source; exact Hv.
Qed.

(** With the promotion off, a successful read of a 1-bit monochrome
    coverage on a dataset that has a parent writes, for each byte of the
    storage buffer, 1 if it is above 127 and 0 otherwise, over the start
    of the caller's block. *)
Lemma IReadBlock_collapsed_bytes svc poGDS b x y pData cache n :
  coverage_type (block_coverage poGDS)
    = (RL2_SAMPLE_1_BIT, RL2_PIXEL_MONOCHROME, n) ->
  m_bPromote1BitAs8Bit poGDS = false ->
  has_parent poGDS = true ->
  rb_err (IReadBlock svc poGDS b x y pData cache) = CE_None ->
  exists pBuffer,
    fetch_block svc poGDS b x y = Some pBuffer /\
    Z.of_nat (length pBuffer)
      = expected_bytes_all_bands b (GetRasterCount poGDS) /\
    rb_pData (IReadBlock svc poGDS b x y pData cache)
      = map (fun v => if 127 <? v then 1 else 0) pBuffer
          ++ drop (length pBuffer) pData.
Proof.
  intros Hcov Hpro Hp Hok.
  destruct (IReadBlock_success _ _ _ _ _ _ _ Hok) as (pBuffer & Hf & Hlen & ->).
  exists pBuffer. split; [exact Hf |]. split; [exact Hlen |].
  unfold collapses. rewrite Hcov, Hpro, Hp. simpl.
  rewrite take_ge by lia.
  unfold overwrite. now rewrite length_map.
Qed.

(** C2, as stated, fails on the base dataset: the coverage is 1-bit
    monochrome, the promotion is off, the read succeeds, and the block holds
    the bytes 255 that the storage returned. *)
Lemma base_dataset_block_keeps_255 :
  papoBands mono_opened = [mono_band] /\
  has_parent mono_opened = false /\
  coverage_type (block_coverage mono_opened)
    = (RL2_SAMPLE_1_BIT, RL2_PIXEL_MONOCHROME, 1) /\
  m_bPromote1BitAs8Bit mono_opened = false /\
  rb_err (IReadBlock mono_services mono_opened mono_band 0 0 [7; 7; 7; 7] ∅)
    = CE_None /\
  rb_pData (IReadBlock mono_services mono_opened mono_band 0 0 [7; 7; 7; 7] ∅)
    = [255; 0; 255; 255] /\
  ~ Forall is_bit
      (rb_pData
         (IReadBlock mono_services mono_opened mono_band 0 0 [7; 7; 7; 7] ∅)).
Proof.
  split; [vm_compute; reflexivity |]. split; [vm_compute; reflexivity |].
  split; [vm_compute; reflexivity |]. split; [vm_compute; reflexivity |].
  split; [vm_compute; reflexivity |]. split; [vm_compute; reflexivity |].
  vm_compute. intros H. apply Forall_cons_1 in H as [[H | H] _]; discriminate.
Qed.

(* ===================================================================== *)
(** ** Ingestion: pre-flight checks and codec options *)
(* ===================================================================== *)

(** Two strings that both match a third without regard to case match
    each other. *)
Lemma EQUAL_common c : forall a b,
  EQUAL c a = true -> EQUAL c b = true -> EQUAL a b = true.
Proof.
  induction c as [| x c IH]; intros [| y a] [| z b]; simpl;
    try discriminate; try reflexivity.
  destruct (Ascii.eqb (toupper x) (toupper y)) eqn:Exy; [| discriminate].
  destruct (Ascii.eqb (toupper x) (toupper z)) eqn:Exz; [| discriminate].
  apply Ascii.eqb_eq in Exy, Exz. rewrite <- Exy, <- Exz, Ascii.eqb_refl.
  apply IH.
Qed.

Lemma EQUAL_excludes c a b :
  EQUAL a b = false -> EQUAL c a = true -> EQUAL c b = false.
Proof.
  intros Hab Ha. destruct (EQUAL c b) eqn:Hb; [| reflexivity].
  rewrite (EQUAL_common c a b Ha Hb) in Hab. discriminate.
Qed.

Ltac other_name c a b :=
  rewrite (EQUAL_excludes c a b) by (reflexivity || assumption).

Lemma select_compression_JPEG opts c :
  CSLFetchNameValue opts "COMPRESS" = Some c -> EQUAL c "JPEG" = true ->
  select_compression opts = (RL2_COMPRESSION_JPEG, 75).
Proof.
  intros Hc H. unfold select_compression. rewrite Hc.
  other_name c "JPEG" "NONE". other_name c "JPEG" "DEFLATE".
  other_name c "JPEG" "LZMA". other_name c "JPEG" "PNG".
  other_name c "JPEG" "CCITTFAX4". now rewrite H.
Qed.

Lemma select_compression_WEBP opts c :
  CSLFetchNameValue opts "COMPRESS" = Some c -> EQUAL c "WEBP" = true ->
  select_compression opts = (RL2_COMPRESSION_LOSSY_WEBP, 75).
Proof.
  intros Hc H. unfold select_compression. rewrite Hc.
  other_name c "WEBP" "NONE". other_name c "WEBP" "DEFLATE".
  other_name c "WEBP" "LZMA". other_name c "WEBP" "PNG".
  other_name c "WEBP" "CCITTFAX4". other_name c "WEBP" "JPEG".
  now rewrite H.
Qed.

Lemma select_compression_JPEG2000 opts c :
  CSLFetchNameValue opts "COMPRESS" = Some c -> EQUAL c "JPEG2000" = true ->
  select_compression opts = (RL2_COMPRESSION_LOSSY_JP2, 20).
Proof.
  intros Hc H. unfold select_compression. rewrite Hc.
  other_name c "JPEG2000" "NONE". other_name c "JPEG2000" "DEFLATE".
  other_name c "JPEG2000" "LZMA". other_name c "JPEG2000" "PNG".
  other_name c "JPEG2000" "CCITTFAX4". other_name c "JPEG2000" "JPEG".
  other_name c "JPEG2000" "WEBP". other_name c "JPEG2000" "CHARLS".
  now rewrite H.
Qed.

Lemma select_compression_other opts :
  match CSLFetchNameValue opts "COMPRESS" with
  | Some c =>
      EQUAL c "JPEG" = false /\ EQUAL c "WEBP" = false /\
      EQUAL c "JPEG2000" = false
  | None => True
  end ->
  snd (select_compression opts) = 100.
Proof.
  unfold select_compression.
  destruct (CSLFetchNameValue opts "COMPRESS") as [c |]; [| reflexivity].
  intros (-> & -> & ->).
  repeat match goal with
         | |- context [if ?t then _ else _] => destruct t
         end; reflexivity.
Qed.

(** C9: without a QUALITY option the quality is 75 when COMPRESS selects
    JPEG or WEBP, 20 when it selects JPEG2000 and 100 in every other case
    (COMPRESS absent included); with a QUALITY option whose value is 100,
    COMPRESS=WEBP gives the lossless WEBP code and COMPRESS=JPEG2000 the
    lossless JPEG2000 code. *)
Theorem CreateCopy_quality_and_lossless papszOptions :
  (CSLFetchNameValue papszOptions "QUALITY" = None ->
   let nQuality := snd (compression_and_quality papszOptions) in
   match CSLFetchNameValue papszOptions "COMPRESS" with
   | Some c =>
       if EQUAL c "JPEG" || EQUAL c "WEBP" then nQuality = 75
       else if EQUAL c "JPEG2000" then nQuality = 20
       else nQuality = 100
   | None => nQuality = 100
   end) /\
  (forall q c,
     CSLFetchNameValue papszOptions "QUALITY" = Some q -> atoi q = 100 ->
     CSLFetchNameValue papszOptions "COMPRESS" = Some c ->
     (EQUAL c "WEBP" = true ->
        compression_and_quality papszOptions
          = (RL2_COMPRESSION_LOSSLESS_WEBP, 100)) /\
     (EQUAL c "JPEG2000" = true ->
        compression_and_quality papszOptions
          = (RL2_COMPRESSION_LOSSLESS_JP2, 100))).
Proof.
  split.
  - intros Hq nQuality. subst nQuality. unfold compression_and_quality.
    destruct (select_compression papszOptions) as [nc nq] eqn:Hs. rewrite Hq.
    simpl.
    destruct (CSLFetchNameValue papszOptions "COMPRESS") as [c |] eqn:Hc.
    + destruct (EQUAL c "JPEG") eqn:Hj; simpl.
      { rewrite (select_compression_JPEG _ _ Hc Hj) in Hs. congruence. }
      destruct (EQUAL c "WEBP") eqn:Hw; simpl.
      { rewrite (select_compression_WEBP _ _ Hc Hw) in Hs. congruence. }
      destruct (EQUAL c "JPEG2000") eqn:H2.
      { rewrite (select_compression_JPEG2000 _ _ Hc H2) in Hs. congruence. }
      pose proof (select_compression_other papszOptions) as Ho.
      rewrite Hc, Hs in Ho. apply Ho. auto.
    + pose proof (select_compression_other papszOptions) as Ho.
      rewrite Hc, Hs in Ho. now apply Ho.
  - intros q c Hq H100 Hc. unfold compression_and_quality. split; intros H.
    + rewrite (select_compression_WEBP _ _ Hc H), Hq, H100. reflexivity.
    + rewrite (select_compression_JPEG2000 _ _ Hc H), Hq, H100. reflexivity.
Qed.

Lemma CreateCopy_quality_and_lossless_witness :
  compression_and_quality [("COMPRESS", "webp"); ("QUALITY", "100")]
    = (RL2_COMPRESSION_LOSSLESS_WEBP, 100) /\
  compression_and_quality [("QUALITY", " 100"); ("COMPRESS", "JPEG2000")]
    = (RL2_COMPRESSION_LOSSLESS_JP2, 100) /\
  snd (compression_and_quality [("COMPRESS", "JPEG")]) = 75.
Proof.
  split; [| split].
  - apply (proj2 (CreateCopy_quality_and_lossless
                    [("COMPRESS", "webp"); ("QUALITY", "100")])
             "100" "webp"); reflexivity.
  - apply (proj2 (CreateCopy_quality_and_lossless
                    [("QUALITY", " 100"); ("COMPRESS", "JPEG2000")])
             " 100" "JPEG2000"); reflexivity.
  - apply (proj1 (CreateCopy_quality_and_lossless [("COMPRESS", "JPEG")])).
    reflexivity.
Defined.

(** A run of the whole ingestion on the sample store: the coverage is
    created with the codec computed from the options. *)
Example CreateCopy_sample_run :
  snd (OGRSQLiteDriverCreateCopy mono_services Sample.ingest "out.sqlite"
         (Sample.source 0) [("COMPRESS", "JPEG")])
  = [EvCreateStore "out.sqlite" [("COMPRESS", "JPEG"); ("SPATIALITE", "YES")];
     EvStartTransaction; EvCreateRasterCoveragesTable;
     EvCreateCoverage "out" RL2_SAMPLE_UINT8 RL2_PIXEL_DATAGRID 1
       RL2_COMPRESSION_JPEG 75 512 512;
     EvLoadTiles "out" "out"; EvCommitTransaction;
     EvReopen "RASTERLITE2:out.sqlite:out"].
Proof. vm_compute. reflexivity. Qed.

(** C6: CreateCopy returns no dataset, logs one error and neither opens,
    creates nor changes the target store, whenever the source band count
    is outside [1, 255], or the source geotransform has a nonzero rotation
    or shear term, or APPEND_SUBDATASET is given without COVERAGE. *)
Theorem CreateCopy_preflight_failures svc ing pszName poSrcDS papszOptions :
  (Z.of_nat (length (src_bands poSrcDS)) < 1 \/
   255 < Z.of_nat (length (src_bands poSrcDS))) \/
  (fst (src_GetGeoTransform poSrcDS) = CE_None /\
   (Double.neb (gt2 (snd (src_GetGeoTransform poSrcDS))) Double.zero = true \/
    Double.neb (gt4 (snd (src_GetGeoTransform poSrcDS))) Double.zero = true)) \/
  (is_Some (CSLFetchNameValue papszOptions "APPEND_SUBDATASET") /\
   CSLFetchNameValue papszOptions "COVERAGE" = None) ->
  let r := OGRSQLiteDriverCreateCopy svc ing pszName poSrcDS papszOptions in
  fst r = None /\
  (exists msg, snd r = [EvError msg]) /\
  Forall (fun e => touches_store e = false) (snd r).
Proof.
  intros H r.
  assert (exists msg, CreateCopy_preflight poSrcDS papszOptions = Some msg)
    as [msg Hmsg].
  { unfold CreateCopy_preflight.
    destruct ((Z.of_nat (length (src_bands poSrcDS)) =? 0)
              || (255 <? Z.of_nat (length (src_bands poSrcDS)))) eqn:Hc;
      [eauto |].
    apply orb_false_iff in Hc as [Hc0 Hc255].
    apply Z.eqb_neq in Hc0. apply Z.ltb_ge in Hc255.
    destruct H as [H | [H | H]]; [lia | |].
    - destruct (src_GetGeoTransform poSrcDS) as [err gt]. simpl in H.
      destruct H as [-> Hrot]. rewrite bool_decide_eq_true_2 by reflexivity.
      replace (Double.neb (gt2 gt) Double.zero
               || Double.neb (gt4 gt) Double.zero) with true
        by (destruct Hrot as [-> | ->]; now rewrite ?orb_true_r).
      simpl. eauto.
    - destruct (src_GetGeoTransform poSrcDS) as [err gt].
      destruct (bool_decide (err = CE_None) && _); [eauto |].
      destruct H as [[v ->] ->]. eauto. }
  subst r. unfold OGRSQLiteDriverCreateCopy. rewrite Hmsg. simpl.
  split; [reflexivity |]. split; [eauto |].
  constructor; [reflexivity | constructor].
Qed.

Lemma CreateCopy_preflight_failures_witness :
  fst (OGRSQLiteDriverCreateCopy mono_services Sample.ingest "out.sqlite"
         (Sample.source 1) [("COMPRESS", "JPEG")]) = None.
Proof.
  refine (proj1 (CreateCopy_preflight_failures mono_services Sample.ingest
                   "out.sqlite" (Sample.source 1) [("COMPRESS", "JPEG")] _)).
  right; left. split; [reflexivity | left; reflexivity].
Defined.

(* ===================================================================== *)
(** ** Opening a coverage: what the call leaves in the data source *)
(* ===================================================================== *)

Lemma same_raster_refl ds : same_raster ds ds.
Proof. unfold same_raster. repeat split. Qed.

Lemma same_raster_trans a b c :
  same_raster a b -> same_raster b c -> same_raster a c.
Proof.
  unfold same_raster.
  intros (A1 & A2 & A3 & A4 & A5 & A6 & A7 & A8 & A9)
         (B1 & B2 & B3 & B4 & B5 & B6 & B7 & B8 & B9).
  repeat split; congruence.
Qed.

Lemma CreateRL2OverviewDatasetIfNeeded_same_raster bShowAll ds x y :
  same_raster ds (CreateRL2OverviewDatasetIfNeeded bShowAll ds x y).
Proof.
  destruct (CreateRL2OverviewDatasetIfNeeded_cases bShowAll ds x y)
    as [-> | (o & -> & _)]; [apply same_raster_refl |].
  unfold same_raster. repeat split.
Qed.

Lemma level_candidate_same_raster svc ds c :
  same_raster ds (level_candidate svc ds c).
Proof.
  destruct c as [[x |] [y |]]; simpl;
    auto using same_raster_refl, CreateRL2OverviewDatasetIfNeeded_same_raster.
Qed.

Lemma level_row_step_same_raster svc ds row :
  same_raster ds (level_row_step svc ds row).
Proof.
  destruct row as [[[c1 c2] c4] c8]. unfold level_row_step.
  repeat (eapply same_raster_trans; [| apply level_candidate_same_raster]).
  apply same_raster_refl.
Qed.

Lemma level_rows_same_raster svc rows : forall ds,
  same_raster ds (fold_left (level_row_step svc) rows ds).
Proof.
  induction rows as [| row rows IH]; intros ds; [apply same_raster_refl |].
  simpl. eapply same_raster_trans; [apply level_row_step_same_raster | apply IH].
Qed.

Lemma instanciate_overviews_same_raster svc cov ds :
  same_raster ds (fst (instanciate_overviews svc cov ds)).
Proof.
  unfold instanciate_overviews.
  assert (same_raster ds
            (set_mixed_resolutions (negb (cov_mixed_resolutions cov =? 0)) ds))
    as H0 by (unfold same_raster; repeat split).
  cbv zeta.
  destruct ((cov_mixed_resolutions cov =? 0) || _); [| exact H0].
  destruct (fst (if cov_mixed_resolutions cov =? 0 then _ else _)) as [rs |];
    [| exact H0].
  eapply same_raster_trans; [exact H0 | apply level_rows_same_raster].
Qed.

(** The overview step logs what its level query hands back. *)
Lemma instanciate_overviews_log svc cov d :
  snd (instanciate_overviews svc cov d)
  = level_query_log svc cov (m_osCoverageName d) (m_nSectionId d).
Proof.
  unfold instanciate_overviews, level_query_log. cbv zeta.
  cbn [m_osCoverageName m_nSectionId set_mixed_resolutions].
  destruct (cov_mixed_resolutions cov =? 0); cbn [orb].
  - destruct (query_levels svc _) as [[rs |] [msg |]]; reflexivity.
  - destruct (0 <=? m_nSectionId d); [| reflexivity].
    destruct (query_section_levels svc _ _) as [[rs |] [msg |]]; reflexivity.
Qed.

Lemma level_query_log_cases svc cov name nSectionId :
  level_query_log svc cov name nSectionId = [] \/
  exists msg, level_query_log svc cov name nSectionId = [EvDebug msg].
Proof.
  unfold level_query_log.
  destruct (cov_mixed_resolutions cov =? 0);
    [destruct (snd (query_levels svc _)); eauto |].
  destruct (0 <=? nSectionId); [| now left].
  destruct (snd (query_section_levels svc _ _)); eauto.
Qed.

(** The state in which a successful open leaves the data source. *)
Lemma OpenRasterSubDataset_opened svc this conn ds' ev :
  OpenRasterSubDataset svc this conn = (true, ds', ev) ->
  let tokens := CSLTokenizeString2 svc conn in
  let name := OGRSQLiteParamsUnquote svc (nth 2 tokens "") in
  exists cov subs nSectionId bSingleSection g nBits eDT bSigned,
    rl2_create_coverage_from_dbms svc name = Some cov /\
    list_sections svc (m_pszFilename this) name (named_section svc tokens)
      = (subs, nSectionId, bSingleSection) /\
    resolve_geometry svc cov name nSectionId = inr g /\
    sample_format (cov_sample cov) = Some (nBits, eDT, bSigned) /\
    ev = level_query_log svc cov name nSectionId /\
    m_pRL2Coverage ds' = Some cov /\
    m_aosSubDatasets ds' = subs /\
    m_nSectionId ds' = nSectionId /\
    nRasterXSize ds' = wrap_int (geo_width g) /\
    nRasterYSize ds' = wrap_int (geo_height g) /\
    m_bPromote1BitAs8Bit ds'
      = (if bool_decide (cov_sample cov = RL2_SAMPLE_1_BIT)
            && bool_decide (cov_pixel cov = RL2_PIXEL_MONOCHROME)
         then CPLFetchBool svc (papszOpenOptions this) "1BIT_AS_8BIT" true
         else m_bPromote1BitAs8Bit this) /\
    papoBands ds'
      = fetch_statistics svc name nSectionId bSingleSection nBits
          (m_bPromote1BitAs8Bit ds')
          (make_bands (fetch_nodata_values cov) (cov_bands cov) (cov_pixel cov)
             eDT nBits (m_bPromote1BitAs8Bit ds') bSigned
             (cov_tile_width cov) (cov_tile_height cov)) /\
    ds_metadata ds'
      = other_metadata svc name nSectionId
          (nodata_metadata svc (fetch_nodata_values cov) (cov_bands cov)
             (compression_metadata (cov_compression cov) (cov_quality cov)
                (ds_metadata this))).
Proof.
  intros Hopen tokens name. unfold OpenRasterSubDataset in Hopen.
  fold tokens in Hopen. fold name in Hopen.
  fold (named_section svc tokens) in Hopen.
  destruct (negb (STARTS_WITH_CI conn "RASTERLITE2:")); [discriminate |].
  destruct (Z.of_nat (length tokens) <? 3); [discriminate |].
  simpl in Hopen.
  destruct (rl2_create_coverage_from_dbms svc name) as [cov |] eqn:Hcov;
    [| discriminate].
  destruct (list_sections svc (m_pszFilename this) name
              (named_section svc tokens)) as [[subs nSectionId] bSingle] eqn:Hl.
  destruct (resolve_geometry svc cov name nSectionId) as [msg | g] eqn:Hg;
    [discriminate |].
  destruct (negb (GDALCheckBandCount svc (cov_bands cov) false));
    [destruct (cov_srid cov) as [srid |];
       [destruct (fetch_srs_wkt svc srid) |]; discriminate |].
  destruct (sample_format (cov_sample cov)) as [[[nBits eDT] bSigned] |] eqn:Hs;
    [| destruct (cov_srid cov) as [srid |];
       [destruct (fetch_srs_wkt svc srid) |]; discriminate].
  exists cov, subs, nSectionId, bSingle, g, nBits, eDT, bSigned.
  do 4 (split; [first [reflexivity | assumption] |]).
  destruct ((cov_tile_width cov =? 0) || (cov_tile_height cov =? 0)
            || (INT_MAX <? cov_tile_width cov)
            || (INT_MAX <? cov_tile_height cov));
    [destruct (cov_srid cov) as [srid |];
       [destruct (fetch_srs_wkt svc srid) |];
       destruct (bool_decide (cov_sample cov = RL2_SAMPLE_1_BIT)
                 && bool_decide (cov_pixel cov = RL2_PIXEL_MONOCHROME));
       discriminate |].
  injection Hopen as <- <-. rewrite instanciate_overviews_log.
  match goal with
  | |- context [instanciate_overviews svc cov ?d] =>
      destruct (instanciate_overviews_same_raster svc cov d)
        as (-> & -> & -> & -> & -> & -> & -> & -> & _)
  end.
  destruct (cov_srid cov) as [srid |];
    [destruct (fetch_srs_wkt svc srid) |];
    destruct (bool_decide (cov_sample cov = RL2_SAMPLE_1_BIT)
              && bool_decide (cov_pixel cov = RL2_PIXEL_MONOCHROME));
    simpl; repeat split; reflexivity.
Qed.

(** A successful open, written with its three results. *)
Lemma OpenRasterSubDataset_true_eta svc this conn :
  fst (fst (OpenRasterSubDataset svc this conn)) = true ->
  OpenRasterSubDataset svc this conn
  = (true, snd (fst (OpenRasterSubDataset svc this conn)),
     snd (OpenRasterSubDataset svc this conn)).
Proof.
  destruct (OpenRasterSubDataset svc this conn) as [[ok ds] ev]. simpl.
  now intros ->.
Qed.

(** The state after any open that got as far as the section listing, how
    the geometry step decides between failure and going on, and which of
    the later checks let the open return true. *)
Lemma OpenRasterSubDataset_resolved svc this conn tokens name cov nNamed subs
    nSectionId bSingle :
  STARTS_WITH_CI conn "RASTERLITE2:" = true ->
  tokens = CSLTokenizeString2 svc conn ->
  name = OGRSQLiteParamsUnquote svc (nth 2 tokens "") ->
  3 <= Z.of_nat (length tokens) ->
  rl2_create_coverage_from_dbms svc name = Some cov ->
  nNamed = named_section svc tokens ->
  list_sections svc (m_pszFilename this) name nNamed
    = (subs, nSectionId, bSingle) ->
  let r := OpenRasterSubDataset svc this conn in
  m_aosSubDatasets (snd (fst r)) = subs /\
  m_nSectionId (snd (fst r)) = nSectionId /\
  match resolve_geometry svc cov name nSectionId with
  | inl msg => fst (fst r) = false /\ snd r = [EvError msg]
  | inr g =>
      nRasterXSize (snd (fst r)) = wrap_int (geo_width g) /\
      nRasterYSize (snd (fst r)) = wrap_int (geo_height g) /\
      (fst (fst r) = true <->
       GDALCheckBandCount svc (cov_bands cov) false = true /\
       sample_format (cov_sample cov) <> None /\
       cov_tile_width cov <> 0 /\ cov_tile_height cov <> 0 /\
       cov_tile_width cov <= INT_MAX /\ cov_tile_height cov <= INT_MAX) /\
      (fst (fst r) = true ->
       m_pRL2Coverage (snd (fst r)) = Some cov /\
       snd r = level_query_log svc cov name nSectionId) /\
      (fst (fst r) = false ->
       snd r = [] \/ snd r = [EvError "Unknown sample type"] \/
       snd r = [EvError "Invalid block size"])
  end.
Proof.
  intros Hpre Htok Hname Hlen Hcov Hnamed Hl r. subst r.
  unfold OpenRasterSubDataset. rewrite <- Htok, <- Hname.
  fold (named_section svc tokens). rewrite <- Hnamed.
  rewrite Hpre. simpl.
  replace (Z.of_nat (length tokens) <? 3) with false
    by (symmetry; apply Z.ltb_ge; lia).
  rewrite Hcov. simpl. rewrite Hl.
  destruct (resolve_geometry svc cov name nSectionId) as [msg | g];
    [simpl; auto 10 |].
  destruct (GDALCheckBandCount svc (cov_bands cov) false) eqn:Hbands;
    cbn [negb];
    [| destruct (cov_srid cov) as [srid |];
       [destruct (fetch_srs_wkt svc srid) |]; simpl;
       (repeat split; auto 10; try discriminate; intros (? & _); discriminate)].
  destruct (sample_format (cov_sample cov)) as [[[nBits eDT] bSigned] |]
    eqn:Hs;
    [| destruct (cov_srid cov) as [srid |];
       [destruct (fetch_srs_wkt svc srid) |]; simpl;
       (repeat split; auto 10; try discriminate;
        intros (_ & ? & _); congruence)].
  destruct ((cov_tile_width cov =? 0) || (cov_tile_height cov =? 0)
            || (INT_MAX <? cov_tile_width cov)
            || (INT_MAX <? cov_tile_height cov)) eqn:Htile.
  - assert (~ (cov_tile_width cov <> 0 /\ cov_tile_height cov <> 0 /\
               cov_tile_width cov <= INT_MAX /\ cov_tile_height cov <= INT_MAX))
      as Hbad.
    { intros (H1 & H2 & H3 & H4).
      apply Z.eqb_neq in H1, H2. apply Z.ltb_ge in H3, H4.
      rewrite H1, H2, H3, H4 in Htile. discriminate. }
    destruct (cov_srid cov) as [srid |];
      [destruct (fetch_srs_wkt svc srid) |];
      destruct (bool_decide (cov_sample cov = RL2_SAMPLE_1_BIT)
                && bool_decide (cov_pixel cov = RL2_PIXEL_MONOCHROME));
      simpl; (repeat split; auto 10; try discriminate;
              intros (_ & _ & H); destruct (Hbad H)).
  - assert (cov_tile_width cov <> 0 /\ cov_tile_height cov <> 0 /\
            cov_tile_width cov <= INT_MAX /\ cov_tile_height cov <= INT_MAX)
      as Hgood.
    { apply orb_false_iff in Htile as [Htile H4].
      apply orb_false_iff in Htile as [Htile H3].
      apply orb_false_iff in Htile as [H1 H2].
      apply Z.eqb_neq in H1, H2. apply Z.ltb_ge in H3, H4. auto. }
    cbv zeta. cbn [fst snd]. rewrite instanciate_overviews_log.
    match goal with
    | |- context [instanciate_overviews svc cov ?d] =>
        destruct (instanciate_overviews_same_raster svc cov d)
          as (_ & _ & -> & -> & -> & _ & -> & -> & _)
    end.
    destruct (cov_srid cov) as [srid |];
      [destruct (fetch_srs_wkt svc srid) |];
      destruct (bool_decide (cov_sample cov = RL2_SAMPLE_1_BIT)
                && bool_decide (cov_pixel cov = RL2_PIXEL_MONOCHROME));
      simpl; (repeat split; auto 10; try discriminate; try congruence;
              apply Hgood).
Qed.

(** The listing loop, for a table of more than one row. *)
Lemma section_rows_listed svc f name n nSectionId rows : 1 < n -> forall subs,
  fold_left (section_row_step svc f name n) rows (subs, nSectionId, false)
  = (subs ++ section_listing svc f name (Z.of_nat (length subs) / 2 + 1)
               (listable_sections rows),
     nSectionId, false).
Proof.
  intros Hn. apply Z.ltb_lt in Hn.
  induction rows as [| [[id |] [nm |]] rows IH]; intros subs; simpl;
    rewrite ?app_nil_r; try reflexivity; try apply IH.
  rewrite Hn. unfold AddNameValue. rewrite IH. f_equal. f_equal.
  rewrite <- !app_assoc. simpl. do 3 f_equal.
  rewrite !length_app. simpl. f_equal.
  replace (Z.of_nat (length subs + 2)) with (Z.of_nat (length subs) + 1 * 2)
    by lia.
  now rewrite Z.div_add by lia.
Qed.

Lemma list_sections_many svc f name rows :
  query_sections svc (name +:+ "_sections") = Some rows ->
  1 < Z.of_nat (length rows) ->
  list_sections svc f name (-1)
  = (section_listing svc f name 1 (listable_sections rows), -1, false).
Proof.
  intros Hq Hn. unfold list_sections.
  change (-1 <? 0) with true. cbv iota. rewrite Hq.
  exact (section_rows_listed svc f name _ (-1) rows Hn []).
Qed.

Lemma list_sections_single svc f name id nm :
  query_sections svc (name +:+ "_sections") = Some [(Some id, Some nm)] ->
  list_sections svc f name (-1) = ([], CPLAtoGIntBig svc id, true).
Proof.
  intros Hq. unfold list_sections.
  change (-1 <? 0) with true. cbv iota. now rewrite Hq.
Qed.

(** C1, as amended: an open of a coverage identifier that names no
    section lists, when the section table holds more than one row, one
    NAME/DESC pair per section (numbered from 1, rows with a NULL id or
    name left out), selects no section and goes on to resolve the coverage
    as a whole.  If that resolution fails the open returns false with its
    error.  Otherwise the raster has the resolved size, and the open
    returns true exactly when the band count is accepted, the sample type
    is known and both tile sizes are non-zero and at most [INT_MAX]; it
    then holds the coverage and has logged nothing but the error message
    of the level query, if the store handed one back; when it returns
    false it has logged nothing or one of the two errors of these checks.
    When the table holds exactly one section, that section is selected and
    flagged as single-section, nothing is listed, and the open goes on to
    resolve that section, returning true under the same checks. *)
Theorem open_without_section svc this conn cov rows :
  STARTS_WITH_CI conn "RASTERLITE2:" = true ->
  let tokens := CSLTokenizeString2 svc conn in
  let name := OGRSQLiteParamsUnquote svc (nth 2 tokens "") in
  length tokens = 3%nat ->
  rl2_create_coverage_from_dbms svc name = Some cov ->
  query_sections svc (name +:+ "_sections") = Some rows ->
  let r := OpenRasterSubDataset svc this conn in
  let listing :=
    section_listing svc (m_pszFilename this) name 1 (listable_sections rows) in
  (1 < Z.of_nat (length rows) ->
     list_sections svc (m_pszFilename this) name (-1) = (listing, -1, false) /\
     m_aosSubDatasets (snd (fst r)) = listing /\
     m_nSectionId (snd (fst r)) = -1 /\
     match resolve_geometry svc cov name (-1) with
     | inl msg => fst (fst r) = false /\ snd r = [EvError msg]
     | inr g =>
         nRasterXSize (snd (fst r)) = wrap_int (geo_width g) /\
         nRasterYSize (snd (fst r)) = wrap_int (geo_height g) /\
         (fst (fst r) = true <->
          GDALCheckBandCount svc (cov_bands cov) false = true /\
          sample_format (cov_sample cov) <> None /\
          cov_tile_width cov <> 0 /\ cov_tile_height cov <> 0 /\
          cov_tile_width cov <= INT_MAX /\ cov_tile_height cov <= INT_MAX) /\
         (fst (fst r) = true ->
          m_pRL2Coverage (snd (fst r)) = Some cov /\
          snd r = if cov_mixed_resolutions cov =? 0
                  then match snd (query_levels svc (name +:+ "_levels")) with
                       | Some msg => [EvDebug msg]
                       | None => []
                       end
                  else []) /\
         (fst (fst r) = false ->
          snd r = [] \/ snd r = [EvError "Unknown sample type"] \/
          snd r = [EvError "Invalid block size"])
     end) /\
  (forall id nm, rows = [(Some id, Some nm)] ->
     list_sections svc (m_pszFilename this) name (-1)
       = ([], CPLAtoGIntBig svc id, true) /\
     m_aosSubDatasets (snd (fst r)) = [] /\
     m_nSectionId (snd (fst r)) = CPLAtoGIntBig svc id /\
     match resolve_geometry svc cov name (CPLAtoGIntBig svc id) with
     | inl msg => fst (fst r) = false /\ snd r = [EvError msg]
     | inr g =>
         nRasterXSize (snd (fst r)) = wrap_int (geo_width g) /\
         nRasterYSize (snd (fst r)) = wrap_int (geo_height g) /\
         (fst (fst r) = true <->
          GDALCheckBandCount svc (cov_bands cov) false = true /\
          sample_format (cov_sample cov) <> None /\
          cov_tile_width cov <> 0 /\ cov_tile_height cov <> 0 /\
          cov_tile_width cov <= INT_MAX /\ cov_tile_height cov <= INT_MAX) /\
         (fst (fst r) = true -> m_pRL2Coverage (snd (fst r)) = Some cov)
     end).
Proof.
  intros Hpre tokens name Hlen Hcov Hq r listing.
  assert (named_section svc tokens = -1) as Hnamed
    by (unfold named_section; now rewrite Hlen).
  assert (3 <= Z.of_nat (length tokens)) as Hlen3 by lia.
  split.
  - intros Hn.
    pose proof (list_sections_many svc (m_pszFilename this) name rows Hq Hn)
      as Hl.
    split; [exact Hl |].
    exact (OpenRasterSubDataset_resolved svc this conn tokens name cov (-1)
             _ _ _ Hpre eq_refl eq_refl Hlen3 Hcov (eq_sym Hnamed) Hl).
  - intros id nm ->.
    pose proof (list_sections_single svc (m_pszFilename this) name id nm Hq)
      as Hl.
    split; [exact Hl |].
    destruct (OpenRasterSubDataset_resolved svc this conn tokens name cov (-1)
                _ _ _ Hpre eq_refl eq_refl Hlen3 Hcov (eq_sym Hnamed) Hl)
      as (H1 & H2 & H3).
    fold r in H1, H2, H3. split; [exact H1 |]. split; [exact H2 |].
    destruct (resolve_geometry svc cov name (CPLAtoGIntBig svc id));
      [exact H3 |].
    destruct H3 as (Hx & Hy & Hiff & Htrue & _).
    split; [exact Hx |]. split; [exact Hy |]. split; [exact Hiff |].
    intros Hok. exact (proj1 (Htrue Hok)).
Qed.

Lemma open_without_section_witness :
  m_aosSubDatasets (snd (fst (Sample.opened two_section_services [])))
    = section_listing two_section_services "f.sqlite" "cov" 1
        [("1", "north"); ("2", "south")] /\
  m_nSectionId (snd (fst (Sample.opened two_section_services []))) = -1 /\
  fst (fst (Sample.opened two_section_services [])) = true /\
  m_pRL2Coverage (snd (fst (Sample.opened two_section_services [])))
    = Some Sample.gray /\
  snd (Sample.opened two_section_services []) = [].
Proof.
  pose proof (proj1 (open_without_section two_section_services (Sample.fresh [])
                       coverage_id Sample.gray Sample.two_sections
                       eq_refl eq_refl eq_refl eq_refl))
    as H.
  destruct H as (_ & H1 & H2 & H3); [vm_compute; reflexivity |].
  split; [exact H1 |]. split; [exact H2 |].
  match type of H3 with
  | match ?t with _ => _ end => destruct t as [msg | g] eqn:Hg
  end; [vm_compute in Hg; discriminate |].
  destruct H3 as (_ & _ & Hiff & Htrue & _).
  assert (fst (fst (Sample.opened two_section_services [])) = true) as Hok.
  { apply Hiff. repeat split; vm_compute; intros ?; discriminate. }
  split; [exact Hok |]. exact (Htrue Hok).
Defined.

(** C1, as stated, fails: the identifier names no section, the section
    table holds two sections, both are listed, and the open still returns
    true with the coverage opened as a whole, 1000 by 1000 pixels. *)
Lemma open_with_two_sections_succeeds :
  length (CSLTokenizeString2 two_section_services coverage_id) = 3%nat /\
  query_sections two_section_services "cov_sections"
    = Some [(Some "1", Some "north"); (Some "2", Some "south")] /\
  map fst (m_aosSubDatasets (snd (fst (Sample.opened two_section_services []))))
    = ["SUBDATASET_1_NAME"; "SUBDATASET_1_DESC";
       "SUBDATASET_2_NAME"; "SUBDATASET_2_DESC"] /\
  fst (fst (Sample.opened two_section_services [])) = true /\
  nRasterXSize (snd (fst (Sample.opened two_section_services []))) = 1000 /\
  nRasterYSize (snd (fst (Sample.opened two_section_services []))) = 1000 /\
  length (papoBands (snd (fst (Sample.opened two_section_services []))))
    = 1%nat.
Proof. vm_compute. repeat split; reflexivity. Qed.

(* ===================================================================== *)
(** ** Opening a coverage: size from the registered extent *)
(* ===================================================================== *)






(* ===================================================================== *)
(** ** Opening a coverage: statistics and no-data *)
(* ===================================================================== *)

(** A band as constructed carries at most the items NBITS, SOURCE_NBITS
    and PIXELTYPE. *)
Lemma new_RL2RasterBand_metadata nBandIn nPixelType eDT nBits bPromote bSigned
    bx by_ bHasNoData dfNoData domain name :
  name <> "NBITS" -> name <> "SOURCE_NBITS" -> name <> "PIXELTYPE" ->
  band_metadata
    (new_RL2RasterBand nBandIn nPixelType eDT nBits bPromote bSigned bx by_
       bHasNoData dfNoData) !! (domain, name) = None.
Proof.
  intros H1 H2 H3. unfold new_RL2RasterBand, SetMetadataItem. simpl.
  repeat case_match;
    rewrite ?lookup_insert_ne by congruence; apply lookup_empty.
Qed.

Lemma attach_band_statistics_promoted svc pStatistics b :
  attach_band_statistics svc pStatistics 1 true b = b.
Proof. reflexivity. Qed.

Lemma fetch_statistics_promoted svc name nSectionId bSingle bands :
  fetch_statistics svc name nSectionId bSingle 1 true bands = bands.
Proof.
  unfold fetch_statistics. repeat case_match; try reflexivity.
  induction bands as [| b bands IH]; [reflexivity |].
  simpl. now rewrite IH.
Qed.

Lemma sample_format_1bit nBits eDT bSigned :
  sample_format RL2_SAMPLE_1_BIT = Some (nBits, eDT, bSigned) -> nBits = 1.
Proof. simpl. congruence. Qed.

(** C10: after a successful open of a coverage with a 1-bit sample type
    and the promotion to 8 bits active, no band carries a
    STATISTICS_MINIMUM, STATISTICS_MAXIMUM, STATISTICS_MEAN or
    STATISTICS_STDDEV item, in any domain, whatever the statistics the
    storage holds. *)
Theorem no_statistics_on_promoted_1bit svc this conn ds' ev cov :
  OpenRasterSubDataset svc this conn = (true, ds', ev) ->
  m_pRL2Coverage ds' = Some cov ->
  cov_sample cov = RL2_SAMPLE_1_BIT ->
  m_bPromote1BitAs8Bit ds' = true ->
  forall b domain, b ∈ papoBands ds' ->
    band_metadata b !! (domain, "STATISTICS_MINIMUM") = None /\
    band_metadata b !! (domain, "STATISTICS_MAXIMUM") = None /\
    band_metadata b !! (domain, "STATISTICS_MEAN") = None /\
    band_metadata b !! (domain, "STATISTICS_STDDEV") = None.
Proof.
  intros Hopen Hcov H1bit Hpro b domain Hb.
  destruct (OpenRasterSubDataset_opened _ _ _ _ _ Hopen)
    as (cov' & subs & sid & bs & g & nBits & eDT & bSigned
        & _ & _ & _ & Hfmt & _ & Hcov' & _ & _ & _ & _ & _ & Hbands & _).
  assert (cov' = cov) as -> by congruence.
  rewrite H1bit in Hfmt. apply sample_format_1bit in Hfmt as ->.
  rewrite Hpro, fetch_statistics_promoted in Hbands. rewrite Hbands in Hb.
  unfold make_bands in Hb. apply list_elem_of_fmap in Hb as (i & -> & _).
  repeat split; apply new_RL2RasterBand_metadata; discriminate.
Qed.

Lemma no_statistics_on_promoted_1bit_witness :
  Forall (fun b => band_metadata b !! ("", "STATISTICS_MINIMUM") = None)
         (papoBands (snd (fst (Sample.opened promoted_services [])))).
Proof.
  apply Forall_forall. intros b Hb.
  exact (proj1 (no_statistics_on_promoted_1bit promoted_services
                  (Sample.fresh []) coverage_id _ _ Sample.mono
                  (OpenRasterSubDataset_true_eta promoted_services
                     (Sample.fresh []) coverage_id eq_refl)
                  eq_refl eq_refl eq_refl b "" Hb)).
Defined.

Lemma append_assoc (a b c : string) : (a +:+ b) +:+ c = a +:+ (b +:+ c).
Proof.
  induction a as [| x a IH]; [reflexivity |].
  change (String x ((a +:+ b) +:+ c) = String x (a +:+ (b +:+ c))).
  now rewrite IH.
Qed.

Lemma append_nonempty (a b : string) : a <> "" -> a +:+ b <> "".
Proof. destruct a; [congruence | discriminate]. Qed.

(** The loop that builds NODATA_VALUES joins the formatted values with
    single spaces, given that no value formats to the empty string. *)
Lemma nodata_values_string_join svc vals :
  (forall v, fmt_g svc v <> "") ->
  nodata_values_string svc vals = String.concat " " (map (fmt_g svc) vals).
Proof.
  intros Hfmt. unfold nodata_values_string.
  assert (forall vs acc, acc <> "" ->
            fold_left
              (fun osNoDataValues v =>
                 (if negb (String.eqb osNoDataValues "")
                  then osNoDataValues +:+ " " else osNoDataValues)
                 +:+ fmt_g svc v) vs acc
            = String.concat " " (acc :: map (fmt_g svc) vs)) as Hgen.
  { induction vs as [| v vs IH]; intros acc Hacc; [reflexivity |].
    cbn [fold_left]. rewrite (proj2 (String.eqb_neq _ _) Hacc).
    cbn [negb].
    assert ((acc +:+ " ") +:+ fmt_g svc v <> "") as Hne
      by (apply append_nonempty, append_nonempty, Hacc).
    rewrite (IH _ Hne).
    cbn [map]. destruct (map (fmt_g svc) vs) as [| s l];
      cbn [String.concat]; now rewrite !append_assoc. }
  destruct vals as [| v vs]; [reflexivity |].
  cbn [fold_left]. simpl negb. cbv iota. simpl append at 1.
  apply Hgen, Hfmt.
Qed.

Lemma compression_metadata_lookup_nodata nCompression nQuality md :
  compression_metadata nCompression nQuality md !! ("", "NODATA_VALUES")
  = md !! ("", "NODATA_VALUES").
Proof.
  unfold compression_metadata, SetMetadataItem.
  repeat case_match; rewrite ?lookup_insert_ne by discriminate; reflexivity.
Qed.

Lemma other_metadata_lookup_nodata svc name nSectionId md :
  other_metadata svc name nSectionId md !! ("", "NODATA_VALUES")
  = md !! ("", "NODATA_VALUES").
Proof.
  unfold other_metadata, SetMetadataItem.
  repeat case_match; rewrite ?lookup_insert_ne by discriminate; reflexivity.
Qed.

Lemma fetch_nodata_values_mismatch cov :
  (forall px, cov_no_data cov = Some px ->
     px_type px <> Some (cov_sample cov, cov_pixel cov, cov_bands cov)) ->
  fetch_nodata_values cov = [].
Proof.
  intros H. unfold fetch_nodata_values.
  destruct (cov_no_data cov) as [px |]; [| reflexivity].
  specialize (H px eq_refl).
  destruct (px_type px) as [[[s p] n] |]; [| reflexivity].
  destruct (bool_decide (s = cov_sample cov)) eqn:Es; [| reflexivity].
  destruct (bool_decide (p = cov_pixel cov)) eqn:Ep; [| reflexivity].
  destruct (n =? cov_bands cov) eqn:En; [| reflexivity].
  apply bool_decide_eq_true in Es, Ep. apply Z.eqb_eq in En. congruence.
Qed.

Lemma fetch_nodata_values_match cov px :
  cov_no_data cov = Some px ->
  px_type px = Some (cov_sample cov, cov_pixel cov, cov_bands cov) ->
  fetch_nodata_values cov
  = map (nodata_of_band px (cov_sample cov)) (seqZ 0 (cov_bands cov)).
Proof.
  intros Hpx Hty. unfold fetch_nodata_values. rewrite Hpx, Hty.
  now rewrite !bool_decide_eq_true_2, Z.eqb_refl by reflexivity.
Qed.

Lemma attach_band_statistics_nodata svc pStatistics nBits bPromote b :
  m_bHasNoData (attach_band_statistics svc pStatistics nBits bPromote b)
    = m_bHasNoData b /\
  m_dfNoDataValue (attach_band_statistics svc pStatistics nBits bPromote b)
    = m_dfNoDataValue b.
Proof. unfold attach_band_statistics. repeat case_match; split; reflexivity. Qed.

(** The statistics step leaves the no-data members of every band as
    [make_bands] set them. *)
Lemma opened_bands_nodata svc name nSectionId bSingle nBits bPromote vals n
    pt eDT bSigned bx by_ b :
  b ∈ fetch_statistics svc name nSectionId bSingle nBits bPromote
        (make_bands vals n pt eDT nBits bPromote bSigned bx by_) ->
  let bHasNoData := (Z.of_nat (length vals) =? 1) && (n =? 1) in
  m_bHasNoData b = bHasNoData /\
  m_dfNoDataValue b
    = (if bHasNoData then nth 0 vals Double.zero else Double.zero).
Proof.
  intros Hb bHasNoData.
  assert (exists b0,
            b0 ∈ make_bands vals n pt eDT nBits bPromote bSigned bx by_ /\
            m_bHasNoData b = m_bHasNoData b0 /\
            m_dfNoDataValue b = m_dfNoDataValue b0) as (b0 & Hb0 & -> & ->).
  { unfold fetch_statistics in Hb. repeat case_match; eauto.
    apply list_elem_of_fmap in Hb as (b0 & -> & Hb0). exists b0.
    split; [exact Hb0 |]. apply attach_band_statistics_nodata. }
  unfold make_bands in Hb0. apply list_elem_of_fmap in Hb0 as (i & -> & _).
  split; reflexivity.
Qed.

Lemma nodata_metadata_unchanged svc vals n md :
  vals = [] \/ n = 1 -> nodata_metadata svc vals n md = md.
Proof.
  unfold nodata_metadata. intros [-> | ->].
  - change (Z.of_nat (length [])) with 0.
    destruct (0 =? n) eqn:E; [| reflexivity].
    apply Z.eqb_eq in E. now subst.
  - now rewrite andb_false_r.
Qed.

(** C8: the coverage's default no-data pixel is used only when its sample
    type, pixel type and band count equal the coverage's; otherwise the
    open says nothing of it (all it has logged is the error message of the
    level query, on the debug channel, if the store handed one back), sets
    no NODATA_VALUES and gives no band a no-data value.  With a matching
    pixel, a coverage of one band gives its band
    the value as a scalar no-data value; a coverage of more than one band
    gets a NODATA_VALUES item made of the values of all bands separated by
    single spaces, and none of its bands has a scalar no-data value. *)
Theorem nodata_exposure svc this conn ds' ev cov :
  OpenRasterSubDataset svc this conn = (true, ds', ev) ->
  m_pRL2Coverage ds' = Some cov ->
  ds_metadata this !! ("", "NODATA_VALUES") = None ->
  ((forall px, cov_no_data cov = Some px ->
      px_type px <> Some (cov_sample cov, cov_pixel cov, cov_bands cov)) ->
   ev = level_query_log svc cov
          (OGRSQLiteParamsUnquote svc (nth 2 (CSLTokenizeString2 svc conn) ""))
          (m_nSectionId ds') /\
   (forall e, e ∈ ev -> exists msg, e = EvDebug msg) /\
   ds_metadata ds' !! ("", "NODATA_VALUES") = None /\
   forall b pam, b ∈ papoBands ds' ->
     m_bHasNoData b = false /\ GetNoDataValue b pam = pam) /\
  (forall px, cov_no_data cov = Some px ->
     px_type px = Some (cov_sample cov, cov_pixel cov, cov_bands cov) ->
     let vals :=
       map (nodata_of_band px (cov_sample cov)) (seqZ 0 (cov_bands cov)) in
     (cov_bands cov = 1 ->
        ds_metadata ds' !! ("", "NODATA_VALUES") = None /\
        forall b pam, b ∈ papoBands ds' ->
          m_bHasNoData b = true /\
          GetNoDataValue b pam
            = (nodata_of_band px (cov_sample cov) 0, true)) /\
     (1 < cov_bands cov ->
        ds_metadata ds' !! ("", "NODATA_VALUES")
          = Some (nodata_values_string svc vals) /\
        ((forall v, fmt_g svc v <> "") ->
           nodata_values_string svc vals
             = String.concat " " (map (fmt_g svc) vals)) /\
        forall b pam, b ∈ papoBands ds' ->
          m_bHasNoData b = false /\ GetNoDataValue b pam = pam)).
Proof.
  intros Hopen Hcov Hfresh.
  destruct (OpenRasterSubDataset_opened _ _ _ _ _ Hopen)
    as (cov' & subs & sid & bs & g & nBits & eDT & bSigned
        & _ & _ & _ & _ & Hev & Hcov' & _ & Hsid & _ & _ & _ & Hbands & Hmd).
  assert (cov' = cov) as -> by congruence.
  rewrite <- Hsid in Hev.
  assert (forall b, b ∈ papoBands ds' ->
            let bHasNoData :=
              (Z.of_nat (length (fetch_nodata_values cov)) =? 1)
              && (cov_bands cov =? 1) in
            m_bHasNoData b = bHasNoData /\
            m_dfNoDataValue b
              = (if bHasNoData then nth 0 (fetch_nodata_values cov) Double.zero
                 else Double.zero)) as Hb.
  { intros b Hin. rewrite Hbands in Hin.
    exact (opened_bands_nodata _ _ _ _ _ _ _ _ _ _ _ _ _ _ Hin). }
  assert (ds_metadata ds' !! ("", "NODATA_VALUES")
          = nodata_metadata svc (fetch_nodata_values cov) (cov_bands cov)
              (compression_metadata (cov_compression cov) (cov_quality cov)
                 (ds_metadata this)) !! ("", "NODATA_VALUES")) as Hnd
    by (rewrite Hmd; apply other_metadata_lookup_nodata).
  split.
  - intros Hmis. rewrite (fetch_nodata_values_mismatch cov Hmis) in Hb, Hnd.
    split; [exact Hev |]. split; [| split].
    + intros e He. rewrite Hev in He.
      match type of He with
      | e ∈ level_query_log ?s ?c ?n ?i =>
          destruct (level_query_log_cases s c n i) as [E | (m & E)];
            rewrite E in He
      end.
      * apply elem_of_nil in He. destruct He.
      * apply list_elem_of_singleton in He. eauto.
    + rewrite Hnd, nodata_metadata_unchanged by now left.
      now rewrite compression_metadata_lookup_nodata.
    + intros b pam Hin. destruct (Hb b Hin) as [H1 _]. simpl in H1.
      split; [exact H1 |]. unfold GetNoDataValue. now rewrite H1.
  - intros px Hpx Hty vals.
    rewrite (fetch_nodata_values_match cov px Hpx Hty) in Hb, Hnd.
    fold vals in Hb, Hnd.
    split.
    + intros H1. split.
      * rewrite Hnd, nodata_metadata_unchanged by now right.
        now rewrite compression_metadata_lookup_nodata.
      * intros b pam Hin. destruct (Hb b Hin) as [Hh Hv].
        subst vals. rewrite H1 in Hh, Hv. simpl in Hh, Hv.
        split; [exact Hh |]. unfold GetNoDataValue. now rewrite Hh, Hv.
    + intros Hn.
      assert (Z.of_nat (length vals) = cov_bands cov) as Hlen.
      { subst vals. rewrite length_map, length_seqZ. lia. }
      split; [| split].
      * rewrite Hnd. unfold nodata_metadata. rewrite Hlen, Z.eqb_refl.
        replace (1 <? cov_bands cov) with true
          by (symmetry; apply Z.ltb_lt; lia).
        simpl. unfold SetMetadataItem. rewrite lookup_insert_eq.
        rewrite take_ge by lia. reflexivity.
      * apply nodata_values_string_join.
      * intros b pam Hin. destruct (Hb b Hin) as [Hh _].
        replace (cov_bands cov =? 1) with false in Hh
          by (symmetry; apply Z.eqb_neq; lia).
        rewrite andb_false_r in Hh.
        split; [exact Hh |]. unfold GetNoDataValue. now rewrite Hh.
Qed.

Lemma nodata_exposure_witness :
  ds_metadata (snd (fst (Sample.opened rgb_services [])))
    !! ("", "NODATA_VALUES") = Some "255 254 253" /\
  snd (Sample.opened rgb_mismatch_no_levels [])
    = [EvDebug "no such table: cov_levels"] /\
  ds_metadata (snd (fst (Sample.opened rgb_mismatch_no_levels [])))
    !! ("", "NODATA_VALUES") = None.
Proof.
  split.
  - refine (eq_trans
              (proj1 (proj2 (proj2 (nodata_exposure rgb_services
                                      (Sample.fresh []) coverage_id _ _
                                      Sample.rgb
                                      (OpenRasterSubDataset_true_eta
                                         rgb_services
                                         (Sample.fresh []) coverage_id eq_refl)
                                      eq_refl eq_refl)
                               (Sample.pixel RL2_SAMPLE_UINT8 RL2_PIXEL_RGB
                                  [255; 254; 253]) eq_refl eq_refl)
                        _)) _).
    + reflexivity.
    + vm_compute. reflexivity.
  - assert (forall px, cov_no_data Sample.rgb_mismatch = Some px ->
              px_type px
              <> Some (cov_sample Sample.rgb_mismatch,
                       cov_pixel Sample.rgb_mismatch,
                       cov_bands Sample.rgb_mismatch)) as Hmis.
    { intros px Hpx. injection Hpx as <-. vm_compute. discriminate. }
    destruct (proj1 (nodata_exposure rgb_mismatch_no_levels
                       (Sample.fresh []) coverage_id _ _
                       Sample.rgb_mismatch
                       (OpenRasterSubDataset_true_eta rgb_mismatch_no_levels
                          (Sample.fresh []) coverage_id eq_refl)
                       eq_refl eq_refl) Hmis) as (H1 & _ & H2 & _).
    split; [| exact H2].
    refine (eq_trans H1 _). vm_compute. reflexivity.
Defined.

(* ===================================================================== *)
(** ** The opened chain and its 1-bit monochrome blocks *)
(* ===================================================================== *)

Lemma CreateRL2OverviewDatasetIfNeeded_chain bShowAll ds x y :
  opened_chain ds ->
  opened_chain (CreateRL2OverviewDatasetIfNeeded bShowAll ds x y).
Proof.
  intros [Hparent Hovr].
  destruct (CreateRL2OverviewDatasetIfNeeded_cases bShowAll ds x y)
    as [-> | (o & -> & _ & Hlink & Hpro & _)]; [now split |].
  split; [exact Hparent |]. simpl.
  intros o' [Ho' | Ho']%elem_of_app; [now apply Hovr |].
  apply list_elem_of_singleton in Ho' as ->. now split.
Qed.

Lemma level_candidate_chain svc ds c :
  opened_chain ds -> opened_chain (level_candidate svc ds c).
Proof.
  destruct c as [[x |] [y |]]; simpl;
    auto using CreateRL2OverviewDatasetIfNeeded_chain.
Qed.

Lemma level_rows_chain svc rows : forall ds,
  opened_chain ds -> opened_chain (fold_left (level_row_step svc) rows ds).
Proof.
  induction rows as [| [[[c1 c2] c4] c8] rows IH]; intros ds Hds;
    [exact Hds |].
  simpl. apply IH. unfold level_row_step.
  auto using level_candidate_chain.
Qed.

Lemma instanciate_overviews_chain svc cov ds :
  opened_chain ds -> opened_chain (fst (instanciate_overviews svc cov ds)).
Proof.
  intros Hds. unfold instanciate_overviews. cbv zeta.
  assert (opened_chain
            (set_mixed_resolutions (negb (cov_mixed_resolutions cov =? 0)) ds))
    as H0 by exact Hds.
  destruct ((cov_mixed_resolutions cov =? 0) || _); [| exact H0].
  destruct (fst (if cov_mixed_resolutions cov =? 0 then _ else _)) as [rs |];
    [| exact H0].
  cbn [fst]. now apply level_rows_chain.
Qed.

(** A successful open of a fresh data source leaves an opened chain. *)
Lemma OpenRasterSubDataset_chain svc this conn ds' ev :
  m_poParentDS this = None -> m_apoOverviewDS this = [] ->
  OpenRasterSubDataset svc this conn = (true, ds', ev) ->
  opened_chain ds'.
Proof.
  intros Hparent Hnil Hopen. unfold OpenRasterSubDataset in Hopen.
  destruct (negb (STARTS_WITH_CI conn "RASTERLITE2:")); [discriminate |].
  destruct (Z.of_nat (length (CSLTokenizeString2 svc conn)) <? 3);
    [discriminate |].
  simpl in Hopen.
  destruct (rl2_create_coverage_from_dbms svc _) as [cov |]; [| discriminate].
  destruct (list_sections svc _ _ _) as [[subs nSectionId] bSingle].
  destruct (resolve_geometry svc cov _ nSectionId) as [msg | g];
    [discriminate |].
  destruct (negb (GDALCheckBandCount svc (cov_bands cov) false));
    [destruct (cov_srid cov) as [srid |];
       [destruct (fetch_srs_wkt svc srid) |]; discriminate |].
  destruct (sample_format (cov_sample cov)) as [[[nBits eDT] bSigned] |];
    [| destruct (cov_srid cov) as [srid |];
       [destruct (fetch_srs_wkt svc srid) |]; discriminate].
  destruct ((cov_tile_width cov =? 0) || (cov_tile_height cov =? 0)
            || (INT_MAX <? cov_tile_width cov)
            || (INT_MAX <? cov_tile_height cov));
    [destruct (cov_srid cov) as [srid |];
       [destruct (fetch_srs_wkt svc srid) |];
       destruct (bool_decide (cov_sample cov = RL2_SAMPLE_1_BIT)
                 && bool_decide (cov_pixel cov = RL2_PIXEL_MONOCHROME));
       discriminate |].
  injection Hopen as <- _. apply instanciate_overviews_chain.
  destruct (cov_srid cov) as [srid |];
    [destruct (fetch_srs_wkt svc srid) |];
    destruct (bool_decide (cov_sample cov = RL2_SAMPLE_1_BIT)
              && bool_decide (cov_pixel cov = RL2_PIXEL_MONOCHROME));
    (split; simpl; [exact Hparent | rewrite Hnil; intros o Ho;
                                    now apply elem_of_nil in Ho]).
Qed.

(** C2, as amended: for a 1-bit monochrome coverage opened with the
    promotion to 8 bits off, every successful block read on an overview
    dataset of the opened chain writes, for each byte of the buffer that
    the storage primitive returned, the byte 1 if it is above 127 and the
    byte 0 otherwise, in the same order from the start of the caller's
    block, and leaves the rest of the block as it was; so the bytes
    written are all 0 or 1.  On the base dataset the bytes written are
    bytes of the storage buffer, unchanged. *)
Theorem opened_chain_monochrome_bits svc this conn ds' ev cov :
  m_poParentDS this = None -> m_apoOverviewDS this = [] ->
  OpenRasterSubDataset svc this conn = (true, ds', ev) ->
  m_pRL2Coverage ds' = Some cov ->
  cov_sample cov = RL2_SAMPLE_1_BIT -> cov_pixel cov = RL2_PIXEL_MONOCHROME ->
  m_bPromote1BitAs8Bit ds' = false ->
  (forall o b x y pData cache, o ∈ m_apoOverviewDS ds' ->
     let r := IReadBlock svc o b x y pData cache in
     let k := Z.to_nat (expected_bytes_all_bands b (GetRasterCount o)) in
     rb_err r = CE_None ->
     (exists pBuffer,
        fetch_block svc o b x y = Some pBuffer /\
        length pBuffer = k /\
        rb_pData r
          = map (fun v => if 127 <? v then 1 else 0) pBuffer
              ++ drop k pData /\
        forall (i : nat) v, pBuffer !! i = Some v ->
          rb_pData r !! i = Some (if 127 <? v then 1 else 0)) /\
     Forall (fun v => v = 0 \/ v = 1) (take k (rb_pData r)) /\
     ((length pData <= k)%nat ->
      Forall (fun v => v = 0 \/ v = 1) (rb_pData r))) /\
  (forall b x y pData cache,
     let r := IReadBlock svc ds' b x y pData cache in
     rb_err r = CE_None ->
     exists pBuffer,
       let nDTSize := GDALGetDataTypeSizeBytes (eDataType b) in
       let written :=
         GDALCopyWords pBuffer ((nBand b - 1) * nDTSize)
           (nDTSize * GetRasterCount ds') nDTSize
           (wrap_int (nBlockXSize b * nBlockYSize b)) in
       fetch_block svc ds' b x y = Some pBuffer /\
       rb_pData r = overwrite pData written /\
       forall v, v ∈ written -> v ∈ pBuffer).
Proof.
  intros Hparent Hnil Hopen Hcov Hs Hp Hpro.
  destruct (OpenRasterSubDataset_chain _ _ _ _ _ Hparent Hnil Hopen)
    as [Hbase Hovr].
  split.
  - intros o b x y pData cache Ho r k Hok.
    destruct (Hovr o Ho) as [Hlink Hpro'].
    assert (coverage_type (block_coverage o)
            = (RL2_SAMPLE_1_BIT, RL2_PIXEL_MONOCHROME, cov_bands cov)) as Hty.
    { unfold block_coverage. rewrite Hlink, Hcov. simpl. now rewrite Hs, Hp. }
    assert (has_parent o = true) as Hhas
      by (unfold has_parent; now rewrite Hlink).
    rewrite Hpro in Hpro'.
    split.
    + destruct (IReadBlock_collapsed_bytes svc o b x y pData cache _
                  Hty Hpro' Hhas Hok) as (pBuffer & Hf & Hlen & Hdata).
      assert (length pBuffer = k) as Hk by (subst k; lia).
      exists pBuffer. split; [exact Hf |]. split; [exact Hk |].
      fold r in Hdata. rewrite Hk in Hdata. split; [exact Hdata |].
      intros i v Hi. rewrite Hdata.
      rewrite lookup_app_l
        by (rewrite length_map; eapply lookup_lt_Some; exact Hi).
      rewrite list_lookup_fmap, Hi. reflexivity.
    + exact (proj1 (IReadBlock_collapsed_bits svc o b x y pData cache _
                      Hty Hpro' Hok) Hhas).
  - intros b x y pData cache r Hok.
    assert (coverage_type (block_coverage ds')
            = (RL2_SAMPLE_1_BIT, RL2_PIXEL_MONOCHROME, cov_bands cov)) as Hty.
    { unfold block_coverage. rewrite Hbase, Hcov. simpl. now rewrite Hs, Hp. }
    assert (has_parent ds' = false) as Hhas
      by (unfold has_parent; now rewrite Hbase).
    exact (proj2 (IReadBlock_collapsed_bits svc ds' b x y pData cache _
                    Hty Hpro Hok) Hhas).
Qed.

Lemma opened_chain_monochrome_bits_witness :
  fetch_block mono_services mono_overview mono_overview_band 0 0
    = Some [255; 0; 255; 255] /\
  rb_pData (IReadBlock mono_services mono_overview mono_overview_band 0 0
              [7; 7; 7; 7; 7] ∅)
  = [1; 0; 1; 1; 7].
Proof.
  assert (mono_overview ∈ m_apoOverviewDS mono_opened) as Ho
    by (apply (list_elem_of_lookup_2 _ 0%nat); vm_compute; reflexivity).
  assert (rb_err (IReadBlock mono_services mono_overview mono_overview_band
                    0 0 [7; 7; 7; 7; 7] ∅) = CE_None) as Hok
    by (vm_compute; reflexivity).
  pose proof (proj1 (opened_chain_monochrome_bits mono_services
                       (Sample.fresh [("1BIT_AS_8BIT", "NO")]) coverage_id
                       mono_opened _ Sample.mono eq_refl eq_refl
                       (OpenRasterSubDataset_true_eta mono_services
                          (Sample.fresh [("1BIT_AS_8BIT", "NO")])
                          coverage_id eq_refl)
                       eq_refl eq_refl eq_refl eq_refl)
                mono_overview mono_overview_band 0 0 [7; 7; 7; 7; 7] ∅
                Ho) as H.
  cbv zeta in H. destruct (H Hok) as ((pBuffer & Hf & Hk & Hdata & _) & _).
  assert (pBuffer = [255; 0; 255; 255]) as ->.
  { assert (fetch_block mono_services mono_overview mono_overview_band 0 0
            = Some [255; 0; 255; 255]) as Hf' by (vm_compute; reflexivity).
    congruence. }
  split; [exact Hf |].
  refine (eq_trans Hdata _). vm_compute. reflexivity.
Defined.

(* ===================================================================== *)
(** ** The overview chain: what a retained overview is *)
(* ===================================================================== *)

(** The overview appended for a retained candidate, in full. *)
Lemma CreateRL2OverviewDatasetIfNeeded_appends bShowAll this dfXRes dfYRes :
  CreateRL2OverviewDatasetIfNeeded bShowAll this dfXRes dfYRes = this \/
  let o := set_bands (overview_bands this)
             (overview_candidate this dfXRes dfYRes) in
  CreateRL2OverviewDatasetIfNeeded bShowAll this dfXRes dfYRes
    = set_overviews (m_apoOverviewDS this ++ [o]) this /\
  overview_discarded (nRasterXSize o) (nRasterYSize o) bShowAll = false.
Proof.
  unfold CreateRL2OverviewDatasetIfNeeded.
  destruct (same_resolution dfXRes (gt1 (m_adfGeoTransform this)));
    [now left |].
  destruct (existsb _ (m_apoOverviewDS this)); [now left |].
  cbv zeta.
  destruct (overview_discarded _ _ bShowAll) eqn:Hd; [now left |].
  right. split; [reflexivity | first [exact Hd | reflexivity]].
Qed.

Lemma overview_discarded_false nXSize nYSize bShowAll :
  overview_discarded nXSize nYSize bShowAll = false ->
  1 < nXSize /\ (bShowAll = false -> 64 <= nXSize \/ 64 <= nYSize).
Proof.
  unfold overview_discarded. intros H.
  apply orb_false_elim in H as [H H2]. apply orb_false_elim in H as [H _].
  apply Z.leb_gt in H. split; [lia |]. intros ->. simpl in H2.
  rewrite andb_true_r in H2. apply andb_false_iff in H2 as [H2 | H2];
    apply Z.ltb_ge in H2; lia.
Qed.

Lemma CreateRL2OverviewDatasetIfNeeded_derived bShowAll ds x y :
  (forall o, o ∈ m_apoOverviewDS ds ->
     derived_from ds o /\ retained_size bShowAll o) ->
  forall o,
    o ∈ m_apoOverviewDS (CreateRL2OverviewDatasetIfNeeded bShowAll ds x y) ->
    derived_from (CreateRL2OverviewDatasetIfNeeded bShowAll ds x y) o /\
    retained_size bShowAll o.
Proof.
  intros Hds.
  destruct (CreateRL2OverviewDatasetIfNeeded_appends bShowAll ds x y)
    as [-> | [-> Hsize]]; [exact Hds |].
  simpl. intros o [Ho | Ho]%elem_of_app.
  - exact (Hds o Ho).
  - apply list_elem_of_singleton in Ho as ->. split.
    + unfold derived_from. simpl. repeat split; reflexivity.
    + now apply overview_discarded_false.
Qed.

Lemma build_overviews_derived bShowAll candidates : forall ds,
  (forall o, o ∈ m_apoOverviewDS ds ->
     derived_from ds o /\ retained_size bShowAll o) ->
  forall o, o ∈ m_apoOverviewDS (build_overviews bShowAll ds candidates) ->
    derived_from (build_overviews bShowAll ds candidates) o /\
    retained_size bShowAll o.
Proof.
  unfold build_overviews.
  induction candidates as [| [x y] cs IH]; intros ds Hds; [exact Hds |].
  simpl. apply IH. now apply CreateRL2OverviewDatasetIfNeeded_derived.
Qed.

(** X1: starting from a dataset without overviews, every overview that a
    sequence of calls of CreateRL2OverviewDatasetIfNeeded retains is an
    internal dataset linked to the base, without a coverage handle or
    overviews of its own; it has the coverage name, section, promotion and
    mixed-resolution flags and the origin of the base, one band per band of
    the base, a width of more than one pixel and, unless every pyramid level
    is asked for, at least 64 pixels in one direction. *)
Theorem retained_overviews_derive_from_base bShowAll ds candidates :
  m_apoOverviewDS ds = [] ->
  let ds' := build_overviews bShowAll ds candidates in
  forall o, o ∈ m_apoOverviewDS ds' ->
    derived_from ds' o /\ retained_size bShowAll o /\
    length (papoBands o) = length (papoBands ds').
Proof.
  intros Hnil ds' o Ho.
  assert (derived_from ds' o /\ retained_size bShowAll o) as [Hd Hs].
  { apply (build_overviews_derived bShowAll candidates ds); [| exact Ho].
    rewrite Hnil. intros o' Ho'. now apply elem_of_nil in Ho'. }
  split; [exact Hd |]. split; [exact Hs |].
  destruct Hd as (_ & _ & _ & _ & _ & _ & _ & _ & _ & -> & _).
  unfold overview_bands. now rewrite length_imap.
Qed.

Lemma retained_overviews_derive_from_base_witness :
  derived_from pyramid_1000 pyramid_1000_first /\
  retained_size false pyramid_1000_first /\
  length (papoBands pyramid_1000_first) = length (papoBands pyramid_1000).
Proof.
  apply (retained_overviews_derive_from_base false base_1000
           [(Double.of_int 2, Double.of_int 2);
            (Double.of_int 4, Double.of_int 4)] eq_refl).
  apply (list_elem_of_lookup_2 _ 0%nat). vm_compute. reflexivity.
Defined.

Lemma set_overviews_eta ds : set_overviews (m_apoOverviewDS ds) ds = ds.
Proof. now destruct ds. Qed.

(** X2: a sequence of calls of CreateRL2OverviewDatasetIfNeeded only
    appends to the overview list: the overviews already there stay in
    place, at most one is added per candidate, the x resolutions of the
    added ones are candidates taken in the order offered, and no other
    member of the dataset changes. *)
Theorem build_overviews_only_appends bShowAll candidates : forall ds,
  let ds' := build_overviews bShowAll ds candidates in
  exists added,
    m_apoOverviewDS ds' = m_apoOverviewDS ds ++ added /\
    sublist (map x_resolution added) (map fst candidates) /\
    ds' = set_overviews (m_apoOverviewDS ds ++ added) ds.
Proof.
  unfold build_overviews.
  induction candidates as [| [x y] cs IH]; intros ds; simpl.
  - exists []. rewrite app_nil_r. split; [reflexivity |].
    split; [constructor | now rewrite set_overviews_eta].
  - destruct (CreateRL2OverviewDatasetIfNeeded_appends bShowAll ds x y)
      as [-> | [-> _]].
    + destruct (IH ds) as (added & H1 & H2 & H3). exists added.
      split; [exact H1 |]. split; [now apply sublist_cons | exact H3].
    + set (o := set_bands (overview_bands ds) (overview_candidate ds x y)).
      destruct (IH (set_overviews (m_apoOverviewDS ds ++ [o]) ds))
        as (added & H1 & H2 & H3).
      exists (o :: added). simpl in H1, H3.
      rewrite <- app_assoc in H1, H3. simpl in H1, H3.
      split; [exact H1 |]. split; [| exact H3].
      simpl. now apply sublist_skip.
Qed.

(** X3: a candidate whose x resolution is exactly that of the base or of
    an overview already retained is rejected, whatever its y resolution,
    provided that resolution is finite and 1e-5 times it is positive: the
    call returns the dataset unchanged.  So a candidate that was just
    retained adds nothing when it is offered again. *)
Theorem exact_duplicate_is_rejected bShowAll ds dfXRes dfYRes :
  is_finite dfXRes = true ->
  Double.ltb Double.zero (Double.mul Double.lit_1e_5 dfXRes) = true ->
  ((x_resolution ds = dfXRes \/
    exists o, o ∈ m_apoOverviewDS ds /\ x_resolution o = dfXRes) ->
   CreateRL2OverviewDatasetIfNeeded bShowAll ds dfXRes dfYRes = ds) /\
  (let ds1 := CreateRL2OverviewDatasetIfNeeded bShowAll ds dfXRes dfYRes in
   ds1 <> ds ->
   forall dfYRes',
     CreateRL2OverviewDatasetIfNeeded bShowAll ds1 dfXRes dfYRes' = ds1).
Proof.
  intros Hf Hpos.
  pose proof (same_resolution_self dfXRes Hf Hpos) as Hself.
  assert (forall d y,
            (x_resolution d = dfXRes \/
             exists o, o ∈ m_apoOverviewDS d /\ x_resolution o = dfXRes) ->
            CreateRL2OverviewDatasetIfNeeded bShowAll d dfXRes y = d) as Hrej.
  { intros d y Hdup. unfold CreateRL2OverviewDatasetIfNeeded.
    destruct Hdup as [Hb | (o & Ho & Hx)].
    - unfold x_resolution in Hb. now rewrite Hb, Hself.
    - destruct (same_resolution dfXRes (gt1 (m_adfGeoTransform d)));
        [reflexivity |].
      replace (existsb _ (m_apoOverviewDS d)) with true; [reflexivity |].
      symmetry. apply existsb_exists. exists o.
      split; [now apply list_elem_of_In |].
      unfold x_resolution in Hx. now rewrite Hx. }
  split; [apply Hrej |].
  intros ds1 Hne y'. subst ds1.
  destruct (CreateRL2OverviewDatasetIfNeeded_appends bShowAll ds dfXRes dfYRes)
    as [Heq | [Heq _]]; [contradiction |].
  rewrite Heq. apply Hrej.
  right.
  exists (set_bands (overview_bands ds) (overview_candidate ds dfXRes dfYRes)).
  split; [| reflexivity]. simpl.
  apply elem_of_app. right. now apply list_elem_of_singleton.
Qed.

Lemma exact_duplicate_is_rejected_witness :
  CreateRL2OverviewDatasetIfNeeded false pyramid_1000
    (Double.of_int 2) (Double.of_int 3) = pyramid_1000.
Proof.
  refine (proj1 (exact_duplicate_is_rejected false pyramid_1000
                   (Double.of_int 2) (Double.of_int 3) eq_refl eq_refl) _).
  right. exists pyramid_1000_first. split; [| vm_compute; reflexivity].
  apply (list_elem_of_lookup_2 _ 0%nat). vm_compute. reflexivity.
Defined.

(* ===================================================================== *)
(** ** Opening a coverage: the dataset before and after its overviews *)
(* ===================================================================== *)

(** What holds before the overviews are built and is kept by every call of
    the overview builder holds of the opened dataset. *)
Lemma instanciate_overviews_inv (P : OGRSQLiteDataSource -> Prop) svc cov d :
  P (set_mixed_resolutions (negb (cov_mixed_resolutions cov =? 0)) d) ->
  (forall ds x y,
     P ds ->
     P (CreateRL2OverviewDatasetIfNeeded (show_all_pyramid_levels svc) ds x y)) ->
  P (fst (instanciate_overviews svc cov d)).
Proof.
  intros H0 Hstep. unfold instanciate_overviews. cbv zeta.
  destruct ((cov_mixed_resolutions cov =? 0) || _); [| exact H0].
  destruct (fst (if cov_mixed_resolutions cov =? 0 then _ else _)) as [rs |];
    [| exact H0].
  cbn [fst]. revert H0. generalize (set_mixed_resolutions
                           (negb (cov_mixed_resolutions cov =? 0)) d).
  induction rs as [| [[[c1 c2] c4] c8] rs IH]; intros ds Hds; [exact Hds |].
  simpl. apply IH. unfold level_row_step.
  assert (forall ds c, P ds -> P (level_candidate svc ds c)) as Hc.
  { intros ds0 [[x |] [y |]] H; simpl; auto. }
  auto.
Qed.

(** The dataset on which a successful open builds its overviews. *)
Lemma OpenRasterSubDataset_base svc this conn ds' ev :
  OpenRasterSubDataset svc this conn = (true, ds', ev) ->
  exists cov d g,
    ds' = fst (instanciate_overviews svc cov d) /\
    resolve_geometry svc cov
      (OGRSQLiteParamsUnquote svc (nth 2 (CSLTokenizeString2 svc conn) ""))
      (m_nSectionId d) = inr g /\
    m_apoOverviewDS d = m_apoOverviewDS this /\
    m_poParentDS d = m_poParentDS this /\
    bIsInternal d = bIsInternal this /\
    m_pszFilename d = m_pszFilename this /\
    papszOpenOptions d = papszOpenOptions this /\
    m_pRL2Coverage d = Some cov /\
    ((cov_tile_width cov =? 0) || (cov_tile_height cov =? 0)
     || (INT_MAX <? cov_tile_width cov) || (INT_MAX <? cov_tile_height cov))
      = false /\
    m_osCoverageName d
      = OGRSQLiteParamsUnquote svc (nth 2 (CSLTokenizeString2 svc conn) "") /\
    m_bGeoTransformValid d = true /\
    m_adfGeoTransform d
      = geometry_geotransform g (nRasterXSize d) (nRasterYSize d) /\
    m_osProjection d
      = match cov_srid cov with
        | Some nSRID =>
            match fetch_srs_wkt svc nSRID with
            | Some wkt => wkt
            | None => m_osProjection this
            end
        | None => m_osProjection this
        end.
Proof.
  intros Hopen. unfold OpenRasterSubDataset in Hopen.
  destruct (negb (STARTS_WITH_CI conn "RASTERLITE2:")); [discriminate |].
  destruct (Z.of_nat (length (CSLTokenizeString2 svc conn)) <? 3);
    [discriminate |].
  simpl in Hopen.
  destruct (rl2_create_coverage_from_dbms svc _) as [cov |]; [| discriminate].
  destruct (list_sections svc _ _ _) as [[subs nSectionId] bSingle].
  destruct (resolve_geometry svc cov _ nSectionId) as [msg | g] eqn:Hg;
    [discriminate |].
  destruct (negb (GDALCheckBandCount svc (cov_bands cov) false));
    [destruct (cov_srid cov) as [srid |];
       [destruct (fetch_srs_wkt svc srid) |]; discriminate |].
  destruct (sample_format (cov_sample cov)) as [[[nBits eDT] bSigned] |];
    [| destruct (cov_srid cov) as [srid |];
       [destruct (fetch_srs_wkt svc srid) |]; discriminate].
  destruct ((cov_tile_width cov =? 0) || (cov_tile_height cov =? 0)
            || (INT_MAX <? cov_tile_width cov)
            || (INT_MAX <? cov_tile_height cov)) eqn:Htile;
    [destruct (cov_srid cov) as [srid |];
       [destruct (fetch_srs_wkt svc srid) |];
       destruct (bool_decide (cov_sample cov = RL2_SAMPLE_1_BIT)
                 && bool_decide (cov_pixel cov = RL2_PIXEL_MONOCHROME));
       discriminate |].
  injection Hopen as <- _. exists cov. eexists. exists g.
  split; [reflexivity |].
  destruct (cov_srid cov) as [srid |];
    [destruct (fetch_srs_wkt svc srid) |];
    destruct (bool_decide (cov_sample cov = RL2_SAMPLE_1_BIT)
              && bool_decide (cov_pixel cov = RL2_PIXEL_MONOCHROME));
    simpl; (split; [exact Hg |]); repeat split;
    first [reflexivity | exact Htile].
Qed.

(** Building the overviews changes the overview list and the
    mixed-resolution flag, nothing else. *)
Lemma instanciate_overviews_frame svc cov d :
  exists ovs,
    fst (instanciate_overviews svc cov d)
    = set_overviews ovs
        (set_mixed_resolutions (negb (cov_mixed_resolutions cov =? 0)) d).
Proof.
  apply (instanciate_overviews_inv
           (fun ds => exists ovs,
              ds = set_overviews ovs
                     (set_mixed_resolutions
                        (negb (cov_mixed_resolutions cov =? 0)) d))).
  - eexists. symmetry. apply set_overviews_eta.
  - intros ds x y [ovs ->].
    destruct (CreateRL2OverviewDatasetIfNeeded_appends
                (show_all_pyramid_levels svc)
                (set_overviews ovs
                   (set_mixed_resolutions
                      (negb (cov_mixed_resolutions cov =? 0)) d)) x y)
      as [-> | [-> _]]; eexists; reflexivity.
Qed.

Lemma instanciate_overviews_derived svc cov d :
  m_apoOverviewDS d = [] ->
  forall o, o ∈ m_apoOverviewDS (fst (instanciate_overviews svc cov d)) ->
    derived_from (fst (instanciate_overviews svc cov d)) o /\
    retained_size (show_all_pyramid_levels svc) o.
Proof.
  intros Hnil.
  apply (instanciate_overviews_inv
           (fun ds => forall o, o ∈ m_apoOverviewDS ds ->
              derived_from ds o /\
              retained_size (show_all_pyramid_levels svc) o)).
  - simpl. rewrite Hnil. intros o Ho. now apply elem_of_nil in Ho.
  - intros ds x y. apply CreateRL2OverviewDatasetIfNeeded_derived.
Qed.

(** The bands of an opened dataset are numbered from 1, in order. *)
Lemma make_bands_lookup vals n px eDT nBits bPromote bSigned w h (i : nat) b :
  make_bands vals n px eDT nBits bPromote bSigned w h !! i = Some b ->
  nBand b = Z.of_nat i + 1 /\ eDataType b = eDT /\
  nBlockXSize b = w /\ nBlockYSize b = h.
Proof.
  unfold make_bands. rewrite list_lookup_fmap.
  destruct (seqZ 1 n !! i) as [k |] eqn:Hk; [| discriminate].
  apply lookup_seqZ in Hk as [-> _]. simpl. intros [= <-]. simpl.
  repeat split; lia.
Qed.

Lemma attach_band_statistics_keeps svc pStatistics nBits bPromote b :
  let b' := attach_band_statistics svc pStatistics nBits bPromote b in
  nBand b' = nBand b /\ eDataType b' = eDataType b /\
  nBlockXSize b' = nBlockXSize b /\ nBlockYSize b' = nBlockYSize b /\
  m_bHasNoData b' = m_bHasNoData b /\ m_dfNoDataValue b' = m_dfNoDataValue b /\
  m_eColorInterp b' = m_eColorInterp b.
Proof.
  unfold attach_band_statistics.
  destruct (negb _); [| repeat split].
  destruct (pStatistics _); repeat split.
Qed.

Lemma fetch_statistics_lookup svc name nSectionId bSingle nBits bPromote bands
    (i : nat) b :
  fetch_statistics svc name nSectionId bSingle nBits bPromote bands !! i
    = Some b ->
  exists b0, bands !! i = Some b0 /\
    nBand b = nBand b0 /\ eDataType b = eDataType b0 /\
    nBlockXSize b = nBlockXSize b0 /\ nBlockYSize b = nBlockYSize b0.
Proof.
  unfold fetch_statistics.
  destruct ((nSectionId <? 0) || bSingle);
    [| intros H; exists b; repeat split; exact H].
  destruct (rl2_create_raster_statistics_from_dbms svc name) as [st |];
    [| intros H; exists b; repeat split; exact H].
  rewrite list_lookup_fmap.
  destruct (bands !! i) as [b0 |]; [| discriminate].
  simpl. intros [= <-]. exists b0. split; [reflexivity |].
  destruct (attach_band_statistics_keeps svc st nBits bPromote b0)
    as (H1 & H2 & H3 & H4 & _).
  auto.
Qed.

Lemma OpenRasterSubDataset_overviews_derived svc this conn ds' ev :
  m_apoOverviewDS this = [] ->
  OpenRasterSubDataset svc this conn = (true, ds', ev) ->
  forall o, o ∈ m_apoOverviewDS ds' ->
    derived_from ds' o /\ retained_size (show_all_pyramid_levels svc) o.
Proof.
  intros Hnil Hopen.
  destruct (OpenRasterSubDataset_base _ _ _ _ _ Hopen)
    as (cov & d & g & -> & _ & Hovr & _).
  apply instanciate_overviews_derived. now rewrite Hovr.
Qed.

Lemma OpenRasterSubDataset_bands_numbered svc this conn ds' ev (i : nat) b :
  OpenRasterSubDataset svc this conn = (true, ds', ev) ->
  papoBands ds' !! i = Some b -> nBand b = Z.of_nat i + 1.
Proof.
  intros Hopen Hb.
  destruct (OpenRasterSubDataset_opened _ _ _ _ _ Hopen)
    as (cov & subs & sid & bs & g & nBits & eDT & bSigned
        & _ & _ & _ & _ & _ & _ & _ & _ & _ & _ & _ & Hbands & _).
  rewrite Hbands in Hb.
  apply fetch_statistics_lookup in Hb as (b0 & Hb0 & -> & _).
  exact (proj1 (make_bands_lookup _ _ _ _ _ _ _ _ _ _ _ Hb0)).
Qed.

(** X4: after a successful open there is one band per band of the
    coverage; the bands are numbered from 1 in order and all have the data
    type of the coverage's sample type and the coverage's tile size as block
    size; that tile size is not zero and fits an int. *)
Theorem opened_bands_layout svc this conn ds' ev :
  OpenRasterSubDataset svc this conn = (true, ds', ev) -> bands_layout ds'.
Proof.
  intros Hopen.
  destruct (OpenRasterSubDataset_opened _ _ _ _ _ Hopen)
    as (cov & subs & sid & bs & g & nBits & eDT & bSigned
        & _ & _ & _ & Hfmt & _ & Hcov & _ & _ & _ & _ & _ & Hbands & _).
  destruct (OpenRasterSubDataset_base _ _ _ _ _ Hopen)
    as (cov' & d & g' & Hds & _ & _ & _ & _ & _ & _ & Hcov' & Htile & _).
  assert (cov' = cov) as ->.
  { destruct (instanciate_overviews_same_raster svc cov' d)
      as (_ & _ & _ & _ & Hc & _).
    rewrite <- Hds in Hc. congruence. }
  exists cov, nBits, eDT, bSigned.
  split; [exact Hcov |]. split; [exact Hfmt |].
  apply orb_false_elim in Htile as [Htile H4].
  apply orb_false_elim in Htile as [Htile H3].
  apply orb_false_elim in Htile as [H1 H2].
  apply Z.eqb_neq in H1, H2. apply Z.ltb_ge in H3, H4.
  split.
  { unfold GetRasterCount. rewrite Hbands.
    assert (forall bands,
              length (fetch_statistics svc
                        (OGRSQLiteParamsUnquote svc
                           (nth 2 (CSLTokenizeString2 svc conn) ""))
                        sid bs nBits (m_bPromote1BitAs8Bit ds') bands)
              = length bands) as Hlen.
    { intros bands. unfold fetch_statistics.
      repeat case_match; rewrite ?length_map; reflexivity. }
    rewrite Hlen. unfold make_bands. rewrite length_map, length_seqZ. lia. }
  do 4 (split; [assumption |]).
  intros i b Hb. rewrite Hbands in Hb.
  apply fetch_statistics_lookup in Hb as (b0 & Hb0 & -> & -> & -> & ->).
  exact (make_bands_lookup _ _ _ _ _ _ _ _ _ _ _ Hb0).
Qed.

Lemma opened_bands_layout_witness : bands_layout rgb_opened.
Proof.
  exact (opened_bands_layout rgb_services (Sample.fresh []) coverage_id _ _
           (OpenRasterSubDataset_true_eta rgb_services (Sample.fresh [])
              coverage_id eq_refl)).
Defined.

Lemma copy_RL2RasterBand_same_band i b :
  nBand b = i -> same_band b (copy_RL2RasterBand i b).
Proof. intros <-. unfold same_band. repeat split. Qed.

Lemma GetOverview_copy base o b (i : nat) :
  papoBands base !! i = Some b -> nBand b = Z.of_nat i + 1 ->
  papoBands o = overview_bands base ->
  GetRasterBand o (nBand b) = Some (copy_RL2RasterBand (nBand b) b).
Proof.
  intros Hb Hn Ho. unfold GetRasterBand, GetRasterCount.
  rewrite Ho. unfold overview_bands. rewrite length_imap.
  pose proof (lookup_lt_Some _ _ _ Hb) as Hlt.
  replace (nBand b <? 1) with false by (symmetry; apply Z.ltb_ge; lia).
  replace (Z.of_nat (length (papoBands base)) <? nBand b) with false
    by (symmetry; apply Z.ltb_ge; lia).
  simpl. rewrite Hn.
  replace (Z.to_nat (Z.of_nat i + 1 - 1)) with i by lia.
  rewrite list_lookup_imap, Hb. reflexivity.
Qed.

(** X5: on a dataset opened from a data source without overviews, the
    overview count of a band is the number of overviews built, or the
    persisted-metadata count when none was built.  When overviews were
    built, GetOverview answers a null pointer for an index below 0 or not
    below the count, and for an index in range the band of that overview
    that has the number, data type, block size, no-data value and colour
    interpretation of the band asked; with no overview built it answers
    what the persisted-metadata band answers.  The number of overviews is
    taken to fit an int. *)
Theorem GetOverview_on_opened svc this conn ds' ev b pam_count pam :
  m_apoOverviewDS this = [] ->
  OpenRasterSubDataset svc this conn = (true, ds', ev) ->
  b ∈ papoBands ds' ->
  let n := Z.of_nat (length (m_apoOverviewDS ds')) in
  n <= INT_MAX ->
  (n = 0 ->
     GetOverviewCount ds' pam_count = pam_count /\
     forall nIdx, GetOverview ds' b nIdx pam = pam nIdx) /\
  (0 < n ->
     GetOverviewCount ds' pam_count = n /\
     (forall nIdx, nIdx < 0 \/ n <= nIdx ->
        GetOverview ds' b nIdx pam = None) /\
     (forall nIdx, 0 <= nIdx < n ->
        exists o ob,
          m_apoOverviewDS ds' !! Z.to_nat nIdx = Some o /\
          GetOverview ds' b nIdx pam = Some ob /\
          ob ∈ papoBands o /\ same_band b ob)).
Proof.
  intros Hnil Hopen Hb n Hmax.
  assert (wrap_int n = n) as Hwrap
    by (apply wrap_int_id; unfold INT_MIN; unfold INT_MAX in *; lia).
  unfold GetOverviewCount, GetOverview. fold n. rewrite Hwrap.
  split.
  - intros ->. simpl. split; [reflexivity | intros; reflexivity].
  - intros Hpos.
    replace (0 <? n) with true by (symmetry; apply Z.ltb_lt; lia).
    split; [reflexivity |]. split.
    + intros nIdx [Hlt | Hge].
      * replace (nIdx <? 0) with true by (symmetry; apply Z.ltb_lt; lia).
        reflexivity.
      * replace (n <=? nIdx) with true by (symmetry; apply Z.leb_le; lia).
        now rewrite orb_true_r.
    + intros nIdx [H0 Hn].
      replace (nIdx <? 0) with false by (symmetry; apply Z.ltb_ge; lia).
      replace (n <=? nIdx) with false by (symmetry; apply Z.leb_gt; lia).
      simpl.
      destruct (lookup_lt_is_Some_2 (m_apoOverviewDS ds') (Z.to_nat nIdx))
        as [o Ho]; [subst n; lia |].
      rewrite Ho.
      destruct (OpenRasterSubDataset_overviews_derived _ _ _ _ _ Hnil Hopen o)
        as [Hder _]; [eapply list_elem_of_lookup_2; exact Ho |].
      destruct Hder as (_ & _ & _ & _ & _ & _ & _ & _ & _ & Hbands & _).
      apply list_elem_of_lookup_1 in Hb as [i Hi].
      pose proof (OpenRasterSubDataset_bands_numbered _ _ _ _ _ _ _ Hopen Hi)
        as Hnum.
      pose proof (GetOverview_copy ds' o b i Hi Hnum Hbands) as Hget.
      exists o, (copy_RL2RasterBand (nBand b) b).
      split; [reflexivity |]. split; [exact Hget |]. split.
      * unfold GetRasterBand in Hget.
        destruct ((nBand b <? 1) || _); [discriminate |].
        eapply list_elem_of_lookup_2; exact Hget.
      * now apply copy_RL2RasterBand_same_band.
Qed.

Lemma GetOverview_on_opened_witness :
  GetOverviewCount mono_opened 0
    = Z.of_nat (length (m_apoOverviewDS mono_opened)) /\
  exists o ob,
    m_apoOverviewDS mono_opened !! Z.to_nat 0 = Some o /\
    GetOverview mono_opened mono_band 0 (fun _ => None) = Some ob /\
    ob ∈ papoBands o /\ same_band mono_band ob.
Proof.
  assert (mono_band ∈ papoBands mono_opened) as Hb.
  { apply (list_elem_of_lookup_2 _ 0%nat). vm_compute. reflexivity. }
  assert (Z.of_nat (length (m_apoOverviewDS mono_opened)) <= INT_MAX) as Hmax.
  { vm_compute. discriminate. }
  assert (0 < Z.of_nat (length (m_apoOverviewDS mono_opened))) as Hpos.
  { vm_compute. reflexivity. }
  destruct (proj2 (GetOverview_on_opened mono_services
                     (Sample.fresh [("1BIT_AS_8BIT", "NO")]) coverage_id
                     mono_opened _ mono_band 0 (fun _ => None) eq_refl
                     (OpenRasterSubDataset_true_eta mono_services
                        (Sample.fresh [("1BIT_AS_8BIT", "NO")])
                        coverage_id eq_refl)
                     Hb Hmax) Hpos) as (H1 & _ & H3).
  split; [exact H1 |]. apply H3. split; [lia | exact Hpos].
Defined.

(** X6: after a successful open GetGeoTransform answers CE_None with the
    transform of the resolved extent, never the persisted-metadata answer:
    the origin is the minimum x and the maximum y of the extent, the pixel
    size is the extent divided by the raster size, negated in y, and the
    rotation terms are zero.  GetProjectionRef answers the definition found
    for the coverage's SRID when there is one and it is not empty; when the
    coverage has no SRID, or none is found for it, the answer is what the
    data source answered before the open. *)
Theorem opened_georeferencing svc this conn ds' ev pam pam_proj :
  OpenRasterSubDataset svc this conn = (true, ds', ev) ->
  exists cov g,
    m_pRL2Coverage ds' = Some cov /\
    resolve_geometry svc cov (m_osCoverageName ds') (m_nSectionId ds') = inr g /\
    GetGeoTransform ds' pam
      = (CE_None,
         {| gt0 := geo_minx g;
            gt1 := Double.div (Double.sub (geo_maxx g) (geo_minx g))
                     (Double.of_int (nRasterXSize ds'));
            gt2 := Double.zero;
            gt3 := geo_maxy g;
            gt4 := Double.zero;
            gt5 := Double.div (Double.opp (Double.sub (geo_maxy g) (geo_miny g)))
                     (Double.of_int (nRasterYSize ds')) |}) /\
    (forall nSRID wkt,
       cov_srid cov = Some nSRID -> fetch_srs_wkt svc nSRID = Some wkt ->
       wkt <> "" -> GetProjectionRef ds' pam_proj = wkt) /\
    (cov_srid cov = None \/
     (exists nSRID, cov_srid cov = Some nSRID /\ fetch_srs_wkt svc nSRID = None) ->
     GetProjectionRef ds' pam_proj = GetProjectionRef this pam_proj).
Proof.
  intros Hopen.
  destruct (OpenRasterSubDataset_base _ _ _ _ _ Hopen)
    as (cov & d & g & -> & Hg & _ & _ & _ & _ & _ & Hcov & _ & Hname & Hvalid
        & Hgt & Hproj).
  destruct (instanciate_overviews_frame svc cov d) as [ovs ->].
  exists cov, g. simpl.
  split; [exact Hcov |]. split; [now rewrite Hname |].
  split.
  { unfold GetGeoTransform. simpl. rewrite Hvalid, Hgt. reflexivity. }
  unfold GetProjectionRef. simpl. rewrite Hproj. split.
  - intros nSRID wkt -> -> Hne.
    now rewrite (proj2 (String.eqb_neq _ _) Hne).
  - intros [-> | (nSRID & -> & ->)]; reflexivity.
Qed.

Lemma opened_georeferencing_witness :
  fst (GetGeoTransform rgb_opened (CE_Failure, default_GeoTransform)) = CE_None /\
  gt2 (snd (GetGeoTransform rgb_opened (CE_Failure, default_GeoTransform)))
    = Double.zero /\
  gt4 (snd (GetGeoTransform rgb_opened (CE_Failure, default_GeoTransform)))
    = Double.zero.
Proof.
  destruct (opened_georeferencing rgb_services (Sample.fresh []) coverage_id
              rgb_opened _ (CE_Failure, default_GeoTransform) ""
              (OpenRasterSubDataset_true_eta rgb_services (Sample.fresh [])
                 coverage_id eq_refl))
    as (cov & g & _ & _ & H & _).
  rewrite H. repeat split.
Defined.

(** X7: an open that fails attaches no band and no overview to the data
    source and logs at most one error.  An identifier without the
    RASTERLITE2: prefix or with fewer than three tokens fails silently and
    leaves the data source as it was; an unknown coverage fails with the
    error "Invalid coverage: " followed by its name, and the sub-dataset
    list is then empty. *)
Theorem failed_open_attaches_nothing svc this conn ds' ev :
  OpenRasterSubDataset svc this conn = (false, ds', ev) ->
  let tokens := CSLTokenizeString2 svc conn in
  let name := OGRSQLiteParamsUnquote svc (nth 2 tokens "") in
  papoBands ds' = papoBands this /\
  m_apoOverviewDS ds' = m_apoOverviewDS this /\
  (ev = [] \/ exists msg, ev = [EvError msg]) /\
  (STARTS_WITH_CI conn "RASTERLITE2:" = false \/ Z.of_nat (length tokens) < 3 ->
   ds' = this /\ ev = []) /\
  (STARTS_WITH_CI conn "RASTERLITE2:" = true -> 3 <= Z.of_nat (length tokens) ->
   rl2_create_coverage_from_dbms svc name = None ->
   ev = [EvError ("Invalid coverage: " +:+ name)] /\
   m_aosSubDatasets ds' = [] /\ m_pRL2Coverage ds' = None).
Proof.
  intros Hopen tokens name. unfold OpenRasterSubDataset in Hopen.
  fold tokens in Hopen. fold name in Hopen.
  destruct (STARTS_WITH_CI conn "RASTERLITE2:") eqn:Hpre; simpl in Hopen.
  2:{ injection Hopen as <- <-. repeat split; eauto; discriminate. }
  destruct (Z.of_nat (length tokens) <? 3) eqn:Hlen.
  { injection Hopen as <- <-. apply Z.ltb_lt in Hlen.
    repeat split; eauto; intros; lia. }
  apply Z.ltb_ge in Hlen.
  destruct (rl2_create_coverage_from_dbms svc name) as [cov |] eqn:Hcov.
  2:{ injection Hopen as <- <-. simpl.
      split; [reflexivity |]. split; [reflexivity |].
      split; [right; eauto |]. split; [intros [? | ?]; [discriminate | lia] |].
      auto. }
  assert (forall d e,
            papoBands d = papoBands this ->
            m_apoOverviewDS d = m_apoOverviewDS this ->
            (e = [] \/ exists msg, e = [EvError msg]) ->
            papoBands d = papoBands this /\
            m_apoOverviewDS d = m_apoOverviewDS this /\
            (e = [] \/ exists msg, e = [EvError msg]) /\
            (true = false \/ Z.of_nat (length tokens) < 3 -> d = this /\ e = []) /\
            (true = true -> 3 <= Z.of_nat (length tokens) ->
             Some cov = None ->
             e = [EvError ("Invalid coverage: " +:+ name)] /\
             m_aosSubDatasets d = [] /\ m_pRL2Coverage d = None)) as Hfin.
  { intros d e H1 H2 H3.
    split; [exact H1 |]. split; [exact H2 |]. split; [exact H3 |].
    split; [intros [? | ?]; [discriminate | lia] |].
    intros _ _ Hn. discriminate Hn. }
  destruct (list_sections svc _ _ _) as [[subs nSectionId] bSingle].
  destruct (resolve_geometry svc cov _ nSectionId) as [msg | g].
  { injection Hopen as <- <-. apply Hfin; eauto. }
  destruct (negb (GDALCheckBandCount svc (cov_bands cov) false)).
  { destruct (cov_srid cov) as [srid |];
      [destruct (fetch_srs_wkt svc srid) |];
      injection Hopen as <- <-; apply Hfin; eauto. }
  destruct (sample_format (cov_sample cov)) as [[[nBits eDT] bSigned] |].
  2:{ destruct (cov_srid cov) as [srid |];
        [destruct (fetch_srs_wkt svc srid) |];
        injection Hopen as <- <-; apply Hfin; eauto. }
  destruct ((cov_tile_width cov =? 0) || (cov_tile_height cov =? 0)
            || (INT_MAX <? cov_tile_width cov)
            || (INT_MAX <? cov_tile_height cov)); [| discriminate].
  destruct (cov_srid cov) as [srid |];
    [destruct (fetch_srs_wkt svc srid) |];
    destruct (bool_decide (cov_sample cov = RL2_SAMPLE_1_BIT)
              && bool_decide (cov_pixel cov = RL2_PIXEL_MONOCHROME));
    injection Hopen as <- <-; apply Hfin; eauto.
Qed.

Lemma failed_open_attaches_nothing_witness :
  snd (OpenRasterSubDataset promoted_services (Sample.fresh [])
         "RASTERLITE2:f.sqlite:other")
    = [EvError "Invalid coverage: other"].
Proof.
  refine (proj1 (proj2 (proj2 (proj2 (proj2
            (failed_open_attaches_nothing promoted_services (Sample.fresh [])
               "RASTERLITE2:f.sqlite:other" _ _ _)))) eq_refl _ eq_refl)).
  - vm_compute. reflexivity.
  - vm_compute. discriminate.
Defined.

Lemma list_sections_named svc f name nSectionId :
  0 <= nSectionId -> list_sections svc f name nSectionId = ([], nSectionId, false).
Proof.
  intros H. unfold list_sections.
  now replace (nSectionId <? 0) with false by (symmetry; apply Z.ltb_ge; lia).
Qed.

(** X8: when the identifier names a section (a fourth token whose number
    is not negative), the open selects that section without reading the
    section table and lists no sub-dataset.  It fails with an
    "Invalid section" error when the base resolution or the full extent of
    the section cannot be resolved, or when the resolved width or height is
    zero or above INT_MAX; otherwise the raster size is the size of the
    section.  When the open succeeds, no band carries a statistics item. *)
Theorem open_named_section svc this conn cov :
  STARTS_WITH_CI conn "RASTERLITE2:" = true ->
  let tokens := CSLTokenizeString2 svc conn in
  let name := OGRSQLiteParamsUnquote svc (nth 2 tokens "") in
  let nSectionId := CPLAtoGIntBig svc (nth 3 tokens "") in
  4 <= Z.of_nat (length tokens) -> 0 <= nSectionId ->
  rl2_create_coverage_from_dbms svc name = Some cov ->
  let r := OpenRasterSubDataset svc this conn in
  let invalid what :=
    fst (fst r) = false /\
    snd r = [EvError (what +:+ " failed / Invalid section: "
                        +:+ fmt_d nSectionId)] in
  m_aosSubDatasets (snd (fst r)) = [] /\
  m_nSectionId (snd (fst r)) = nSectionId /\
  match rl2_resolve_base_resolution_from_dbms svc name nSectionId with
  | None => invalid "rl2_resolve_base_resolution_from_dbms()"
  | Some (dfXRes, dfYRes) =>
      match rl2_resolve_full_section_from_dbms svc name nSectionId
              dfXRes dfYRes with
      | None => invalid "rl2_resolve_full_section_from_dbms()"
      | Some e =>
          if (se_width e =? 0) || (INT_MAX <? se_width e)
             || (se_height e =? 0) || (INT_MAX <? se_height e)
          then invalid "rl2_resolve_full_section_from_dbms()"
          else nRasterXSize (snd (fst r)) = wrap_int (se_width e) /\
               nRasterYSize (snd (fst r)) = wrap_int (se_height e)
      end
  end /\
  (fst (fst r) = true ->
   forall b domain, b ∈ papoBands (snd (fst r)) ->
     band_metadata b !! (domain, "STATISTICS_MINIMUM") = None /\
     band_metadata b !! (domain, "STATISTICS_MAXIMUM") = None /\
     band_metadata b !! (domain, "STATISTICS_MEAN") = None /\
     band_metadata b !! (domain, "STATISTICS_STDDEV") = None).
Proof.
  intros Hpre tokens name nSectionId Hlen Hid Hcov r invalid.
  assert (named_section svc tokens = nSectionId) as Hnamed.
  { unfold named_section.
    now replace (4 <=? Z.of_nat (length tokens)) with true
      by (symmetry; apply Z.leb_le; lia). }
  pose proof (list_sections_named svc (m_pszFilename this) name nSectionId Hid)
    as Hl.
  assert (3 <= Z.of_nat (length tokens)) as Hlen3 by lia.
  destruct (OpenRasterSubDataset_resolved svc this conn tokens name cov
              nSectionId _ _ _ Hpre eq_refl eq_refl Hlen3 Hcov
              (eq_sym Hnamed) Hl) as (H1 & H2 & Hgeo).
  fold r in H1, H2, Hgeo.
  split; [exact H1 |]. split; [exact H2 |]. split.
  - unfold resolve_geometry in Hgeo.
    replace (0 <=? nSectionId) with true in Hgeo
      by (symmetry; apply Z.leb_le; lia).
    subst invalid. cbv beta.
    destruct (rl2_resolve_base_resolution_from_dbms svc name nSectionId)
      as [[dfXRes dfYRes] |]; [| exact Hgeo].
    destruct (rl2_resolve_full_section_from_dbms svc name nSectionId
                dfXRes dfYRes) as [e |]; [| exact Hgeo].
    destruct ((se_width e =? 0) || (INT_MAX <? se_width e)
              || (se_height e =? 0) || (INT_MAX <? se_height e));
      [exact Hgeo |].
    simpl in Hgeo. destruct Hgeo as (Hx & Hy & _). auto.
  - intros Hok b domain Hb.
    pose proof (OpenRasterSubDataset_true_eta svc this conn Hok) as Hopen.
    destruct (OpenRasterSubDataset_opened _ _ _ _ _ Hopen)
      as (cov' & subs & sid & bs & g & nBits & eDT & bSigned
          & _ & Hl' & _ & _ & _ & _ & _ & _ & _ & _ & _ & Hbands & _).
    fold tokens name in Hl'. rewrite Hnamed, Hl in Hl'.
    injection Hl' as <- <- <-.
    fold r in Hbands. rewrite Hbands in Hb. unfold fetch_statistics in Hb.
    replace (nSectionId <? 0) with false in Hb
      by (symmetry; apply Z.ltb_ge; lia).
    simpl in Hb. unfold make_bands in Hb.
    apply list_elem_of_fmap in Hb as (i & -> & _).
    repeat split; apply new_RL2RasterBand_metadata; discriminate.
Qed.

Lemma open_named_section_witness :
  m_aosSubDatasets
    (snd (fst (OpenRasterSubDataset one_section_services (Sample.fresh [])
                 section_id))) = [] /\
  nRasterXSize
    (snd (fst (OpenRasterSubDataset one_section_services (Sample.fresh [])
                 section_id))) = 500.
Proof.
  pose proof (open_named_section one_section_services (Sample.fresh [])
                section_id Sample.gray eq_refl
                ltac:(vm_compute; discriminate) ltac:(vm_compute; discriminate)
                eq_refl) as H.
  split; [exact (proj1 H) |].
  exact (proj1 (proj1 (proj2 (proj2 H)))).
Defined.

(* ===================================================================== *)
(** ** Listing the coverages of a store *)
(* ===================================================================== *)

(** The loop over the rows of the coverage table. *)
Lemma coverage_rows_listed svc f rows : forall subs,
  fold_left (coverage_row_step svc f) rows subs
  = subs ++ coverage_listing svc f (Z.of_nat (length subs) / 2 + 1)
              (loadable_coverages svc rows).
Proof.
  induction rows as [| [[[name |] title] abstract] rows IH]; intros subs;
    simpl; rewrite ?app_nil_r; try reflexivity; try apply IH.
  destruct (rl2_create_coverage_from_dbms svc name); [| apply IH].
  unfold AddNameValue. rewrite IH. simpl.
  rewrite <- !app_assoc. simpl. do 3 f_equal.
  rewrite !length_app. simpl. f_equal.
  replace (Z.of_nat (length subs + 2)) with (Z.of_nat (length subs) + 1 * 2)
    by lia.
  now rewrite Z.div_add by lia.
Qed.

Lemma coverage_listing_length svc f covs : forall k,
  length (coverage_listing svc f k covs) = (2 * length covs)%nat.
Proof.
  induction covs as [| [[name title] abstract] covs IH]; intros k;
    [reflexivity |].
  simpl. rewrite IH. lia.
Qed.

Lemma first_name_key : EQUAL ("SUBDATASET_" +:+ fmt_d 1 +:+ "_NAME")
                             "SUBDATASET_1_NAME" = true.
Proof. vm_compute. reflexivity. Qed.

Lemma single_listing_fetch svc f name title abstract :
  CSLFetchNameValue (coverage_listing svc f 1 [(name, title, abstract)])
    "SUBDATASET_1_NAME"
  = Some (coverage_identifier svc f name).
Proof.
  unfold coverage_listing. cbn [app CSLFetchNameValue].
  now rewrite first_name_key.
Qed.

(** X9: OpenRaster on a data source whose sub-dataset list is empty.  It
    fails, leaving the data source as it was, unless the probe finds the
    table raster_coverages exactly once and the table has at least one row.
    Otherwise it lists one NAME/DESC pair per row that has a name for which
    a coverage can be resolved, numbered from 1 in row order.  When the
    number of listed coverages is not one, it returns true exactly when one
    was listed and changes nothing but the list, which GetMetadata then
    answers in the SUBDATASETS domain when two or more are listed.  When
    exactly one coverage is listed, the call is that of OpenRasterSubDataset
    on the listed identifier. *)
Theorem OpenRaster_lists_coverages svc cat this :
  m_aosSubDatasets this = [] ->
  let r := OpenRaster svc cat this in
  ((forall rows, probe_raster_coverages cat = Some 1 ->
      query_coverages cat = Some rows -> rows = []) ->
   r = (false, this, [])) /\
  (forall rows,
     probe_raster_coverages cat = Some 1 ->
     query_coverages cat = Some rows -> rows <> [] ->
     let covs := loadable_coverages svc rows in
     let listing := coverage_listing svc (m_pszFilename this) 1 covs in
     (length covs <> 1%nat ->
        r = (negb (Z.of_nat (length covs) =? 0),
             set_subdatasets listing this, []) /\
        forall d pam, EQUAL d "SUBDATASETS" = true ->
          GetMetadata (snd (fst r)) (Some d) pam
          = if decide (2 <= length covs)%nat then listing else pam (Some d)) /\
     (forall name title abstract, covs = [(name, title, abstract)] ->
        r = OpenRasterSubDataset svc (set_subdatasets listing this)
              (coverage_identifier svc (m_pszFilename this) name))).
Proof.
  intros Hnil r. subst r. split.
  - intros Hnone. unfold OpenRaster.
    destruct (probe_raster_coverages cat) as [n |]; [| reflexivity].
    destruct (n =? 1) eqn:Hn; [| reflexivity]. apply Z.eqb_eq in Hn as ->.
    simpl. destruct (query_coverages cat) as [rows |]; [| reflexivity].
    now rewrite (Hnone rows eq_refl eq_refl).
  - intros rows Hp Hq Hrows covs listing. unfold OpenRaster.
    rewrite Hp, Hq. simpl.
    replace (0 <? Z.of_nat (length rows)) with true
      by (symmetry; apply Z.ltb_lt; destruct rows; [congruence | simpl; lia]).
    simpl. rewrite Hnil, coverage_rows_listed. simpl.
    change (Z.of_nat 0 / 2 + 1) with 1. fold covs. fold listing.
    pose proof (coverage_listing_length svc (m_pszFilename this) covs 1)
      as Hlen. fold listing in Hlen.
    split.
    + intros Hne.
      replace (Z.of_nat (length listing) =? 2) with false
        by (symmetry; apply Z.eqb_neq; lia).
      replace (Z.of_nat (length listing) =? 0)
        with (Z.of_nat (length covs) =? 0).
      2:{ destruct (Z.eqb_spec (Z.of_nat (length covs)) 0);
            [symmetry; apply Z.eqb_eq | symmetry; apply Z.eqb_neq]; lia. }
      split; [reflexivity |].
      intros d pam Hd. unfold GetMetadata. simpl. rewrite Hd. simpl.
      destruct (decide (2 <= length covs)%nat).
      * now replace (2 <? Z.of_nat (length listing)) with true
          by (symmetry; apply Z.ltb_lt; lia).
      * now replace (2 <? Z.of_nat (length listing)) with false
          by (symmetry; apply Z.ltb_ge; lia).
    + intros name title abstract Hone.
      subst listing. rewrite Hone, single_listing_fetch. reflexivity.
Qed.

Lemma OpenRaster_lists_coverages_witness :
  fst (fst (OpenRaster rgb_services two_coverage_catalog (Sample.fresh [])))
    = true /\
  map fst
    (GetMetadata
       (snd (fst (OpenRaster rgb_services two_coverage_catalog
                    (Sample.fresh []))))
       (Some "subdatasets") (fun _ => []))
    = ["SUBDATASET_1_NAME"; "SUBDATASET_1_DESC";
       "SUBDATASET_2_NAME"; "SUBDATASET_2_DESC"].
Proof.
  destruct (proj2 (OpenRaster_lists_coverages rgb_services two_coverage_catalog
                     (Sample.fresh []) eq_refl)
              _ eq_refl eq_refl ltac:(discriminate)) as [Hmulti _].
  destruct (Hmulti ltac:(vm_compute; discriminate)) as [Hr Hmeta].
  split.
  - rewrite Hr. vm_compute. reflexivity.
  - rewrite (Hmeta "subdatasets" (fun _ => []) eq_refl). vm_compute.
    reflexivity.
Defined.

(* ===================================================================== *)
(** ** Block reading: failures, sibling caches and band order *)
(* ===================================================================== *)

(** X10: a read that fails leaves the caller's block and the caches of
    all bands as they were.  When the storage primitive fails nothing is
    logged and nothing is released; whenever it delivered a buffer, that
    buffer is released exactly once, as the last thing done. *)
Theorem IReadBlock_failure_and_release svc poGDS b x y pData cache :
  let r := IReadBlock svc poGDS b x y pData cache in
  (rb_err r = CE_Failure -> rb_pData r = pData /\ rb_cache r = cache) /\
  (fetch_block svc poGDS b x y = None ->
   rb_err r = CE_Failure /\ rb_events r = []) /\
  (forall pBuffer, fetch_block svc poGDS b x y = Some pBuffer ->
   exists before,
     rb_events r = before ++ [EvFree] /\ EvFree ∉ before).
Proof.
  intros r. subst r. unfold IReadBlock.
  destruct (fetch_block svc poGDS b x y) as [pBuffer |].
  - destruct (negb _); simpl.
    + split; [auto |]. split; [discriminate |].
      intros _ _. eexists [_]. split; [reflexivity |].
      intros H. apply list_elem_of_singleton in H. discriminate.
    + split; [discriminate |]. split; [discriminate |].
      intros _ _. exists []. split; [reflexivity |]. apply not_elem_of_nil.
  - simpl. split; [auto |]. split; [auto | discriminate].
Qed.

(** What a key of the cache holds after the sibling blocks were filled
    from the bands in [l]. *)
Lemma fill_sibling_fold svc pBuffer nBand_ x y nDTSize nBands nWords l :
  forall cache iBand bx by_,
    fold_left (fill_sibling svc pBuffer nBand_ x y nDTSize nBands nWords)
      l cache !! (iBand, bx, by_)
    = match cache !! (iBand, bx, by_) with
      | Some v => Some v
      | None =>
          if decide (iBand ∈ l /\ iBand <> nBand_ /\ bx = x /\ by_ = y /\
                     GetLockedBlockRef_ok svc iBand x y = true)
          then Some (GDALCopyWords pBuffer ((iBand - 1) * nDTSize)
                       (nDTSize * nBands) nDTSize nWords)
          else None
      end.
Proof.
  induction l as [| a l IH]; intros cache iBand bx by_.
  - cbn [fold_left]. destruct (cache !! (iBand, bx, by_)); [reflexivity |].
    rewrite decide_False; [reflexivity |].
    intros (H & _). now apply elem_of_nil in H.
  - cbn [fold_left]. rewrite IH. unfold fill_sibling.
    destruct (Z.eqb_spec a nBand_) as [-> | Hne].
    { destruct (cache !! (iBand, bx, by_)); [reflexivity |].
      apply decide_ext. rewrite elem_of_cons. intuition congruence. }
    destruct (cache !! (a, x, y)) as [w |] eqn:Hw.
    { destruct (cache !! (iBand, bx, by_)) eqn:Hk; [reflexivity |].
      apply decide_ext. rewrite elem_of_cons.
      split; [tauto |]. intros ([-> | Hin] & H1 & -> & -> & H2); [| tauto].
      congruence. }
    destruct (GetLockedBlockRef_ok svc a x y) eqn:Hok.
    + destruct (decide ((iBand, bx, by_) = (a, x, y))) as [[= -> -> ->] | Hk].
      * rewrite lookup_insert_eq, Hw. rewrite decide_True; [reflexivity |].
        rewrite elem_of_cons. tauto.
      * rewrite lookup_insert_ne by congruence.
        destruct (cache !! (iBand, bx, by_)); [reflexivity |].
        apply decide_ext. rewrite elem_of_cons.
        split; [tauto |]. intros ([-> | Hin] & H1 & -> & -> & H2); [| tauto].
        congruence.
    + destruct (cache !! (iBand, bx, by_)); [reflexivity |].
      apply decide_ext. rewrite elem_of_cons.
      split; [tauto |]. intros ([-> | Hin] & H1 & -> & -> & H2); [| tauto].
      congruence.
Qed.

(** X11: what a read does to the block caches of the bands.  A block
    that is cached is never replaced or dropped, and no block is ever added
    for the band that is read.  After a successful read of a dataset of
    more than one band, a block that was not cached is present exactly when
    it is the block of the same coordinates of another band of the dataset
    and that band's block could be obtained; it then holds the words of that
    band taken from the buffer of the storage.  With a single band, or when
    the read fails, the caches are unchanged. *)
Theorem IReadBlock_sibling_caches svc poGDS b x y pData cache :
  let r := IReadBlock svc poGDS b x y pData cache in
  let nBands := GetRasterCount poGDS in
  let nDTSize := GDALGetDataTypeSizeBytes (eDataType b) in
  (forall key v, cache !! key = Some v -> rb_cache r !! key = Some v) /\
  (forall bx by_,
     rb_cache r !! (nBand b, bx, by_) = cache !! (nBand b, bx, by_)) /\
  (forall pBuffer,
     fetch_block svc poGDS b x y = Some pBuffer -> rb_err r = CE_None ->
     forall iBand bx by_, cache !! (iBand, bx, by_) = None ->
       rb_cache r !! (iBand, bx, by_)
       = if decide (1 < nBands /\ 1 <= iBand <= nBands /\ iBand <> nBand b /\
                    bx = x /\ by_ = y /\
                    GetLockedBlockRef_ok svc iBand x y = true)
         then Some (GDALCopyWords pBuffer ((iBand - 1) * nDTSize)
                      (nDTSize * nBands) nDTSize
                      (wrap_int (nBlockXSize b * nBlockYSize b)))
         else None).
Proof.
  intros r nBands nDTSize. subst r. unfold IReadBlock.
  fold nBands nDTSize.
  destruct (fetch_block svc poGDS b x y) as [pBuffer |].
  2:{ simpl. split; [auto |]. split; [auto | discriminate]. }
  destruct (negb _).
  { simpl. split; [auto |]. split; [auto |]. intros ? _ ?. discriminate. }
  simpl. destruct (Z.ltb_spec 1 nBands) as [Hn | Hn].
  - split; [| split].
    + intros [[iBand bx] by_] v Hv. now rewrite fill_sibling_fold, Hv.
    + intros bx by_. rewrite fill_sibling_fold.
      destruct (cache !! (nBand b, bx, by_)); [reflexivity |].
      rewrite decide_False; [reflexivity | tauto].
    + intros ? [= <-] _ iBand bx by_ Hk.
      rewrite fill_sibling_fold, Hk. apply decide_ext.
      rewrite elem_of_seqZ. split; [intros; repeat split; lia || tauto |].
      intros (_ & H1 & H2). split; [lia | tauto].
  - split; [auto |]. split; [auto |].
    intros ? _ _ iBand bx by_ Hk. rewrite Hk.
    rewrite decide_False; [reflexivity |]. intros (H & _). lia.
Qed.

(** Element [j] of chunk [i] of a concatenation of chunks, the chunks
    before it having [n] elements each. *)
Lemma flat_map_chunk_lookup {A B} (f : A -> list B) (n : nat) l :
  forall (i j : nat) x,
    (forall (i' : nat) y, (i' < i)%nat -> l !! i' = Some y -> length (f y) = n) ->
    l !! i = Some x -> (j < length (f x))%nat ->
    flat_map f l !! (i * n + j)%nat = f x !! j.
Proof.
  induction l as [| a l IH]; intros i j x Hlen Hi Hj; [discriminate |].
  destruct i as [| i]; simpl in *.
  - injection Hi as ->. now rewrite lookup_app_l.
  - pose proof (Hlen 0%nat a ltac:(lia) eq_refl) as Ha.
    rewrite lookup_app_r by lia. rewrite Ha.
    replace (n + i * n + j - n)%nat with (i * n + j)%nat by lia.
    apply IH; [| exact Hi | exact Hj].
    intros i' y' Hlt Hy. apply (Hlen (S i') y'); [lia | exact Hy].
Qed.

(** Byte [j] of word [k] of the destination of the strided copy. *)
Lemma GDALCopyWords_lookup pSrc off stride size count (k j : nat) :
  0 <= off -> 0 <= stride -> 0 <= size ->
  Z.of_nat k < count -> Z.of_nat j < size ->
  off + Z.of_nat k * stride + size <= Z.of_nat (length pSrc) ->
  GDALCopyWords pSrc off stride size count !! (k * Z.to_nat size + j)%nat
  = pSrc !! (Z.to_nat (off + Z.of_nat k * stride) + j)%nat.
Proof.
  intros Hoff Hstride Hsize Hk Hj Hlen. unfold GDALCopyWords.
  assert (forall i : nat, (i <= k)%nat ->
            length (take (Z.to_nat size)
                      (drop (Z.to_nat (off + Z.of_nat i * stride)) pSrc))
            = Z.to_nat size) as Hchunk.
  { intros i Hi. rewrite length_take, length_drop.
    assert (Z.of_nat i * stride <= Z.of_nat k * stride) by nia. lia. }
  rewrite (flat_map_chunk_lookup _ (Z.to_nat size) _ k j (Z.of_nat k)).
  - rewrite lookup_take_lt by lia. now rewrite lookup_drop.
  - intros i' y' Hlt Hy. apply lookup_seqZ in Hy as [-> _].
    rewrite Z.add_0_l. apply Hchunk. lia.
  - apply lookup_seqZ. split; lia.
  - rewrite Z.add_0_l || idtac. rewrite Hchunk by lia. lia.
Qed.

Lemma GDALCopyWords_length pSrc off stride size count :
  0 <= off -> 0 <= stride -> 0 <= size -> 0 < count ->
  off + (count - 1) * stride + size <= Z.of_nat (length pSrc) ->
  length (GDALCopyWords pSrc off stride size count)
  = (Z.to_nat count * Z.to_nat size)%nat.
Proof.
  intros Hoff Hstride Hsize Hcount Hlen. unfold GDALCopyWords.
  assert (forall l : list Z, (forall k, k ∈ l -> 0 <= k < count) ->
            length (flat_map
                      (fun k => take (Z.to_nat size)
                                  (drop (Z.to_nat (off + k * stride)) pSrc)) l)
            = (length l * Z.to_nat size)%nat) as Hgen.
  { induction l as [| a l IH]; intros Hl; [reflexivity |].
    simpl. rewrite length_app, IH.
    - f_equal. rewrite length_take, length_drop.
      assert (0 <= a < count) as Ha by (apply Hl; left).
      assert (a * stride <= (count - 1) * stride) by nia. lia.
    - intros k Hk. apply Hl. now right. }
  rewrite Hgen, length_seqZ; [reflexivity |].
  intros k Hk. apply elem_of_seqZ in Hk. lia.
Qed.

(** X12: a successful read that does not collapse 1-bit samples delivers
    the words of the band asked out of a buffer that holds the bands of
    each pixel side by side: byte j of pixel k of the block is byte j of
    word k * nBands + (nBand - 1) of the buffer.  The block is written over
    its first width * height * bytes-per-sample bytes and kept beyond.  The
    sizes are positive, their product fits an int, and the band number is
    one of the dataset's. *)
Theorem IReadBlock_band_words svc poGDS b x y pData cache pBuffer :
  let nDTSize := GDALGetDataTypeSizeBytes (eDataType b) in
  let nBands := GetRasterCount poGDS in
  let nWords := nBlockXSize b * nBlockYSize b in
  let r := IReadBlock svc poGDS b x y pData cache in
  fetch_block svc poGDS b x y = Some pBuffer ->
  rb_err r = CE_None ->
  collapses poGDS = false ->
  0 < nBlockXSize b -> 0 < nBlockYSize b -> 0 < nDTSize ->
  1 <= nBand b <= nBands ->
  nWords * nDTSize * nBands <= INT_MAX ->
  drop (Z.to_nat (nWords * nDTSize)) (rb_pData r)
    = drop (Z.to_nat (nWords * nDTSize)) pData /\
  forall k j, 0 <= k < nWords -> 0 <= j < nDTSize ->
    rb_pData r !! Z.to_nat (k * nDTSize + j)
    = pBuffer !! Z.to_nat ((k * nBands + (nBand b - 1)) * nDTSize + j).
Proof.
  intros nDTSize nBands nWords r Hf Hok Hcol Hx Hy Hd Hb Hmax.
  destruct (IReadBlock_success _ _ _ _ _ _ _ Hok)
    as (pBuffer' & Hf' & Hlen & Hdata).
  assert (pBuffer' = pBuffer) as -> by congruence.
  fold r in Hdata. rewrite Hcol in Hdata. fold nDTSize nBands in Hdata, Hlen.
  assert (0 < nBands) as Hn by lia.
  rewrite (expected_bytes_all_bands_exact b nBands Hx Hy Hd Hn Hmax) in Hlen.
  fold nDTSize nWords in Hlen.
  assert (0 < nWords) as Hw by (subst nWords; nia).
  assert (nWords <= nWords * nDTSize) as Hw1 by nia.
  assert (nWords * nDTSize <= nWords * nDTSize * nBands) as Hw2 by nia.
  assert (wrap_int (nBlockXSize b * nBlockYSize b) = nWords) as Hwrap.
  { apply wrap_int_id. unfold INT_MIN. unfold INT_MAX in *. lia. }
  rewrite Hwrap in Hdata.
  set (written := GDALCopyWords pBuffer ((nBand b - 1) * nDTSize)
                    (nDTSize * nBands) nDTSize nWords) in *.
  assert (length written = Z.to_nat (nWords * nDTSize)) as Hlw.
  { subst written. rewrite GDALCopyWords_length; [nia | nia | nia | lia | lia |].
    rewrite Hlen. nia. }
  rewrite Hdata. unfold overwrite. split.
  - rewrite <- Hlw. now rewrite drop_app_length.
  - intros k j Hk Hj.
    rewrite lookup_app_l by (rewrite Hlw; nia).
    replace (Z.to_nat (k * nDTSize + j))
      with (Z.to_nat k * Z.to_nat nDTSize + Z.to_nat j)%nat by nia.
    subst written. rewrite GDALCopyWords_lookup; [| nia | nia | lia | lia | lia |].
    + f_equal. nia.
    + rewrite Hlen. rewrite !Z2Nat.id by lia. nia.
Qed.

Lemma IReadBlock_band_words_witness :
  rb_pData (IReadBlock small_rgb_services small_rgb_opened small_rgb_green
              0 0 [0; 0; 0; 0; 77] ∅) !! 1%nat = Some 22.
Proof.
  assert (fetch_block small_rgb_services small_rgb_opened small_rgb_green 0 0
          = Some small_rgb_buffer) as Hf by (vm_compute; reflexivity).
  assert (rb_err (IReadBlock small_rgb_services small_rgb_opened
                    small_rgb_green 0 0 [0; 0; 0; 0; 77] ∅) = CE_None) as Hok
    by (vm_compute; reflexivity).
  assert (collapses small_rgb_opened = false) as Hcol
    by (vm_compute; reflexivity).
  assert (0 < nBlockXSize small_rgb_green) as Hx by (vm_compute; reflexivity).
  assert (0 < nBlockYSize small_rgb_green) as Hy by (vm_compute; reflexivity).
  assert (0 < GDALGetDataTypeSizeBytes (eDataType small_rgb_green)) as Hd
    by (vm_compute; reflexivity).
  assert (1 <= nBand small_rgb_green <= GetRasterCount small_rgb_opened) as Hb
    by (vm_compute; split; discriminate).
  assert (nBlockXSize small_rgb_green * nBlockYSize small_rgb_green
            * GDALGetDataTypeSizeBytes (eDataType small_rgb_green)
            * GetRasterCount small_rgb_opened <= INT_MAX) as Hmax
    by (vm_compute; discriminate).
  assert (0 <= 1 < nBlockXSize small_rgb_green * nBlockYSize small_rgb_green)
    as Hk by (vm_compute; split; [discriminate | reflexivity]).
  assert (0 <= 0 < GDALGetDataTypeSizeBytes (eDataType small_rgb_green))
    as Hj by (vm_compute; split; [discriminate | reflexivity]).
  pose proof (IReadBlock_band_words small_rgb_services small_rgb_opened
                small_rgb_green 0 0 [0; 0; 0; 0; 77] ∅ small_rgb_buffer) as H.
  cbv zeta in H.
  destruct (H Hf Hok Hcol Hx Hy Hd Hb Hmax) as [_ Hw].
  refine (eq_trans _ (eq_trans (Hw 1 0 Hk Hj) _)); vm_compute; reflexivity.
Defined.

Lemma IReadBlock_sibling_caches_witness :
  rb_cache (IReadBlock small_rgb_services small_rgb_opened small_rgb_green
              0 0 [0; 0; 0; 0; 77] ∅) !! (1, 0, 0) = Some [11; 21; 31; 41].
Proof.
  assert (fetch_block small_rgb_services small_rgb_opened small_rgb_green 0 0
          = Some small_rgb_buffer) as Hf by (vm_compute; reflexivity).
  assert (rb_err (IReadBlock small_rgb_services small_rgb_opened
                    small_rgb_green 0 0 [0; 0; 0; 0; 77] ∅) = CE_None) as Hok
    by (vm_compute; reflexivity).
  pose proof (IReadBlock_sibling_caches small_rgb_services small_rgb_opened
                small_rgb_green 0 0 [0; 0; 0; 0; 77] ∅) as H.
  cbv zeta in H. destruct H as (_ & _ & H).
  assert ((∅ : BlockCache) !! (1, 0, 0) = None) as He
    by (vm_compute; reflexivity).
  rewrite (H small_rgb_buffer Hf Hok 1 0 0 He). vm_compute. reflexivity.
Defined.

Lemma block_request_of cov poGDS b x y :
  block_coverage poGDS = Some cov ->
  rq_coverage (block_request poGDS b x y) = Some cov /\
  rq_out_pixel (block_request poGDS b x y) = requested_pixel cov /\
  rq_section (block_request poGDS b x y)
    = (if fetch_by_section poGDS then Some (m_nSectionId poGDS) else None) /\
  rq_width (block_request poGDS b x y) = nBlockXSize b /\
  rq_height (block_request poGDS b x y) = nBlockYSize b /\
  rq_xres (block_request poGDS b x y) = x_resolution poGDS /\
  rq_yres (block_request poGDS b x y)
    = Double.fabs (gt5 (m_adfGeoTransform poGDS)) /\
  rq_minx (block_request poGDS b x y)
    = Double.add (gt0 (m_adfGeoTransform poGDS))
        (Double.mul (Double.of_int (wrap_int (x * nBlockXSize b)))
           (gt1 (m_adfGeoTransform poGDS))) /\
  rq_maxx (block_request poGDS b x y)
    = Double.add (rq_minx (block_request poGDS b x y))
        (Double.mul (Double.of_int (nBlockXSize b))
           (gt1 (m_adfGeoTransform poGDS))) /\
  rq_maxy (block_request poGDS b x y)
    = Double.add (gt3 (m_adfGeoTransform poGDS))
        (Double.mul (Double.of_int (wrap_int (y * nBlockYSize b)))
           (gt5 (m_adfGeoTransform poGDS))) /\
  rq_miny (block_request poGDS b x y)
    = Double.add (rq_maxy (block_request poGDS b x y))
        (Double.mul (Double.of_int (nBlockYSize b))
           (gt5 (m_adfGeoTransform poGDS))).
Proof.
  intros Hcov. unfold block_request. rewrite Hcov. simpl.
  repeat split; reflexivity.
Qed.

(** X13: which storage primitive the reads of an opened chain go
    through.  Every read, on the base dataset or on an overview, is made on
    the coverage handle of the base, asks for grayscale pixels when the
    coverage is 1-bit monochrome and for the coverage's pixel type
    otherwise, and asks for a block of the band's block size at the
    resolution of the dataset read: its x resolution and the absolute
    value of the sixth coefficient of its geotransform, over the window of
    the block, which starts at the block offset times the block size from
    the origin of the dataset and spans one block.  On the base dataset
    the section-scoped
    primitive is used exactly when a section is selected; on an overview it
    is used only when, in addition, the coverage has mixed resolutions: the
    overviews of a coverage of uniform resolution are read through the
    whole-coverage primitive even when a section is selected. *)
Theorem opened_block_requests svc this conn ds' ev :
  m_poParentDS this = None -> m_apoOverviewDS this = [] ->
  OpenRasterSubDataset svc this conn = (true, ds', ev) ->
  exists cov,
    m_pRL2Coverage ds' = Some cov /\
    let selected := 0 <=? m_nSectionId ds' in
    let mixed := negb (cov_mixed_resolutions cov =? 0) in
    forall poGDS by_section,
      poGDS = ds' /\ by_section = selected \/
      poGDS ∈ m_apoOverviewDS ds' /\ by_section = selected && mixed ->
      forall b x y,
        let rq := block_request poGDS b x y in
        fetch_block svc poGDS b x y = raw_primitive svc by_section rq /\
        rq_coverage rq = Some cov /\
        rq_out_pixel rq = requested_pixel cov /\
        rq_section rq
          = (if by_section then Some (m_nSectionId ds') else None) /\
        rq_width rq = nBlockXSize b /\ rq_height rq = nBlockYSize b /\
        rq_xres rq = x_resolution poGDS /\
        rq_yres rq = Double.fabs (gt5 (m_adfGeoTransform poGDS)) /\
        rq_minx rq
          = Double.add (gt0 (m_adfGeoTransform poGDS))
              (Double.mul (Double.of_int (wrap_int (x * nBlockXSize b)))
                 (gt1 (m_adfGeoTransform poGDS))) /\
        rq_maxx rq
          = Double.add (rq_minx rq)
              (Double.mul (Double.of_int (nBlockXSize b))
                 (gt1 (m_adfGeoTransform poGDS))) /\
        rq_maxy rq
          = Double.add (gt3 (m_adfGeoTransform poGDS))
              (Double.mul (Double.of_int (wrap_int (y * nBlockYSize b)))
                 (gt5 (m_adfGeoTransform poGDS))) /\
        rq_miny rq
          = Double.add (rq_maxy rq)
              (Double.mul (Double.of_int (nBlockYSize b))
                 (gt5 (m_adfGeoTransform poGDS))).
Proof.
  intros Hparent Hnil Hopen.
  pose proof (OpenRasterSubDataset_overviews_derived _ _ _ _ _ Hnil Hopen)
    as Hder.
  destruct (OpenRasterSubDataset_base _ _ _ _ _ Hopen)
    as (cov & d & g & Hds & _ & _ & Hpar & _ & _ & _ & Hcov & _).
  destruct (instanciate_overviews_frame svc cov d) as [ovs Hframe].
  rewrite Hframe in Hds.
  assert (m_pRL2Coverage ds' = Some cov) as Hc by (now rewrite Hds).
  assert (m_poParentDS ds' = None) as Hp
    by (rewrite Hds; simpl; congruence).
  assert (m_bRL2MixedResolutions ds' = negb (cov_mixed_resolutions cov =? 0))
    as Hm by (now rewrite Hds).
  exists cov. split; [exact Hc |].
  intros selected mixed poGDS by_section Hwhich b x y rq.
  assert (block_coverage poGDS = Some cov /\
          fetch_by_section poGDS = by_section /\
          m_nSectionId poGDS = m_nSectionId ds') as (Hbc & Hfs & Hsid).
  { destruct Hwhich as [[-> ->] | [Ho ->]].
    - unfold block_coverage, fetch_by_section, has_parent. rewrite Hp.
      split; [exact Hc |]. split; [| reflexivity].
      subst selected. simpl. now rewrite orb_true_r, andb_true_r.
    - destruct (Hder poGDS Ho)
        as [(_ & Hlink & _ & _ & Hs & _ & Hmx & _) _].
      unfold block_coverage, fetch_by_section, has_parent.
      rewrite Hlink, Hs, Hmx, Hm. split; [exact Hc |].
      split; [| reflexivity]. subst selected mixed. simpl.
      now rewrite orb_false_r. }
  destruct (block_request_of cov poGDS b x y Hbc)
    as (H1 & H2 & H3 & H4 & H5 & H6 & H7 & H8 & H9 & H10 & H11).
  fold rq in H1, H2, H3, H4, H5, H6, H7, H8, H9, H10, H11.
  split.
  { unfold fetch_block, raw_primitive. fold rq. rewrite Hfs.
    now destruct by_section. }
  rewrite Hfs, Hsid in H3.
  repeat (split; [assumption |]). assumption.
Qed.

Lemma opened_block_requests_witness :
  rq_out_pixel (block_request mono_overview mono_overview_band 0 0)
    = RL2_PIXEL_GRAYSCALE /\
  rq_section (block_request mono_overview mono_overview_band 0 0) = None /\
  rq_xres (block_request mono_overview mono_overview_band 0 0)
    = Double.of_int 2 /\
  rq_yres (block_request mono_overview mono_overview_band 0 0)
    = Double.of_int 2 /\
  rq_maxx (block_request mono_overview mono_overview_band 0 0)
    = Double.of_int 4 /\
  rq_miny (block_request mono_overview mono_overview_band 0 0)
    = Double.of_int 996.
Proof.
  destruct (opened_block_requests mono_services
              (Sample.fresh [("1BIT_AS_8BIT", "NO")]) coverage_id
              mono_opened _ eq_refl eq_refl
              (OpenRasterSubDataset_true_eta mono_services
                 (Sample.fresh [("1BIT_AS_8BIT", "NO")]) coverage_id eq_refl))
    as (cov & Hc & H).
  assert (m_pRL2Coverage mono_opened = Some Sample.mono) as H0
    by (vm_compute; reflexivity).
  assert (cov = Sample.mono) as -> by congruence.
  cbv zeta in H.
  assert (mono_overview ∈ m_apoOverviewDS mono_opened) as Ho
    by (apply (list_elem_of_lookup_2 _ 0%nat); vm_compute; reflexivity).
  destruct (H mono_overview _ (or_intror (conj Ho eq_refl))
              mono_overview_band 0 0)
    as (_ & _ & H2 & H3 & _ & _ & H6 & H7 & H8 & H9 & H10 & H11).
  split; [rewrite H2; vm_compute; reflexivity |].
  split; [rewrite H3; vm_compute; reflexivity |].
  split; [rewrite H6; vm_compute; reflexivity |].
  split; [rewrite H7; vm_compute; reflexivity |].
  split; [rewrite H9, H8; vm_compute; reflexivity |].
  rewrite H11, H10. vm_compute. reflexivity.
Defined.

(* ===================================================================== *)
(** ** Ingestion: the transaction and the coverage created *)
(* ===================================================================== *)

Lemma select_srs_id_events ing poSrcDS papszOptions e :
  e ∈ snd (select_srs_id ing poSrcDS papszOptions) -> exists msg, e = EvWarning msg.
Proof.
  unfold select_srs_id. repeat case_match; simpl; intros Hin;
    try (now apply elem_of_nil in Hin).
  apply list_elem_of_singleton in Hin. eauto.
Qed.

(** What resolving or creating the coverage can log. *)
Lemma resolve_or_create_coverage_events ing name st pt n c q tw th :
  let r := resolve_or_create_coverage ing name st pt n c q tw th in
  snd r = [] \/
  (coverage_rows ing name <> 1 /\ rl2_create_pixel_ok ing st pt n = true /\
   (snd r = [EvCreateCoverage name st pt n c q tw th] \/
    fst r = None /\
    snd r = [EvCreateCoverage name st pt n c q tw th;
             EvError "rl2_create_dbms_coverage() failed"])).
Proof.
  unfold resolve_or_create_coverage.
  destruct (Z.eqb_spec (coverage_rows ing name) 1) as [He | Hne].
  - destruct (existing_coverage ing name); now left.
  - destruct (rl2_create_pixel_ok ing st pt n); simpl; [| now left].
    right. split; [exact Hne |]. split; [reflexivity |].
    destruct (rl2_create_dbms_coverage_ok ing); simpl; auto.
Qed.

Ltac same_events :=
  f_equal; repeat (cbn [app]; rewrite <- ?app_assoc); reflexivity.

(** The course of an ingestion that passes the pre-flight checks and has
    a supported data type: the events up to the point where it stops. *)
Lemma OGRSQLiteDriverCreateCopy_course svc ing pszName poSrcDS papszOptions st :
  CreateCopy_preflight poSrcDS papszOptions = None ->
  select_sample_type (src_band_type poSrcDS 0) = Some st ->
  let r := OGRSQLiteDriverCreateCopy svc ing pszName poSrcDS papszOptions in
  let nBandCount := Z.of_nat (length (src_bands poSrcDS)) mod 256 in
  let pt := select_pixel_type poSrcDS papszOptions (src_band_type poSrcDS 0)
              nBandCount in
  let name := CSLFetchNameValueDef papszOptions "COVERAGE"
                (CPLGetBasename ing pszName) in
  let cq := compression_and_quality papszOptions in
  let tw := atoi (CSLFetchNameValueDef papszOptions "BLOCKXSIZE" "512")
              mod 2 ^ 32 in
  let th := atoi (CSLFetchNameValueDef papszOptions "BLOCKYSIZE" "512")
              mod 2 ^ 32 in
  let rc := resolve_or_create_coverage ing name st pt nBandCount
              (fst cq) (snd cq) tw th in
  exists ev_store ev_srs,
    (ev_store = EvOpenStore pszName \/
     exists options, ev_store = EvCreateStore pszName options) /\
    (forall e, e ∈ ev_srs -> exists msg, e = EvWarning msg) /\
    (r = (None, [ev_store]) \/
     (exists msg,
        r = (None, ev_store :: ev_srs
                     ++ [EvStartTransaction; EvCreateRasterCoveragesTable;
                         EvError msg])) \/
     exists ev_table,
       (ev_table = [] \/ ev_table = [EvCreateRasterCoveragesTable]) /\
       let pre := ev_store :: ev_srs ++ [EvStartTransaction] ++ ev_table
                    ++ snd rc in
       (fst rc = None /\ r = (None, pre)) \/
       (fst rc <> None /\
        exists section,
          r = (None, pre ++ [EvLoadTiles name section;
                             EvError "rl2_load_raw_tiles_into_dbms() failed"]) \/
          exists conn,
            r = (Some (reopened ing conn),
                 pre ++ [EvLoadTiles name section; EvCommitTransaction;
                         EvReopen conn]))).
Proof.
  intros Hpre Hst r nBandCount pt name cq tw th rc. subst r.
  unfold OGRSQLiteDriverCreateCopy. rewrite Hpre, Hst.
  fold nBandCount. fold pt. fold tw th. fold name.
  destruct (compression_and_quality papszOptions) as [c q] eqn:Hcq.
  subst cq. cbn [fst snd] in rc.
  set (store :=
         match CSLFetchNameValue papszOptions "APPEND_SUBDATASET" with
         | Some _ => (ds_Open ing pszName, EvOpenStore pszName)
         | None =>
             (ds_Create ing pszName
                (CSLSetNameValue papszOptions "SPATIALITE" "YES"),
              EvCreateStore pszName
                (CSLSetNameValue papszOptions "SPATIALITE" "YES"))
         end).
  assert (snd store = EvOpenStore pszName \/
          exists options, snd store = EvCreateStore pszName options) as Hstore.
  { subst store. destruct (CSLFetchNameValue papszOptions "APPEND_SUBDATASET");
      simpl; eauto. }
  destruct store as [opened ev_store]. cbn [snd] in Hstore.
  destruct (select_srs_id ing poSrcDS papszOptions) as [nSRSId ev_srs] eqn:Hsrs.
  exists ev_store, ev_srs. split; [exact Hstore |]. split.
  { intros e He. apply (select_srs_id_events ing poSrcDS papszOptions).
    now rewrite Hsrs. }
  destruct opened; cbn [negb]; [| now left].
  right.
  destruct (has_raster_coverages_table ing).
  - right. exists []. split; [now left |]. fold rc.
    destruct rc as [[cvg |] ev_cov]; cbn [fst snd].
    + right. split; [discriminate |]. eexists.
      destruct (rl2_load_raw_tiles_into_dbms_ok ing); cbn [negb].
      * right. eexists. same_events.
      * left. same_events.
    + left. split; [reflexivity |]. same_events.
  - destruct (CreateRasterCoveragesTable ing) as [msg |].
    + left. eexists. same_events.
    + right. exists [EvCreateRasterCoveragesTable]. split; [now right |].
      fold rc. destruct rc as [[cvg |] ev_cov]; cbn [fst snd].
      * right. split; [discriminate |]. eexists.
        destruct (rl2_load_raw_tiles_into_dbms_ok ing); cbn [negb].
        -- right. eexists. same_events.
        -- left. same_events.
      * left. split; [reflexivity |]. same_events.
Qed.

Lemma warnings_only (l : list Event) (P : Event -> bool) :
  (forall msg, P (EvWarning msg) = false) ->
  (forall e, e ∈ l -> exists msg, e = EvWarning msg) ->
  Forall (fun e => P e = false) l.
Proof.
  intros HP Hl. apply Forall_forall. intros e He.
  destruct (Hl e He) as [msg ->]. apply HP.
Qed.

(** X14: the transaction of an ingestion.  The call returns a dataset
    exactly when it logged a commit.  When it does, the events end with the
    loading of the tiles, the commit and the reopening of the coverage, in
    this order; before them the store was opened or created first and the
    transaction was started, and no error was logged.  When it returns a
    null pointer, nothing was committed or reopened. *)
Theorem CreateCopy_commits_on_success_only svc ing pszName poSrcDS papszOptions :
  let r := OGRSQLiteDriverCreateCopy svc ing pszName poSrcDS papszOptions in
  (fst r = None ->
   Forall (fun e => is_commit_or_reopen e = false) (snd r)) /\
  (fst r <> None ->
   exists ev_store pre section conn,
     snd r = ev_store :: pre
               ++ [EvLoadTiles
                     (CSLFetchNameValueDef papszOptions "COVERAGE"
                        (CPLGetBasename ing pszName)) section;
                   EvCommitTransaction; EvReopen conn] /\
     fst r = Some (reopened ing conn) /\
     (ev_store = EvOpenStore pszName \/
      exists options, ev_store = EvCreateStore pszName options) /\
     EvStartTransaction ∈ pre /\
     Forall (fun e => is_commit_or_reopen e = false) (ev_store :: pre) /\
     Forall (fun e => is_error e = false) (snd r)).
Proof.
  intros r. subst r.
  destruct (CreateCopy_preflight poSrcDS papszOptions) as [msg |] eqn:Hpre.
  { unfold OGRSQLiteDriverCreateCopy. rewrite Hpre. simpl.
    split; [intros _; repeat constructor | congruence]. }
  destruct (select_sample_type (src_band_type poSrcDS 0)) as [st |] eqn:Hst.
  2:{ unfold OGRSQLiteDriverCreateCopy. rewrite Hpre, Hst. simpl.
      split; [intros _; repeat constructor | congruence]. }
  destruct (OGRSQLiteDriverCreateCopy_course svc ing pszName poSrcDS
              papszOptions st Hpre Hst)
    as (ev_store & ev_srs & Hstore & Hsrs & Hr).
  cbv zeta in Hr.
  set (rc := resolve_or_create_coverage _ _ _ _ _ _ _ _ _) in Hr.
  assert (is_commit_or_reopen ev_store = false /\ is_error ev_store = false)
    as [Hs1 Hs2].
  { destruct Hstore as [-> | [options ->]]; split; reflexivity. }
  pose proof (warnings_only ev_srs is_commit_or_reopen (fun _ => eq_refl) Hsrs)
    as Hw1.
  pose proof (warnings_only ev_srs is_error (fun _ => eq_refl) Hsrs) as Hw2.
  assert (Forall (fun e => is_commit_or_reopen e = false) (snd rc) /\
          (fst rc <> None -> Forall (fun e => is_error e = false) (snd rc)))
    as [Hc1 Hc2].
  { subst rc.
    destruct (resolve_or_create_coverage_events ing
                (CSLFetchNameValueDef papszOptions "COVERAGE"
                   (CPLGetBasename ing pszName)) st
                (select_pixel_type poSrcDS papszOptions
                   (src_band_type poSrcDS 0)
                   (Z.of_nat (length (src_bands poSrcDS)) mod 256))
                (Z.of_nat (length (src_bands poSrcDS)) mod 256)
                (fst (compression_and_quality papszOptions))
                (snd (compression_and_quality papszOptions))
                (atoi (CSLFetchNameValueDef papszOptions "BLOCKXSIZE" "512")
                   mod 2 ^ 32)
                (atoi (CSLFetchNameValueDef papszOptions "BLOCKYSIZE" "512")
                   mod 2 ^ 32))
      as [-> | (_ & _ & [-> | [Hn ->]])];
      split; repeat constructor; intros; try contradiction. }
  destruct Hr as [-> | [[msg ->] | (ev_table & Htable & Hr)]]; cbn [fst snd].
  - split; [intros _; repeat constructor; exact Hs1 | congruence].
  - split; [| congruence]. intros _. constructor; [exact Hs1 |].
    apply Forall_app. split; [exact Hw1 | repeat constructor].
  - assert (Forall (fun e => is_commit_or_reopen e = false) ev_table /\
            Forall (fun e => is_error e = false) ev_table) as [Ht1 Ht2].
    { destruct Htable as [-> | ->]; split; repeat constructor. }
    assert (Forall (fun e => is_commit_or_reopen e = false)
              (ev_store :: ev_srs ++ [EvStartTransaction] ++ ev_table
                 ++ snd rc)) as Hpre1.
    { constructor; [exact Hs1 |]. apply Forall_app. split; [exact Hw1 |].
      apply Forall_app. split; [repeat constructor |].
      apply Forall_app. split; [exact Ht1 | exact Hc1]. }
    cbv zeta in Hr.
    destruct Hr as [[Hnone ->] | (Hsome & section & [-> | [conn ->]])];
      cbn [fst snd].
    + split; [intros _; exact Hpre1 | congruence].
    + split; [| congruence]. intros _. rewrite app_comm_cons.
      apply Forall_app. split; [exact Hpre1 | repeat constructor].
    + split; [congruence |]. intros _.
      exists ev_store,
        (ev_srs ++ [EvStartTransaction] ++ ev_table ++ snd rc), section, conn.
      split; [reflexivity |]. split; [reflexivity |].
      split; [exact Hstore |]. split.
      { apply elem_of_app. right. now left. }
      split; [exact Hpre1 |].
      rewrite app_comm_cons. apply Forall_app. split; [| repeat constructor].
      constructor; [exact Hs2 |]. apply Forall_app. split; [exact Hw2 |].
      apply Forall_app. split; [repeat constructor |].
      apply Forall_app. split; [exact Ht2 | now apply Hc2].
Qed.

Lemma select_sample_type_reads_back eDT st :
  select_sample_type eDT = Some st ->
  exists bSigned,
    sample_format st = Some (8 * GDALGetDataTypeSizeBytes eDT, eDT, bSigned).
Proof. destruct eDT; intros [= <-]; eexists; reflexivity. Qed.

Lemma CreateCopy_preflight_band_count poSrcDS papszOptions :
  CreateCopy_preflight poSrcDS papszOptions = None ->
  1 <= Z.of_nat (length (src_bands poSrcDS)) <= 255.
Proof.
  unfold CreateCopy_preflight.
  destruct (Z.eqb_spec (Z.of_nat (length (src_bands poSrcDS))) 0);
    [discriminate |].
  destruct (Z.ltb_spec 255 (Z.of_nat (length (src_bands poSrcDS))));
    [discriminate |].
  intros _. lia.
Qed.

(** X15: the coverage that an ingestion creates.  A coverage is created
    only when the store does not hold exactly one coverage of that name and
    a default no-data pixel could be made; it is named by the COVERAGE
    option, or else after the target file.  Its band count is that of the
    source, between 1 and 255; its sample type is the one selected for the
    data type of the first source band, and reading a coverage of that
    sample type gives back that data type, at 8 bits per byte of it; its
    pixel type, compression, quality and tile size are the ones selected
    from the options. *)
Theorem CreateCopy_creates_what_it_selects svc ing pszName poSrcDS papszOptions
    name st pt n c q tw th :
  EvCreateCoverage name st pt n c q tw th
    ∈ snd (OGRSQLiteDriverCreateCopy svc ing pszName poSrcDS papszOptions) ->
  let eDT := src_band_type poSrcDS 0 in
  coverage_rows ing name <> 1 /\
  rl2_create_pixel_ok ing st pt n = true /\
  name = CSLFetchNameValueDef papszOptions "COVERAGE"
           (CPLGetBasename ing pszName) /\
  n = Z.of_nat (length (src_bands poSrcDS)) /\ 1 <= n <= 255 /\
  select_sample_type eDT = Some st /\
  (exists bSigned,
     sample_format st = Some (8 * GDALGetDataTypeSizeBytes eDT, eDT, bSigned)) /\
  pt = select_pixel_type poSrcDS papszOptions eDT n /\
  (c, q) = compression_and_quality papszOptions /\
  tw = atoi (CSLFetchNameValueDef papszOptions "BLOCKXSIZE" "512") mod 2 ^ 32 /\
  th = atoi (CSLFetchNameValueDef papszOptions "BLOCKYSIZE" "512") mod 2 ^ 32.
Proof.
  intros Hin eDT.
  destruct (CreateCopy_preflight poSrcDS papszOptions) as [msg |] eqn:Hpre.
  { unfold OGRSQLiteDriverCreateCopy in Hin. rewrite Hpre in Hin. simpl in Hin.
    apply list_elem_of_singleton in Hin. discriminate. }
  destruct (select_sample_type (src_band_type poSrcDS 0)) as [st' |] eqn:Hst.
  2:{ unfold OGRSQLiteDriverCreateCopy in Hin. rewrite Hpre, Hst in Hin.
      simpl in Hin. apply list_elem_of_singleton in Hin. discriminate. }
  pose proof (CreateCopy_preflight_band_count _ _ Hpre) as Hcount.
  destruct (OGRSQLiteDriverCreateCopy_course svc ing pszName poSrcDS
              papszOptions st' Hpre Hst)
    as (ev_store & ev_srs & Hstore & Hsrs & Hr).
  cbv zeta in Hr.
  rewrite (Z.mod_small (Z.of_nat (length (src_bands poSrcDS))) 256) in Hr
    by lia.
  set (rc := resolve_or_create_coverage _ _ _ _ _ _ _ _ _) in Hr.
  assert (EvCreateCoverage name st pt n c q tw th ∈ snd rc) as Hrc.
  { assert (EvCreateCoverage name st pt n c q tw th <> ev_store) as Hs
      by (destruct Hstore as [-> | [options ->]]; discriminate).
    assert (EvCreateCoverage name st pt n c q tw th ∉ ev_srs) as Hw
      by (intros Hw; destruct (Hsrs _ Hw); discriminate).
    destruct Hr as [Hr | [[msg Hr] | (ev_table & Htable & Hr)]].
    - rewrite Hr in Hin. apply list_elem_of_singleton in Hin. congruence.
    - rewrite Hr in Hin. cbn [snd] in Hin.
      apply elem_of_cons in Hin as [Hin | Hin]; [congruence |].
      apply elem_of_app in Hin as [Hin | Hin]; [contradiction |].
      repeat (apply elem_of_cons in Hin as [Hin | Hin]; [discriminate |]).
      now apply elem_of_nil in Hin.
    - assert (EvCreateCoverage name st pt n c q tw th ∉ ev_table) as Ht.
      { destruct Htable as [-> | ->]; intros Ht;
          [now apply elem_of_nil in Ht |].
        apply list_elem_of_singleton in Ht. discriminate. }
      cbv zeta in Hr.
      assert (forall tail,
                EvCreateCoverage name st pt n c q tw th
                  ∈ (ev_store :: ev_srs ++ [EvStartTransaction] ++ ev_table
                       ++ snd rc) ++ tail ->
                EvCreateCoverage name st pt n c q tw th ∉ tail ->
                EvCreateCoverage name st pt n c q tw th ∈ snd rc) as Hpre'.
      { intros tail H Htail.
        apply elem_of_app in H as [H | H]; [| contradiction].
        apply elem_of_cons in H as [H | H]; [congruence |].
        apply elem_of_app in H as [H | H]; [contradiction |].
        apply elem_of_app in H as [H | H];
          [apply list_elem_of_singleton in H; discriminate |].
        apply elem_of_app in H as [H | H]; [contradiction | exact H]. }
      destruct Hr as [[_ Hr] | (_ & section & [Hr | [conn Hr]])];
        rewrite Hr in Hin; cbn [snd] in Hin.
      + apply (Hpre' []); [now rewrite app_nil_r | apply not_elem_of_nil].
      + apply (Hpre' _ Hin). intros H.
        repeat (apply elem_of_cons in H as [H | H]; [discriminate |]).
        now apply elem_of_nil in H.
      + apply (Hpre' _ Hin). intros H.
        repeat (apply elem_of_cons in H as [H | H]; [discriminate |]).
        now apply elem_of_nil in H. }
  subst rc.
  match type of Hrc with
  | _ ∈ snd (resolve_or_create_coverage ?i ?a1 ?a2 ?a3 ?a4 ?a5 ?a6 ?a7 ?a8) =>
      destruct (resolve_or_create_coverage_events i a1 a2 a3 a4 a5 a6 a7 a8)
        as [He | (Hrows & Hpx & [He | [_ He]])];
        rewrite He in Hrc
  end.
  - now apply elem_of_nil in Hrc.
  - apply list_elem_of_singleton in Hrc.
    injection Hrc as -> -> -> -> -> -> -> ->.
    destruct (select_sample_type_reads_back _ _ Hst) as [bSigned Hfmt].
    repeat split; try assumption; try lia; eauto using surjective_pairing.
  - apply elem_of_cons in Hrc as [Hrc | Hrc];
      [| apply list_elem_of_singleton in Hrc; discriminate].
    injection Hrc as -> -> -> -> -> -> -> ->.
    destruct (select_sample_type_reads_back _ _ Hst) as [bSigned Hfmt].
    repeat split; try assumption; try lia; eauto using surjective_pairing.
Qed.

Lemma CreateCopy_creates_what_it_selects_witness :
  coverage_rows Sample.ingest "out" <> 1 /\
  select_sample_type (src_band_type (Sample.source 0) 0)
    = Some RL2_SAMPLE_UINT8.
Proof.
  assert (EvCreateCoverage "out" RL2_SAMPLE_UINT8 RL2_PIXEL_DATAGRID 1
            RL2_COMPRESSION_JPEG 75 512 512
          ∈ snd (OGRSQLiteDriverCreateCopy mono_services Sample.ingest
                   "out.sqlite" (Sample.source 0) [("COMPRESS", "JPEG")]))
    as Hin.
  { apply (list_elem_of_lookup_2 _ 3%nat). vm_compute. reflexivity. }
  pose proof (CreateCopy_creates_what_it_selects _ _ _ _ _ _ _ _ _ _ _ _ _ Hin)
    as H.
  cbv zeta in H. destruct H as (H1 & _ & _ & _ & _ & H6 & _).
  split; [exact H1 | exact H6].
Defined.

(** X16: the default no-data pixel of a coverage whose pixel type is
    inferred (no PIXEL_TYPE option).  For a source that passes the
    pre-flight checks and has a supported data type, when the source has
    one band, or its first band is 8-bit or 16-bit unsigned, the pixel gets
    exactly one sample per band, for the bands 0, 1, ... in order, without
    reaching an assertion; every sample is 255 when the source has several
    8-bit bands and 0 in all other cases.  For a source of several bands of
    any other data type the pixel type falls back to grayscale, no sample is
    set and an assertion is reached. *)
Theorem default_nodata_of_inferred_pixel_type ok poSrcDS papszOptions st :
  CreateCopy_preflight poSrcDS papszOptions = None ->
  CSLFetchNameValue papszOptions "PIXEL_TYPE" = None ->
  let eDT := src_band_type poSrcDS 0 in
  let n := Z.of_nat (length (src_bands poSrcDS)) in
  let pt := select_pixel_type poSrcDS papszOptions eDT n in
  select_sample_type eDT = Some st ->
  ok st pt n = true ->
  exists d,
    CreateDefaultNoData ok st pt n = Some d /\
    if (n =? 1) || bool_decide (eDT = GDT_Byte) || bool_decide (eDT = GDT_UInt16)
    then dn_asserted d = false /\
         map sample_band (dn_samples d) = seqZ 0 n /\
         Forall (fun s => sample_value s
                          = Double.of_int
                              (if (1 <? n) && bool_decide (eDT = GDT_Byte)
                               then 255 else 0))
                (dn_samples d)
    else pt = RL2_PIXEL_GRAYSCALE /\ dn_asserted d = true /\ dn_samples d = [].
Proof.
  intros Hpre Hpt eDT n pt Hst Hok.
  pose proof (CreateCopy_preflight_band_count _ _ Hpre) as Hn. fold n in Hn.
  unfold CreateDefaultNoData. rewrite Hok. cbn [negb].
  subst pt. unfold select_pixel_type. rewrite Hpt. fold eDT.
  destruct (Z.eqb_spec n 1) as [H1 | H1].
  - rewrite H1. cbn [Z.eqb Z.ltb Z.compare andb orb].
    destruct eDT; try discriminate; injection Hst as <-;
      eexists; (split; [reflexivity |]); cbn;
      repeat split; repeat constructor.
  - replace (1 <? n) with true by (symmetry; apply Z.ltb_lt; lia).
    assert (forall (f : Z -> PixelSample) v,
              (forall nb, sample_band (f nb) = nb) ->
              (forall nb, sample_value (f nb) = Double.of_int v) ->
              map sample_band (map f (seqZ 0 n)) = seqZ 0 n /\
              Forall (fun s => sample_value s = Double.of_int v)
                (map f (seqZ 0 n))) as Hmany.
    { intros f v Hb Hv. split.
      - rewrite map_map. rewrite (map_ext _ id) by exact Hb. apply map_id.
      - apply Forall_forall. intros s (nb & -> & _)%list_elem_of_fmap.
        apply Hv. }
    destruct eDT eqn:E; try discriminate; injection Hst as <-; cbn.
    + (* Byte *)
      destruct (_ && bool_decide (src_band_color poSrcDS 2 = GCI_BlueBand))
        eqn:Hrgb.
      * apply andb_true_iff in Hrgb as [Hrgb _].
        apply andb_true_iff in Hrgb as [Hrgb _].
        apply andb_true_iff in Hrgb as [Hrgb _].
        apply andb_true_iff in Hrgb as [Hrgb _].
        apply Z.eqb_eq in Hrgb. rewrite Hrgb.
        eexists. split; [reflexivity |]. cbn. repeat split;
          repeat constructor.
      * eexists. split; [reflexivity |]. cbn [dn_asserted dn_samples].
        split; [reflexivity |].
        apply (Hmany (fun nb => set_pixel_sample_uint8 nb 255) 255);
          reflexivity.
    + (* UInt16 *)
      destruct (_ && bool_decide (src_band_color poSrcDS 2 = GCI_BlueBand))
        eqn:Hrgb.
      * apply andb_true_iff in Hrgb as [Hrgb _].
        apply andb_true_iff in Hrgb as [Hrgb _].
        apply andb_true_iff in Hrgb as [Hrgb _].
        apply andb_true_iff in Hrgb as [Hrgb _].
        apply Z.eqb_eq in Hrgb. rewrite Hrgb.
        eexists. split; [reflexivity |]. cbn. repeat split;
          repeat constructor.
      * eexists. split; [reflexivity |]. cbn [dn_asserted dn_samples].
        split; [reflexivity |].
        apply (Hmany (fun nb => set_pixel_sample_uint16 nb 0) 0);
          reflexivity.
    + rewrite !andb_false_r. replace (n =? 1) with false
        by (symmetry; apply Z.eqb_neq; lia).
      eexists. split; [reflexivity |]. repeat split.
    + rewrite !andb_false_r. replace (n =? 1) with false
        by (symmetry; apply Z.eqb_neq; lia).
      eexists. split; [reflexivity |]. repeat split.
    + rewrite !andb_false_r. replace (n =? 1) with false
        by (symmetry; apply Z.eqb_neq; lia).
      eexists. split; [reflexivity |]. repeat split.
    + rewrite !andb_false_r. replace (n =? 1) with false
        by (symmetry; apply Z.eqb_neq; lia).
      eexists. split; [reflexivity |]. repeat split.
    + rewrite !andb_false_r. replace (n =? 1) with false
        by (symmetry; apply Z.eqb_neq; lia).
      eexists. split; [reflexivity |]. repeat split.
Qed.

Lemma default_nodata_of_inferred_pixel_type_witness :
  exists d,
    CreateDefaultNoData (fun _ _ _ => true) RL2_SAMPLE_UINT8
      RL2_PIXEL_MULTIBAND 3 = Some d /\
    dn_asserted d = false /\
    map sample_band (dn_samples d) = [0; 1; 2].
Proof.
  destruct (default_nodata_of_inferred_pixel_type (fun _ _ _ => true)
              three_band_source [] RL2_SAMPLE_UINT8
              eq_refl eq_refl eq_refl eq_refl) as (d & Hd & H1 & H2 & _).
  exists d. split; [exact Hd |]. split; [exact H1 | exact H2].
Defined.

(* ===================================================================== *)
(** ** Ingestion: the tile callback *)
(* ===================================================================== *)

Lemma clip_request_spec nOff nOff2 nRasterSize :
  0 <= nOff <= nOff2 -> nOff2 <= INT_MAX -> 0 <= nRasterSize <= INT_MAX ->
  nOff + fst (clip_request nOff nOff2 nRasterSize) = Z.min nOff2 nRasterSize /\
  snd (clip_request nOff nOff2 nRasterSize) = (nRasterSize <? nOff2).
Proof.
  intros H1 H2 H3. unfold clip_request.
  destruct (Z.ltb_spec nRasterSize nOff2); cbn [fst snd];
    rewrite wrap_int_id by (unfold INT_MIN, INT_MAX in *; lia);
    split; [lia | reflexivity | lia | reflexivity].
Qed.

(** X17: the window that the tile callback reads.  For a tile whose pixel
    window starts inside the non-negative quadrant and is not reversed, the
    read starts at the tile's offsets and ends at the tile's end or at the
    edge of the source, whichever comes first, so that it never goes past
    the right or bottom edge.  When the tile lies within the source the
    buffer is handed to the read as it is; when it extends past an edge,
    the bytes of the whole tile are set to zero first.  The callback returns
    FALSE without calling the progress function when the read fails; after
    a successful read it returns TRUE when there is no progress function,
    and otherwise what that function answers to the fraction of rows
    done. *)
Theorem RasterLite2Callback_window pCbkData dfTileMinX dfTileMinY dfTileMaxX
    dfTileMaxY pabyBuffer :
  let gt := adfGeoTransform pCbkData in
  let nXOff := tile_offset dfTileMinX (gt0 gt) (gt1 gt) in
  let nXOff2 := tile_offset dfTileMaxX (gt0 gt) (gt1 gt) in
  let nYOff := tile_offset dfTileMaxY (gt3 gt) (gt5 gt) in
  let nYOff2 := tile_offset dfTileMinY (gt3 gt) (gt5 gt) in
  let nXSize := src_xsize (poSrcDS pCbkData) in
  let nYSize := src_ysize (poSrcDS pCbkData) in
  let nTileBytes :=
    (nXOff2 - nXOff) * (nYOff2 - nYOff)
      * Z.of_nat (length (src_bands (poSrcDS pCbkData)))
      * GDALGetDataTypeSizeBytes (src_band_type (poSrcDS pCbkData) 0) in
  let req :=
    callback_request pCbkData dfTileMinX dfTileMinY dfTileMaxX dfTileMaxY
      pabyBuffer in
  let r :=
    RasterLite2Callback pCbkData dfTileMinX dfTileMinY dfTileMaxX dfTileMaxY
      pabyBuffer in
  0 <= nXOff <= nXOff2 -> 0 <= nYOff <= nYOff2 ->
  0 <= nXSize <= INT_MAX -> 0 <= nYSize <= INT_MAX ->
  nTileBytes < 2 ^ 64 ->
  (rio_xoff (fst req) = nXOff /\ rio_yoff (fst req) = nYOff /\
   rio_xoff (fst req) + rio_xsize (fst req) = Z.min nXOff2 nXSize /\
   rio_yoff (fst req) + rio_ysize (fst req) = Z.min nYOff2 nYSize) /\
  (nXOff2 <= nXSize /\ nYOff2 <= nYSize -> snd req = pabyBuffer) /\
  (nXSize < nXOff2 \/ nYSize < nYOff2 ->
   take (Z.to_nat nTileBytes) (snd req) = replicate (Z.to_nat nTileBytes) 0 /\
   drop (Z.to_nat nTileBytes) (snd req)
     = drop (Z.to_nat nTileBytes) pabyBuffer) /\
  (src_RasterIO pCbkData (fst req) (snd req) = None ->
   cbr_ok r = false /\ cbr_buffer r = snd req /\ cbr_progress r = None) /\
  (forall filled,
     src_RasterIO pCbkData (fst req) (snd req) = Some filled ->
     cbr_buffer r = filled /\
     match pfnProgress pCbkData with
     | None => cbr_ok r = true /\ cbr_progress r = None
     | Some progress =>
         let dfComplete :=
           Double.div (Double.of_int (Z.min nYOff2 nYSize))
                      (Double.of_int nYSize) in
         cbr_ok r = progress dfComplete /\ cbr_progress r = Some dfComplete
     end).
Proof.
  intros gt nXOff nXOff2 nYOff nYOff2 nXSize nYSize nTileBytes req r
         Hx Hy Hxs Hys Hbytes.
  pose proof (to_int_range
                (Double.add Double.half
                   (Double.div (Double.sub dfTileMaxX (gt0 gt)) (gt1 gt))))
    as Hx2. fold (tile_offset dfTileMaxX (gt0 gt) (gt1 gt)) in Hx2.
  fold nXOff2 in Hx2.
  pose proof (to_int_range
                (Double.add Double.half
                   (Double.div (Double.sub dfTileMinY (gt3 gt)) (gt5 gt))))
    as Hy2. fold (tile_offset dfTileMinY (gt3 gt) (gt5 gt)) in Hy2.
  fold nYOff2 in Hy2.
  destruct (clip_request_spec nXOff nXOff2 nXSize Hx (proj2 Hx2) Hxs)
    as [Hcx Hbx].
  destruct (clip_request_spec nYOff nYOff2 nYSize Hy (proj2 Hy2) Hys)
    as [Hcy Hby].
  assert (wrap_int (nXOff2 - nXOff) = nXOff2 - nXOff) as Hwx
    by (apply wrap_int_id; unfold INT_MIN, INT_MAX in *; lia).
  assert (wrap_int (nYOff2 - nYOff) = nYOff2 - nYOff) as Hwy
    by (apply wrap_int_id; unfold INT_MIN, INT_MAX in *; lia).
  assert (0 <= nTileBytes) as Hpos.
  { subst nTileBytes.
    assert (0 <= GDALGetDataTypeSizeBytes
                   (src_band_type (poSrcDS pCbkData) 0))
      by (destruct (src_band_type (poSrcDS pCbkData) 0); simpl; lia).
    apply Z.mul_nonneg_nonneg; [| assumption].
    apply Z.mul_nonneg_nonneg; [| lia].
    apply Z.mul_nonneg_nonneg; lia. }
  subst req r. unfold RasterLite2Callback, callback_request.
  fold gt. fold nXOff nXOff2 nYOff nYOff2 nXSize nYSize.
  rewrite Hwx, Hwy. fold nTileBytes.
  rewrite (Z.mod_small nTileBytes) by lia.
  destruct (clip_request nXOff nXOff2 nXSize) as [nReqXSize bClipX].
  destruct (clip_request nYOff nYOff2 nYSize) as [nReqYSize bClipY].
  cbn [fst snd] in *. subst bClipX bClipY.
  split; [auto |]. split; [| split].
  - intros [H1 H2].
    replace (nXSize <? nXOff2) with false by (symmetry; apply Z.ltb_ge; lia).
    replace (nYSize <? nYOff2) with false by (symmetry; apply Z.ltb_ge; lia).
    reflexivity.
  - intros Hclip.
    replace ((nXSize <? nXOff2) || (nYSize <? nYOff2)) with true.
    2:{ symmetry. apply orb_true_iff.
        destruct Hclip; [left | right]; apply Z.ltb_lt; lia. }
    unfold zero_fill, overwrite. rewrite length_replicate. split.
    + now rewrite take_app_length' by (symmetry; apply length_replicate).
    + now rewrite drop_app_length' by (symmetry; apply length_replicate).
  - match goal with
    | |- context [src_RasterIO pCbkData ?q ?b] =>
        destruct (src_RasterIO pCbkData q b) as [filled |]
    end.
    + split; [discriminate |]. intros ? [= <-].
      destruct (pfnProgress pCbkData) as [progress |]; cbn.
      * rewrite Hcy.
        rewrite (wrap_int_id (Z.min nYOff2 nYSize))
          by (unfold INT_MIN, INT_MAX in *; lia).
        auto.
      * auto.
    + split; [auto | discriminate].
Qed.

Lemma RasterLite2Callback_window_witness :
  rio_xoff (fst sample_tile_request) + rio_xsize (fst sample_tile_request) = 10 /\
  take 48 (snd sample_tile_request) = replicate 48 0.
Proof.
  pose proof (RasterLite2Callback_window sample_callback_data (Double.of_int 8)
                (Double.of_int 6) (Double.of_int 12) (Double.of_int 10)
                (replicate 50 7)) as H.
  cbv zeta in H.
  destruct H as ((_ & _ & H3 & _) & _ & H5 & _).
  - vm_compute. split; discriminate.
  - vm_compute. split; discriminate.
  - vm_compute. split; discriminate.
  - vm_compute. split; discriminate.
  - vm_compute. reflexivity.
  - unfold sample_tile_request. split.
    + rewrite H3. vm_compute. reflexivity.
    + destruct H5 as [H5 _]; [left; vm_compute; reflexivity |].
      refine (eq_trans _ (eq_trans H5 _)); vm_compute; reflexivity.
Defined.

(* ===================================================================== *)
(** ** The colour table of a band *)
(* ===================================================================== *)

Lemma palette_entries_lookup b colors (i : nat) e :
  palette_entries b colors !! i = Some e ->
  colors !! i = Some (c1 e, c2 e, c3 e) /\
  c4 e = (if m_bHasNoData b
             && Double.eqb (Double.of_int (Z.of_nat i)) (m_dfNoDataValue b)
          then 0 else 255).
Proof.
  unfold palette_entries. rewrite list_lookup_imap.
  destruct (colors !! i) as [[[r g] bl] |]; [| discriminate].
  simpl. intros [= <-]. split; reflexivity.
Qed.

(** X18: the colour table of a band.  A table that the band already holds
    is answered as it is, without consulting the store.  A band that holds
    none gets one only if its colour interpretation is the palette index
    and the store has a palette for the coverage: the table then has one
    entry per colour of the palette, in order, with the red, green and blue
    of that colour; an entry is fully transparent exactly when the band has
    a no-data value equal to its index, and opaque otherwise.  A palette
    whose colours cannot be read gives an empty table. *)
Theorem GetColorTable_entries palette poGDS b m_poCT :
  let ct := GetColorTable palette poGDS b m_poCT in
  let stored := palette (rl2_get_coverage_name (m_pRL2Coverage poGDS)) in
  (forall t, m_poCT = Some t -> ct = Some t) /\
  (m_poCT = None ->
   (m_eColorInterp b <> GCI_PaletteIndex \/ stored = None -> ct = None) /\
   (m_eColorInterp b = GCI_PaletteIndex ->
    forall palettePtr, stored = Some palettePtr ->
      match pal_colors palettePtr with
      | None => ct = Some []
      | Some colors =>
          exists entries,
            ct = Some entries /\ length entries = length colors /\
            forall (i : nat) e, entries !! i = Some e ->
              colors !! i = Some (c1 e, c2 e, c3 e) /\
              (c4 e = 0 \/ c4 e = 255) /\
              (c4 e = 0 <->
               m_bHasNoData b = true /\
               Double.eqb (Double.of_int (Z.of_nat i)) (m_dfNoDataValue b)
                 = true)
      end)).
Proof.
  intros ct stored. subst ct. unfold GetColorTable. fold stored.
  split; [now intros t -> |]. intros ->. split.
  - intros [Hci | Hst].
    + now rewrite bool_decide_eq_false_2.
    + rewrite Hst. now destruct (bool_decide _).
  - intros Hci palettePtr Hst.
    rewrite Hst, bool_decide_eq_true_2 by exact Hci.
    destruct (pal_colors palettePtr) as [colors |]; [| reflexivity].
    eexists. split; [reflexivity |]. split.
    + unfold palette_entries. apply length_imap.
    + intros i e He. apply palette_entries_lookup in He as [Hc Ha].
      split; [exact Hc |].
      destruct (m_bHasNoData b
                && Double.eqb (Double.of_int (Z.of_nat i)) (m_dfNoDataValue b))
        eqn:Hnd; rewrite Ha.
      * apply andb_true_iff in Hnd. split; [now left |]. tauto.
      * split; [now right |]. split; [discriminate |].
        intros [H1 H2]. rewrite H1, H2 in Hnd. discriminate.
Qed.

Lemma GetColorTable_entries_witness :
  exists entries,
    GetColorTable two_colors rgb_opened palette_band None = Some entries /\
    length entries = 2%nat.
Proof.
  destruct (GetColorTable_entries two_colors rgb_opened palette_band None)
    as [_ H].
  destruct (H eq_refl) as [_ H2].
  destruct (H2 eq_refl _ eq_refl) as (entries & He & Hlen & _).
  exists entries. split; [exact He | exact Hlen].
Defined.

(* ===================================================================== *)
(** ** Metadata: compression, overview bands and the section listing *)
(* ===================================================================== *)

Ltac in_list := apply list_elem_of_In; simpl; auto 20.

(** The codes that the COMPRESS option can select. *)
Lemma select_compression_codes papszOptions :
  fst (select_compression papszOptions)
    ∈ [RL2_COMPRESSION_NONE; RL2_COMPRESSION_DEFLATE; RL2_COMPRESSION_LZMA;
       RL2_COMPRESSION_PNG; RL2_COMPRESSION_CCITTFAX4; RL2_COMPRESSION_JPEG;
       RL2_COMPRESSION_LOSSY_WEBP; RL2_COMPRESSION_CHARLS;
       RL2_COMPRESSION_LOSSY_JP2].
Proof.
  unfold select_compression.
  destruct (CSLFetchNameValue papszOptions "COMPRESS") as [v |];
    [| in_list].
  repeat match goal with
         | |- context [if EQUAL v ?s then _ else _] => destruct (EQUAL v s)
         end; cbn [fst]; in_list.
Qed.

Lemma compression_and_quality_codes papszOptions :
  fst (compression_and_quality papszOptions)
    ∈ [RL2_COMPRESSION_NONE; RL2_COMPRESSION_DEFLATE; RL2_COMPRESSION_LZMA;
       RL2_COMPRESSION_PNG; RL2_COMPRESSION_CCITTFAX4; RL2_COMPRESSION_JPEG;
       RL2_COMPRESSION_LOSSY_WEBP; RL2_COMPRESSION_CHARLS;
       RL2_COMPRESSION_LOSSY_JP2; RL2_COMPRESSION_LOSSLESS_WEBP;
       RL2_COMPRESSION_LOSSLESS_JP2].
Proof.
  unfold compression_and_quality.
  pose proof (select_compression_codes papszOptions) as H.
  destruct (select_compression papszOptions) as [c q]. cbn [fst] in H.
  assert (c ∈ [RL2_COMPRESSION_NONE; RL2_COMPRESSION_DEFLATE;
               RL2_COMPRESSION_LZMA; RL2_COMPRESSION_PNG;
               RL2_COMPRESSION_CCITTFAX4; RL2_COMPRESSION_JPEG;
               RL2_COMPRESSION_LOSSY_WEBP; RL2_COMPRESSION_CHARLS;
               RL2_COMPRESSION_LOSSY_JP2; RL2_COMPRESSION_LOSSLESS_WEBP;
               RL2_COMPRESSION_LOSSLESS_JP2]) as H'.
  { repeat (apply elem_of_cons in H as [-> | H]; [in_list |]).
    now apply elem_of_nil in H. }
  destruct (CSLFetchNameValue papszOptions "QUALITY") as [v |];
    [| exact H'].
  repeat match goal with
         | |- context [if ?b then _ else _] => destruct b
         end; cbn [fst]; first [exact H' | in_list].
Qed.

(** X19: how the codec selected at ingestion shows when the coverage is
    read.  Whatever the options, the compression selected is NONE or one
    for which the reader has a name; on a coverage that keeps that
    compression and quality the open sets the COMPRESSION item to that name,
    and leaves it alone for NONE.  The QUALITY item is set exactly when the
    quality is not 0 and the compression is JPEG, lossy WEBP or lossy
    JPEG2000; it is therefore not set for the lossless variants that a
    quality of 100 selects. *)
Theorem selected_compression_reads_back papszOptions md :
  let c := fst (compression_and_quality papszOptions) in
  let q := snd (compression_and_quality papszOptions) in
  let md' := compression_metadata c q md in
  let lossy :=
    bool_decide (c = RL2_COMPRESSION_JPEG)
    || bool_decide (c = RL2_COMPRESSION_LOSSY_WEBP)
    || bool_decide (c = RL2_COMPRESSION_LOSSY_JP2) in
  (c = RL2_COMPRESSION_NONE ->
   md' !! ("IMAGE_STRUCTURE", "COMPRESSION")
   = md !! ("IMAGE_STRUCTURE", "COMPRESSION")) /\
  (c <> RL2_COMPRESSION_NONE ->
   exists n, compression_name c = Some n /\
     md' !! ("IMAGE_STRUCTURE", "COMPRESSION") = Some n) /\
  md' !! ("IMAGE_STRUCTURE", "QUALITY")
  = (if negb (q =? 0) && lossy then Some (fmt_d q)
     else md !! ("IMAGE_STRUCTURE", "QUALITY")).
Proof.
  intros c q md' lossy. subst md' lossy.
  pose proof (compression_and_quality_codes papszOptions) as Hc. fold c in Hc.
  unfold compression_metadata, SetMetadataItem.
  assert (forall m : Metadata,
            (if negb (q =? 0)
                && (bool_decide (c = RL2_COMPRESSION_JPEG)
                    || bool_decide (c = RL2_COMPRESSION_LOSSY_WEBP)
                    || bool_decide (c = RL2_COMPRESSION_LOSSY_JP2))
             then <[("IMAGE_STRUCTURE", "QUALITY") := fmt_d q]> m else m)
              !! ("IMAGE_STRUCTURE", "COMPRESSION")
            = m !! ("IMAGE_STRUCTURE", "COMPRESSION")) as Hq.
  { intros m. destruct (negb (q =? 0) && _); [| reflexivity].
    now rewrite lookup_insert_ne by discriminate. }
  split; [| split].
  - intros ->. rewrite Hq. reflexivity.
  - intros Hne. rewrite Hq.
    repeat (apply elem_of_cons in Hc as [-> | Hc];
            [first [congruence
                   | eexists; split; [reflexivity |];
                     cbn [compression_name]; apply lookup_insert_eq] |]).
    now apply elem_of_nil in Hc.
  - destruct (negb (q =? 0) && _).
    + apply lookup_insert_eq.
    + destruct (compression_name c); [| reflexivity].
      now rewrite lookup_insert_ne by discriminate.
Qed.

(** The items of a band made for an overview. *)
Lemma copy_RL2RasterBand_metadata iBand poOther domain name :
  band_metadata (copy_RL2RasterBand iBand poOther) !! (domain, name)
  = if decide (domain = "IMAGE_STRUCTURE" /\
               (name = "NBITS" \/ name = "PIXELTYPE"))
    then band_metadata poOther !! (domain, name) else None.
Proof.
  unfold copy_RL2RasterBand, GetMetadataItem, SetMetadataItem. cbn [band_metadata].
  destruct (decide (domain = "IMAGE_STRUCTURE" /\
                    (name = "NBITS" \/ name = "PIXELTYPE")))
    as [[-> [-> | ->]] | Hno].
  - destruct (band_metadata poOther !! ("IMAGE_STRUCTURE", "PIXELTYPE"));
      [rewrite lookup_insert_ne by discriminate
      | rewrite lookup_delete_ne by discriminate];
      destruct (band_metadata poOther !! ("IMAGE_STRUCTURE", "NBITS"));
      [apply lookup_insert_eq | apply lookup_delete_eq
      | apply lookup_insert_eq | apply lookup_delete_eq].
  - destruct (band_metadata poOther !! ("IMAGE_STRUCTURE", "PIXELTYPE"));
      [apply lookup_insert_eq | apply lookup_delete_eq].
  - assert ((domain, name) <> ("IMAGE_STRUCTURE", "PIXELTYPE") /\
            (domain, name) <> ("IMAGE_STRUCTURE", "NBITS")) as [H1 H2].
    { split; intros [= -> ->]; apply Hno; auto. }
    destruct (band_metadata poOther !! ("IMAGE_STRUCTURE", "PIXELTYPE"));
      [rewrite lookup_insert_ne by congruence
      | rewrite lookup_delete_ne by congruence];
      (destruct (band_metadata poOther !! ("IMAGE_STRUCTURE", "NBITS"));
       [rewrite lookup_insert_ne by congruence
       | rewrite lookup_delete_ne by congruence]);
      apply lookup_empty.
Qed.

(** X20: the bands of the overviews of an opened dataset.  Every band of
    an overview stands for the band of the same number of the base, with
    its data type, block size, no-data value and colour interpretation.  Of
    the metadata of that band it carries the items NBITS and PIXELTYPE of
    the IMAGE_STRUCTURE domain and nothing else: neither the statistics nor
    the SOURCE_NBITS hint of the base band reach the overview. *)
Theorem overview_bands_carry_structure_only svc this conn ds' ev o ob :
  m_apoOverviewDS this = [] ->
  OpenRasterSubDataset svc this conn = (true, ds', ev) ->
  o ∈ m_apoOverviewDS ds' -> ob ∈ papoBands o ->
  exists b,
    b ∈ papoBands ds' /\ same_band b ob /\
    forall domain name,
      band_metadata ob !! (domain, name)
      = if decide (domain = "IMAGE_STRUCTURE" /\
                   (name = "NBITS" \/ name = "PIXELTYPE"))
        then band_metadata b !! (domain, name) else None.
Proof.
  intros Hnil Hopen Ho Hob.
  destruct (OpenRasterSubDataset_overviews_derived _ _ _ _ _ Hnil Hopen o Ho)
    as [(_ & _ & _ & _ & _ & _ & _ & _ & _ & Hbands & _) _].
  rewrite Hbands in Hob. unfold overview_bands in Hob.
  apply list_elem_of_lookup_1 in Hob as [i Hi].
  rewrite list_lookup_imap in Hi.
  destruct (papoBands ds' !! i) as [b |] eqn:Hb; [| discriminate].
  injection Hi as <-.
  pose proof (OpenRasterSubDataset_bands_numbered _ _ _ _ _ _ _ Hopen Hb)
    as Hnum.
  exists b. split; [eapply list_elem_of_lookup_2; exact Hb |].
  split; [apply copy_RL2RasterBand_same_band; lia |].
  intros domain name. apply copy_RL2RasterBand_metadata.
Qed.

Lemma overview_bands_carry_structure_only_witness :
  exists b,
    b ∈ papoBands mono_opened /\ same_band b mono_overview_band /\
    forall domain name,
      band_metadata mono_overview_band !! (domain, name)
      = if decide (domain = "IMAGE_STRUCTURE" /\
                   (name = "NBITS" \/ name = "PIXELTYPE"))
        then band_metadata b !! (domain, name) else None.
Proof.
  apply (overview_bands_carry_structure_only mono_services
           (Sample.fresh [("1BIT_AS_8BIT", "NO")]) coverage_id mono_opened _
           mono_overview mono_overview_band eq_refl
           (OpenRasterSubDataset_true_eta mono_services
              (Sample.fresh [("1BIT_AS_8BIT", "NO")]) coverage_id eq_refl)).
  - apply (list_elem_of_lookup_2 _ 0%nat). vm_compute. reflexivity.
  - apply (list_elem_of_lookup_2 _ 0%nat). vm_compute. reflexivity.
Defined.

Lemma section_listing_length svc f name sections : forall k,
  length (section_listing svc f name k sections) = (2 * length sections)%nat.
Proof.
  induction sections as [| [id nm] sections IH]; intros k; [reflexivity |].
  simpl. rewrite IH. lia.
Qed.

(** X21: the sub-datasets that GetMetadata shows after an open.  After
    the open of an identifier that names a coverage and no section, on a
    coverage whose section table holds more than one row, the SUBDATASETS
    domain holds the NAME/DESC pairs of the listed sections when at least
    two sections were listed; a single listed section is not shown, and the
    answer is then that of the persisted metadata, as it is for every other
    domain and for a null domain. *)
Theorem GetMetadata_after_open svc this conn cov rows pam :
  STARTS_WITH_CI conn "RASTERLITE2:" = true ->
  let tokens := CSLTokenizeString2 svc conn in
  let name := OGRSQLiteParamsUnquote svc (nth 2 tokens "") in
  length tokens = 3%nat ->
  rl2_create_coverage_from_dbms svc name = Some cov ->
  query_sections svc (name +:+ "_sections") = Some rows ->
  1 < Z.of_nat (length rows) ->
  let ds' := snd (fst (OpenRasterSubDataset svc this conn)) in
  let sections := listable_sections rows in
  (forall d, EQUAL d "SUBDATASETS" = true ->
     GetMetadata ds' (Some d) pam
     = if decide (2 <= length sections)%nat
       then section_listing svc (m_pszFilename this) name 1 sections
       else pam (Some d)) /\
  (forall d, EQUAL d "SUBDATASETS" = false ->
     GetMetadata ds' (Some d) pam = pam (Some d)) /\
  GetMetadata ds' None pam = pam None.
Proof.
  intros Hpre tokens name Hlen Hcov Hq Hn ds' sections.
  assert (named_section svc tokens = -1) as Hnamed
    by (unfold named_section; now rewrite Hlen).
  assert (3 <= Z.of_nat (length tokens)) as Hlen3 by lia.
  pose proof (list_sections_many svc (m_pszFilename this) name rows Hq Hn)
    as Hl.
  destruct (OpenRasterSubDataset_resolved svc this conn tokens name cov (-1)
              _ _ _ Hpre eq_refl eq_refl Hlen3 Hcov (eq_sym Hnamed) Hl)
    as (Hsubs & _).
  fold ds' in Hsubs. fold sections in Hsubs.
  pose proof (section_listing_length svc (m_pszFilename this) name sections 1)
    as Hll.
  unfold GetMetadata. rewrite Hsubs. split; [| split].
  - intros d ->. cbn [andb].
    destruct (decide (2 <= length sections)%nat).
    + now replace (2 <? _) with true by (symmetry; apply Z.ltb_lt; lia).
    + now replace (2 <? _) with false by (symmetry; apply Z.ltb_ge; lia).
  - now intros d ->.
  - reflexivity.
Qed.

Lemma GetMetadata_after_open_witness :
  GetMetadata (snd (fst (Sample.opened two_section_services [])))
    (Some "Subdatasets") (fun _ => [])
  = section_listing two_section_services "f.sqlite" "cov" 1
      [("1", "north"); ("2", "south")].
Proof.
  refine (eq_trans
            (proj1 (GetMetadata_after_open two_section_services
                      (Sample.fresh []) coverage_id Sample.gray
                      Sample.two_sections (fun _ => [])
                      eq_refl eq_refl eq_refl eq_refl _)
               "Subdatasets" eq_refl) _).
  - vm_compute. reflexivity.
  - reflexivity.
Defined.

(* ===================================================================== *)
(** ** Opening a coverage: what the bands and the dataset advertise *)
(* ===================================================================== *)

Lemma attach_band_statistics_structure svc pStatistics nBits bPromote b name :
  band_metadata (attach_band_statistics svc pStatistics nBits bPromote b)
    !! ("IMAGE_STRUCTURE", name)
  = band_metadata b !! ("IMAGE_STRUCTURE", name).
Proof.
  unfold attach_band_statistics.
  destruct (negb _); [| reflexivity].
  destruct (pStatistics _); [| reflexivity].
  unfold SetMetadataItem. cbn [band_metadata set_band_metadata].
  now rewrite !lookup_insert_ne by discriminate.
Qed.

Lemma fetch_statistics_band svc name nSectionId bSingle nBits bPromote bands
    (i : nat) b :
  fetch_statistics svc name nSectionId bSingle nBits bPromote bands !! i
    = Some b ->
  exists b0, bands !! i = Some b0 /\
    m_eColorInterp b = m_eColorInterp b0 /\
    forall item,
      band_metadata b !! ("IMAGE_STRUCTURE", item)
      = band_metadata b0 !! ("IMAGE_STRUCTURE", item).
Proof.
  unfold fetch_statistics.
  destruct ((nSectionId <? 0) || bSingle);
    [| intros H; exists b; repeat split; exact H].
  destruct (rl2_create_raster_statistics_from_dbms svc name) as [st |];
    [| intros H; exists b; repeat split; exact H].
  rewrite list_lookup_fmap.
  destruct (bands !! i) as [b0 |]; [| discriminate].
  simpl. intros [= <-]. exists b0. split; [reflexivity |]. split.
  - apply (attach_band_statistics_keeps svc st nBits bPromote b0).
  - intros item. apply attach_band_statistics_structure.
Qed.

Ltac lookup_items :=
  repeat first [rewrite lookup_insert_eq
               | rewrite lookup_insert_ne by discriminate
               | rewrite lookup_empty];
  reflexivity.

(** X22: what the bands of an opened dataset advertise.  The colour
    interpretation of a band is gray for a monochrome or grayscale
    coverage, the palette index for a palette coverage, red, green and blue
    for the first three bands of an RGB coverage (the interpretation of
    code 3 + i at position i), and undefined for any other pixel type.  In the IMAGE_STRUCTURE domain, a band of a bit depth
    that is not a multiple of 8 carries that depth as NBITS, except that a
    1-bit band promoted to 8 bits carries it as SOURCE_NBITS instead; a band
    of signed 8-bit samples carries PIXELTYPE = SIGNEDBYTE; no band carries
    these items otherwise. *)
Theorem opened_bands_advertise svc this conn ds' ev :
  OpenRasterSubDataset svc this conn = (true, ds', ev) -> bands_advertise ds'.
Proof.
  intros Hopen.
  destruct (OpenRasterSubDataset_opened _ _ _ _ _ Hopen)
    as (cov & subs & sid & bs & g & nBits & eDT & bSigned
        & _ & _ & _ & Hfmt & _ & Hcov & _ & _ & _ & _ & _ & Hbands & _).
  exists cov, nBits, eDT, bSigned.
  split; [exact Hcov |]. split; [exact Hfmt |].
  intros promoted i b Hb. rewrite Hbands in Hb.
  apply fetch_statistics_band in Hb as (b0 & Hb0 & -> & Hitems).
  rewrite !Hitems. clear Hitems.
  unfold make_bands in Hb0. rewrite list_lookup_fmap in Hb0.
  destruct (seqZ 1 (cov_bands cov) !! i) as [k |] eqn:Hk; [| discriminate].
  apply lookup_seqZ in Hk as [-> _]. injection Hb0 as <-.
  assert (nBits mod 8 = 0 -> nBits <> 1) as Hmod
    by (intros H ->; discriminate).
  unfold new_RL2RasterBand, SetMetadataItem. cbn [m_eColorInterp band_metadata].
  fold promoted. split; [| split; [| split]].
  - destruct (cov_pixel cov); try reflexivity. cbn.
    do 2 f_equal. lia.
  - destruct (Z.eqb_spec (nBits mod 8) 0) as [H0 | H0]; cbn [negb andb];
      destruct promoted; cbn [negb]; destruct ((nBits =? 8) && bSigned);
      lookup_items.
  - assert (promoted = true -> (nBits mod 8 =? 0) = false) as Hp.
    { subst promoted. intros H. apply andb_true_iff in H as [H _].
      apply Z.eqb_eq in H. now subst. }
    destruct promoted; [rewrite (Hp eq_refl) |];
      destruct ((nBits =? 8) && bSigned); cbn [negb];
      try destruct (negb (nBits mod 8 =? 0)); lookup_items.
  - destruct ((nBits =? 8) && bSigned); destruct promoted;
      destruct (negb (nBits mod 8 =? 0)); lookup_items.
Qed.

Lemma opened_bands_advertise_witness : bands_advertise rgb_opened.
Proof.
  exact (opened_bands_advertise rgb_services (Sample.fresh []) coverage_id _ _
           (OpenRasterSubDataset_true_eta rgb_services (Sample.fresh [])
              coverage_id eq_refl)).
Defined.

Lemma meaningful_Some s placeholder v :
  meaningful s placeholder = Some v ->
  s = Some v /\ v <> "" /\
  forall p, placeholder = Some p -> EQUAL v p = false.
Proof.
  unfold meaningful. destruct s as [w |]; [| discriminate].
  destruct (String.eqb_spec w "") as [-> | Hne]; [discriminate |].
  destruct placeholder as [p |].
  - destruct (EQUAL w p) eqn:He; [discriminate |]. intros [= <-].
    repeat split; [exact Hne |]. now intros ? [= <-].
  - intros [= <-]. repeat split; [exact Hne |]. discriminate.
Qed.

Ltac lookup_through :=
  repeat first [rewrite lookup_insert_eq
               | rewrite lookup_insert_ne by discriminate];
  try reflexivity.

(** The three descriptive items after the title, abstract and summary
    step, on metadata that did not hold them. *)
Lemma other_metadata_items svc name nSectionId md :
  md !! ("", "COVERAGE_TITLE") = None ->
  md !! ("", "COVERAGE_ABSTRACT") = None ->
  md !! ("", "SECTION_SUMMARY") = None ->
  let md' := other_metadata svc name nSectionId md in
  md' !! ("", "COVERAGE_TITLE")
    = match query_title_abstract svc name with
      | Some [(pszTitle, _)] =>
          meaningful pszTitle (Some "*** missing Title ***")
      | _ => None
      end /\
  md' !! ("", "COVERAGE_ABSTRACT")
    = match query_title_abstract svc name with
      | Some [(_, pszAbstract)] =>
          meaningful pszAbstract (Some "*** missing Abstract ***")
      | _ => None
      end /\
  md' !! ("", "SECTION_SUMMARY")
    = (if 0 <=? nSectionId then
         match query_section_summary svc (name +:+ "_sections")
                 (wrap_int nSectionId) with
         | Some [pszSummary] => meaningful pszSummary None
         | _ => None
         end
       else None).
Proof.
  intros Ht Ha Hs md'. subst md'. unfold other_metadata, SetMetadataItem.
  set (md1 := match query_title_abstract svc name with
              | Some [(pszTitle, pszAbstract)] => _
              | _ => md
              end).
  assert (md1 !! ("", "COVERAGE_TITLE")
          = match query_title_abstract svc name with
            | Some [(pszTitle, _)] =>
                meaningful pszTitle (Some "*** missing Title ***")
            | _ => None
            end /\
          md1 !! ("", "COVERAGE_ABSTRACT")
          = match query_title_abstract svc name with
            | Some [(_, pszAbstract)] =>
                meaningful pszAbstract (Some "*** missing Abstract ***")
            | _ => None
            end /\
          md1 !! ("", "SECTION_SUMMARY") = None) as (H1 & H2 & H3).
  { subst md1.
    destruct (query_title_abstract svc name) as [[| [t a] [| ? ?]] |];
      try (repeat split; assumption).
    destruct (meaningful t (Some "*** missing Title ***")) as [tv |];
      destruct (meaningful a (Some "*** missing Abstract ***")) as [av |];
      repeat split; lookup_through; assumption. }
  destruct (0 <=? nSectionId); [| repeat split; assumption].
  destruct (query_section_summary svc (name +:+ "_sections")
              (wrap_int nSectionId)) as [[| s [| ? ?]] |];
    try (repeat split; assumption).
  destruct (meaningful s None) as [sv |];
    repeat split; lookup_through; assumption.
Qed.

(** X23: the descriptive items of an opened dataset.  On a data source
    that held no metadata, after a successful open the COVERAGE_TITLE and
    COVERAGE_ABSTRACT items are those of the single row that the store
    answers for the coverage, and SECTION_SUMMARY is that of the selected
    section; each is set only if the text is present, not empty and, for the
    title and the abstract, not the placeholder of the store, whatever the
    case of its letters.  So no item is ever empty or a placeholder, and
    there is no SECTION_SUMMARY without a selected section. *)
Theorem opened_descriptive_items svc this conn ds' ev :
  OpenRasterSubDataset svc this conn = (true, ds', ev) ->
  ds_metadata this = ∅ ->
  let name := m_osCoverageName ds' in
  let row := query_title_abstract svc name in
  ds_metadata ds' !! ("", "COVERAGE_TITLE")
    = match row with
      | Some [(pszTitle, _)] =>
          meaningful pszTitle (Some "*** missing Title ***")
      | _ => None
      end /\
  ds_metadata ds' !! ("", "COVERAGE_ABSTRACT")
    = match row with
      | Some [(_, pszAbstract)] =>
          meaningful pszAbstract (Some "*** missing Abstract ***")
      | _ => None
      end /\
  ds_metadata ds' !! ("", "SECTION_SUMMARY")
    = (if 0 <=? m_nSectionId ds' then
         match query_section_summary svc (name +:+ "_sections")
                 (wrap_int (m_nSectionId ds')) with
         | Some [pszSummary] => meaningful pszSummary None
         | _ => None
         end
       else None) /\
  (forall t, ds_metadata ds' !! ("", "COVERAGE_TITLE") = Some t ->
     t <> "" /\ EQUAL t "*** missing Title ***" = false) /\
  (forall a, ds_metadata ds' !! ("", "COVERAGE_ABSTRACT") = Some a ->
     a <> "" /\ EQUAL a "*** missing Abstract ***" = false) /\
  (forall s, ds_metadata ds' !! ("", "SECTION_SUMMARY") = Some s ->
     s <> "" /\ 0 <= m_nSectionId ds').
Proof.
  intros Hopen Hfresh name row.
  destruct (OpenRasterSubDataset_opened _ _ _ _ _ Hopen)
    as (cov & subs & sid & bs & g & nBits & eDT & bSigned
        & _ & _ & _ & _ & _ & _ & _ & Hsid & _ & _ & _ & _ & Hmd).
  assert (name = OGRSQLiteParamsUnquote svc
                   (nth 2 (CSLTokenizeString2 svc conn) "")) as Hname.
  { destruct (OpenRasterSubDataset_base _ _ _ _ _ Hopen)
      as (cov' & d & g' & Hds & _ & _ & _ & _ & _ & _ & _ & _ & Hn & _).
    destruct (instanciate_overviews_frame svc cov' d) as [ovs Hframe].
    subst name. rewrite Hds, Hframe. exact Hn. }
  rewrite <- Hname in Hmd. rewrite Hfresh in Hmd.
  set (md := nodata_metadata svc (fetch_nodata_values cov) (cov_bands cov)
               (compression_metadata (cov_compression cov) (cov_quality cov)
                  ∅)) in Hmd.
  assert (forall item, item <> "NODATA_VALUES" -> md !! ("", item) = None)
    as Hnone.
  { intros item Hitem. subst md.
    unfold nodata_metadata, compression_metadata, SetMetadataItem.
    repeat case_match;
      repeat (rewrite lookup_insert_ne by congruence); apply lookup_empty. }
  destruct (other_metadata_items svc name sid md
              (Hnone "COVERAGE_TITLE" ltac:(discriminate))
              (Hnone "COVERAGE_ABSTRACT" ltac:(discriminate))
              (Hnone "SECTION_SUMMARY" ltac:(discriminate)))
    as (H1 & H2 & H3).
  rewrite Hmd, Hsid. fold row in H1, H2.
  split; [exact H1 |]. split; [exact H2 |]. split; [exact H3 |].
  rewrite H1, H2, H3. split; [| split].
  - intros t Ht. destruct row as [[| [pt pa] [| ? ?]] |]; try discriminate.
    apply meaningful_Some in Ht as (_ & Hne & Hp).
    split; [exact Hne | now apply Hp].
  - intros a Ha. destruct row as [[| [pt pa] [| ? ?]] |]; try discriminate.
    apply meaningful_Some in Ha as (_ & Hne & Hp).
    split; [exact Hne | now apply Hp].
  - intros s Hs. destruct (Z.leb_spec 0 sid); [| discriminate].
    split; [| assumption].
    destruct (query_section_summary svc _ _) as [[| ps [| ? ?]] |];
      try discriminate.
    now apply meaningful_Some in Hs as (_ & Hne & _).
Qed.

Lemma opened_descriptive_items_witness :
  ds_metadata rgb_opened !! ("", "COVERAGE_TITLE") = Some "Title" /\
  ds_metadata rgb_opened !! ("", "SECTION_SUMMARY") = None.
Proof.
  destruct (opened_descriptive_items rgb_services (Sample.fresh [])
              coverage_id rgb_opened _
              (OpenRasterSubDataset_true_eta rgb_services (Sample.fresh [])
                 coverage_id eq_refl) eq_refl) as (H1 & _ & H3 & _).
  split.
  - rewrite H1. vm_compute. reflexivity.
  - rewrite H3. vm_compute. reflexivity.
Defined.
